(** * excel_to_html_converter: a shallow embedding and its properties

    The program reads a workbook, turns every sheet into a record of period
    labels, named rows and an optional aggregate row ([read_excel_data]),
    and prints the records as one tabbed HTML document ([generate_html]);
    [main] is the command line around the two.

    Python values are modelled as follows.
    - [str] is a [string] holding the UTF-8 bytes of the text.  Substring
      tests and the removal of an ASCII character commute with the encoding,
      so [in] and [replace] act on the bytes.
    - [int] is [Z].
    - [float] is an IEEE 754 binary64.  Every finite binary64 is an integer
      multiple of 2^-1074, so a finite value is held as a sign and its
      magnitude counted in units of 2^-1074; conversions round to nearest,
      ties to even, exactly as the interpreter does.
    - a [dict] is an association list in insertion order.

    A run is the list of its effects and the way it ends.  [main] is
    first read with every printed line taken; [process] then puts the run
    on a console that may refuse a line or fail to flush. *)

From Stdlib Require Import ZArith List String Ascii Bool Lia.
Import ListNotations.
Local Open Scope string_scope.
Local Open Scope Z_scope.

(** ** Text *)

(** The line feed and the double quote, which a literal cannot hold. *)
Definition nl : string := String (ascii_of_nat 10) EmptyString.
Definition dq : string := String (ascii_of_nat 34) EmptyString.

(** [needle in hay]. *)
Fixpoint contains (needle hay : string) : bool :=
  String.prefix needle hay ||
  match hay with
  | EmptyString => false
  | String _ rest => contains needle rest
  end.

(** [s.replace(',', '')]. *)
Fixpoint remove_commas (s : string) : string :=
  match s with
  | EmptyString => EmptyString
  | String c rest =>
      if Ascii.eqb c "," then remove_commas rest else String c (remove_commas rest)
  end.

Definition digit_char (d : Z) : ascii := ascii_of_nat (48 + Z.to_nat d).

(** Decimal digits of a natural number, most significant first; the fuel
    bounds the number of digits. *)
Fixpoint dec_digits (fuel : nat) (n : Z) (acc : string) : string :=
  match fuel with
  | O => acc
  | S fuel' =>
      let acc' := String (digit_char (n mod 10)) acc in
      if n <? 10 then acc' else dec_digits fuel' (n / 10) acc'
  end.

Definition str_nat (n : Z) : string :=
  dec_digits (S (Z.to_nat (Z.log2 n))) n "".

(** [str(z)] for an [int]. *)
Definition str_int (z : Z) : string :=
  if z <? 0 then "-" ++ str_nat (- z) else str_nat z.

(** ** Floating point numbers *)

(** [Finite neg n] is the number [(-1)^neg * n / 2^1074]. *)
Inductive float : Type :=
| Finite (neg : bool) (n : Z)
| Inf (neg : bool)
| NaN.

Definition scale : Z := 2 ^ 1074.

(** The first magnitude that is out of range, 2^1024 in units of 2^-1074. *)
Definition huge : Z := 2 ^ 2098.

(** A binary64 magnitude carries at most 53 significant bits. *)
Definition binary64 (f : float) : bool :=
  match f with
  | Finite _ n =>
      (0 <=? n) && (n <? huge) &&
      (n mod 2 ^ Z.max 0 (Z.log2 n + 1 - 53) =? 0)
  | _ => true
  end.

(** The integer nearest to [a / b], ties to the even one ([0 <= a], [0 < b]). *)
Definition round_half_even (a b : Z) : Z :=
  let q := a / b in
  let r := a mod b in
  if 2 * r <? b then q
  else if b <? 2 * r then q + 1
  else if Z.even q then q else q + 1.

(** The binary64 nearest to the rational [p / q] ([0 <= p], [0 < q]): the
    quotient is cut to 53 significant bits, or to the grid of the
    subnormals when it is smaller than that. *)
Definition round_rat (neg : bool) (p q : Z) : float :=
  let a := p * scale in
  let s := Z.max 0 (Z.log2 (a / q) + 1 - 53) in
  let n := round_half_even a (q * 2 ^ s) * 2 ^ s in
  if huge <=? n then Inf neg else Finite neg n.

(** The binary64 nearest to [m * 10^k]. *)
Definition round_dec (neg : bool) (m k : Z) : float :=
  if 0 <=? k then round_rat neg (m * 10 ^ k) 1 else round_rat neg m (10 ^ (- k)).

(** *** [float(s)] for a string

    The interpreter first brings the text to ASCII: a blank outside ASCII
    becomes a space and a decimal digit of any script its ASCII digit; the
    first other character outside ASCII becomes a question mark and ends
    the text.  The result is read with the grammar of the language
    reference: blanks around the text, a sign, then one of inf, infinity
    and nan in any case, or digits with an optional point and exponent,
    where single underscores may separate digits. *)

Definition is_digit (c : ascii) : bool :=
  ((48 <=? nat_of_ascii c) && (nat_of_ascii c <=? 57))%nat.

Definition digit_val (c : ascii) : Z := Z.of_nat (nat_of_ascii c) - 48.

Definition is_space (c : ascii) : bool :=
  let n := nat_of_ascii c in
  (((9 <=? n) && (n <=? 13)) || (n =? 32))%nat.

Fixpoint lstrip (l : list ascii) : list ascii :=
  match l with
  | c :: r => if is_space c then lstrip r else l
  | [] => []
  end.

Definition strip (l : list ascii) : list ascii :=
  rev (lstrip (rev (lstrip l))).

Definition lower (c : ascii) : ascii :=
  let n := nat_of_ascii c in
  if ((65 <=? n) && (n <=? 90))%nat then ascii_of_nat (n + 32) else c.

Definition take_sign (l : list ascii) : bool * list ascii :=
  match l with
  | "-"%char :: r => (true, r)
  | "+"%char :: r => (false, r)
  | _ => (false, l)
  end.

(** The rest of a run of digits: the value read so far, the number of
    digits read, and what follows the run. *)
Fixpoint digit_run (l : list ascii) (acc cnt : Z) : Z * Z * list ascii :=
  match l with
  | c :: r =>
      if is_digit c then digit_run r (10 * acc + digit_val c) (cnt + 1)
      else if Ascii.eqb c "_" then
        match r with
        | d :: r' =>
            if is_digit d then digit_run r' (10 * acc + digit_val d) (cnt + 1)
            else (acc, cnt, l)
        | [] => (acc, cnt, l)
        end
      else (acc, cnt, l)
  | [] => (acc, cnt, l)
  end.

Definition digitpart (l : list ascii) (acc : Z) : option (Z * Z * list ascii) :=
  match l with
  | c :: r =>
      if is_digit c then Some (digit_run r (10 * acc + digit_val c) 1) else None
  | [] => None
  end.

(** A decimal numeral as its digits read as one integer and a power of ten. *)
Definition parse_number (l : list ascii) : option (Z * Z) :=
  let '(ip, has_int, l1) :=
    match digitpart l 0 with
    | Some (a, _, r) => (a, true, r)
    | None => (0, false, l)
    end in
  let after_point :=
    match l1 with
    | "."%char :: r =>
        match digitpart r ip with
        | Some res => Some res
        | None => if has_int then Some (ip, 0, r) else None
        end
    | _ => if has_int then Some (ip, 0, l1) else None
    end in
  match after_point with
  | None => None
  | Some (m, fc, []) => Some (m, - fc)
  | Some (m, fc, e :: r) =>
      if Ascii.eqb (lower e) "e" then
        let (eneg, r1) := take_sign r in
        match digitpart r1 0 with
        | Some (ev, _, []) => Some (m, (if eneg then - ev else ev) - fc)
        | _ => None
        end
      else None
  end.

(** The text between the blanks, read as a number; [None] stands for
    [ValueError]. *)
Definition float_from_string_inner (l : list ascii) : option float :=
  let (neg, r) := take_sign (strip l) in
  let word := string_of_list_ascii (map lower r) in
  if String.eqb word "inf" || String.eqb word "infinity" then Some (Inf neg)
  else if String.eqb word "nan" then Some NaN
  else match parse_number r with
       | Some (m, k) => Some (round_dec neg m k)
       | None => None
       end.

(** [ch.isspace()] for a code point. *)
Definition unicode_isspace (cp : Z) : bool :=
  ((9 <=? cp) && (cp <=? 13)) || ((28 <=? cp) && (cp <=? 32)) ||
  (cp =? 133) || (cp =? 160) || (cp =? 5760) ||
  ((8192 <=? cp) && (cp <=? 8202)) || (cp =? 8232) || (cp =? 8233) ||
  (cp =? 8239) || (cp =? 8287) || (cp =? 12288).

(** The zero of every run of ten decimal digits (Unicode 14.0, the table
    of CPython 3.11). *)
Definition decimal_zeros : list Z :=
  [48; 1632; 1776; 1984; 2406; 2534; 2662; 2790; 2918; 3046; 3174; 3302;
   3430; 3558; 3664; 3792; 3872; 4160; 4240; 6112; 6160; 6470; 6608; 6784;
   6800; 6992; 7088; 7232; 7248; 42528; 43216; 43264; 43472; 43504; 43600;
   44016; 65296; 66720; 68912; 69734; 69872; 69942; 70096; 70384; 70736;
   70864; 71248; 71360; 71472; 71904; 72016; 72784; 73040; 73120; 92768;
   92864; 93008; 120782; 120792; 120802; 120812; 120822; 123200; 123632;
   125264; 130032].

(** The value of a decimal digit of any script. *)
Definition unicode_todecimal (cp : Z) : option Z :=
  match find (fun z => (z <=? cp) && (cp <=? z + 9)) decimal_zeros with
  | Some z => Some (cp - z)
  | None => None
  end.

(** What a character outside ASCII is brought to, before the text [rest]
    that follows it. *)
Definition transformed (cp : Z) (rest : list ascii) : list ascii :=
  if unicode_isspace cp then " "%char :: rest
  else match unicode_todecimal cp with
       | Some d => digit_char d :: rest
       | None => ["?"%char]
       end.

(** The loop over the characters of a text, on its UTF-8 bytes: [more]
    counts the bytes still to come of the character being read and [cp]
    holds the bits read of it.  The character 127, and a byte that begins
    no character, is neither a blank nor a digit. *)
Fixpoint transform (l : list ascii) (more : nat) (cp : Z) : list ascii :=
  match l with
  | [] =>
      match more with
      | O => []
      | S _ => ["?"%char]
      end
  | c :: r =>
      let n := Z.of_nat (nat_of_ascii c) in
      match more with
      | O =>
          if n <? 127 then c :: transform r 0 0
          else if n <? 192 then ["?"%char]
          else if n <? 224 then transform r 1 (n - 192)
          else if n <? 240 then transform r 2 (n - 224)
          else transform r 3 (n - 240)
      | S more' =>
          let cp' := 64 * cp + (n - 128) in
          match more' with
          | O => transformed cp' (transform r 0 0)
          | S _ => transform r more' cp'
          end
      end
  end.

Definition is_ascii (c : ascii) : bool := (nat_of_ascii c <? 128)%nat.

(** A text of ASCII characters is read as it stands. *)
Definition transform_decimal_and_space_to_ascii (l : list ascii) : list ascii :=
  if forallb is_ascii l then l else transform l 0 0.

(** [float(s)]; [None] stands for [ValueError]. *)
Definition py_float (s : string) : option float :=
  float_from_string_inner
    (transform_decimal_and_space_to_ascii (list_ascii_of_string s)).

(** *** [repr(x)] for a float: the shortest digits that read back as [x] *)

(** [10^e <= n / 2^1074]. *)
Definition pow10_le (e n : Z) : bool :=
  if 0 <=? e then 10 ^ e * scale <=? n else scale <=? n * 10 ^ (- e).

Fixpoint dec_exp_up (fuel : nat) (e n : Z) : Z :=
  match fuel with
  | O => e
  | S fuel' => if pow10_le (e + 1) n then dec_exp_up fuel' (e + 1) n else e
  end.

(** The exponent of the leading decimal digit, found from an estimate
    below it. *)
Definition dec_exponent (n : Z) : Z :=
  dec_exp_up 8 ((Z.log2 n - 1074) * 30103 / 100000 - 1) n.

Definition reads_back (n c k : Z) : bool :=
  match round_dec false c k with
  | Finite _ n' => n' =? n
  | _ => false
  end.

(** [floor (n / 2^1074 / 10^k)]. *)
Definition scaled_floor (n k : Z) : Z :=
  if 0 <=? k then n / (scale * 10 ^ k) else n * 10 ^ (- k) / scale.

(** Of [lo] and [lo + 1], the one nearer to [n / 2^1074 / 10^k]. *)
Definition nearest_of (n k lo : Z) : Z :=
  let '(a, b) :=
    if 0 <=? k then (2 * n, scale * 10 ^ k) else (2 * n * 10 ^ (- k), scale) in
  match a ?= (2 * lo + 1) * b with
  | Lt => lo
  | Gt => lo + 1
  | Eq => if Z.even lo then lo else lo + 1
  end.

(** With [p] digits, then [p + 1], and so on: the first decimal that reads
    back.  Seventeen digits always do, so the search does not run out;
    the case that ends it holds the exact expansion, which reads back as
    well. *)
Fixpoint shortest (fuel : nat) (p n e : Z) : Z * Z :=
  match fuel with
  | O => (n * 5 ^ 1074, -1074)
  | S fuel' =>
      let k := e - p + 1 in
      let lo := scaled_floor n k in
      match reads_back n lo k, reads_back n (lo + 1) k with
      | true, true => (nearest_of n k lo, k)
      | true, false => (lo, k)
      | false, true => (lo + 1, k)
      | false, false => shortest fuel' (p + 1) n e
      end
  end.

Fixpoint rstrip0 (rev_digits : list ascii) : list ascii :=
  match rev_digits with
  | "0"%char :: r => rstrip0 r
  | _ => rev_digits
  end.

Fixpoint zeros (n : nat) : string :=
  match n with
  | O => ""
  | S n' => String "0" (zeros n')
  end.

Definition exp_str (x : Z) : string :=
  (if x <? 0 then "-" else "+") ++
  (if Z.abs x <? 10 then "0" else "") ++ str_nat (Z.abs x).

Definition repr_finite (n : Z) : string :=
  let '(c, k) := shortest 17 1 n (dec_exponent n) in
  let all := str_nat c in
  let ds := string_of_list_ascii (rev (rstrip0 (rev (list_ascii_of_string all)))) in
  let decpt := Z.of_nat (String.length all) + k in
  let nd := Z.of_nat (String.length ds) in
  if (16 <? decpt) || (decpt <? -3) then
    match ds with
    | String d EmptyString => String d "" ++ "e" ++ exp_str (decpt - 1)
    | String d rest => String d "" ++ "." ++ rest ++ "e" ++ exp_str (decpt - 1)
    | EmptyString => ""
    end
  else if decpt <=? 0 then "0." ++ zeros (Z.to_nat (- decpt)) ++ ds
  else if decpt <? nd then
    substring 0 (Z.to_nat decpt) ds ++ "." ++
    substring (Z.to_nat decpt) (Z.to_nat (nd - decpt)) ds
  else ds ++ zeros (Z.to_nat (decpt - nd)) ++ ".0".

Definition repr (f : float) : string :=
  match f with
  | NaN => "nan"
  | Inf neg => if neg then "-inf" else "inf"
  | Finite neg n =>
      (if neg then "-" else "") ++ (if n =? 0 then "0.0" else repr_finite n)
  end.

(** *** Formatting *)

(** A comma before every group of three digits, counted from the right;
    the argument is the digits in reverse. *)
Fixpoint group3_rev (l : list ascii) : list ascii :=
  match l with
  | a :: b :: c :: ((_ :: _) as rest) =>
      a :: b :: c :: ","%char :: group3_rev rest
  | _ => l
  end.

Definition group3 (s : string) : string :=
  string_of_list_ascii (rev (group3_rev (rev (list_ascii_of_string s)))).

(** [x.is_integer()]. *)
Definition is_integer (f : float) : bool :=
  match f with
  | Finite _ n => n mod scale =? 0
  | _ => false
  end.

(** [int(x)] for a finite [x]: truncation towards zero. *)
Definition int_of_float (f : float) : Z :=
  match f with
  | Finite neg n => if neg then - (n / scale) else n / scale
  | _ => 0
  end.

Definition sign_str (neg : bool) : string := if neg then "-" else "".

(** [f"{z:,}"] for an [int]. *)
Definition format_int_comma (z : Z) : string :=
  sign_str (z <? 0) ++ group3 (str_nat (Z.abs z)).

(** The number of tenths nearest to a magnitude. *)
Definition tenths (n : Z) : Z := round_half_even (10 * n) scale.

(** [f"{x:,.1f}"] for a float. *)
Definition format_float_comma_1f (f : float) : string :=
  match f with
  | NaN => "nan"
  | Inf neg => if neg then "-inf" else "inf"
  | Finite neg n =>
      sign_str neg ++ group3 (str_nat (tenths n / 10)) ++ "." ++
      str_nat (tenths n mod 10)
  end.

(** ** Cell values *)

(** What a cell of the workbook holds: nothing, a boolean, a number or
    text. *)
Inductive pyval : Type :=
| PNone
| PBool (b : bool)
| PInt (z : Z)
| PFloat (f : float)
| PStr (s : string).

(** [str(v)], which is also what an f-string prints for [v]. *)
Definition py_str (v : pyval) : string :=
  match v with
  | PNone => "None"
  | PBool b => if b then "True" else "False"
  | PInt z => str_int z
  | PFloat f => repr f
  | PStr s => s
  end.

(** The truth value of [v] in a condition. *)
Definition truthy (v : pyval) : bool :=
  match v with
  | PNone => false
  | PBool b => b
  | PInt z => negb (z =? 0)
  | PFloat (Finite _ n) => negb (n =? 0)
  | PFloat _ => true
  | PStr s => negb (String.eqb s "")
  end.

Definition is_none (v : pyval) : bool :=
  match v with
  | PNone => true
  | _ => false
  end.

(** [v == s] for a string literal [s]. *)
Definition eq_str (v : pyval) (s : string) : bool :=
  match v with
  | PStr t => String.eqb t s
  | _ => false
  end.

(** A number as a multiple of 2^-1074, for comparisons across [bool],
    [int] and [float]. *)
Definition num_val (v : pyval) : option Z :=
  match v with
  | PBool b => Some (if b then scale else 0)
  | PInt z => Some (z * scale)
  | PFloat (Finite neg n) => Some (if neg then - n else n)
  | _ => None
  end.

(** Equality of dictionary keys.  Two cells never hold the same object, so
    a NaN equals no other key. *)
Definition key_eqb (a b : pyval) : bool :=
  match a, b with
  | PStr s, PStr t => String.eqb s t
  | PNone, PNone => true
  | PFloat (Inf s), PFloat (Inf t) => Bool.eqb s t
  | _, _ =>
      match num_val a, num_val b with
      | Some x, Some y => x =? y
      | _, _ => false
      end
  end.

(** ** format_number *)

(** The placeholder for a blank cell, U+FF0D. *)
Definition placeholder : string := "－".

(** [float(str(value).replace(',', ''))]. *)
Definition to_float (value : pyval) : option float :=
  py_float (remove_commas (py_str value)).

Definition format_number (value : pyval) : string :=
  if eq_str value "－" || eq_str value "" || is_none value then "－"
  else
    match to_float value with
    | Some num =>
        if is_integer num then format_int_comma (int_of_float num)
        else format_float_comma_1f num
    | None => py_str value
    end.

(** ** read_excel_data *)

(** A worksheet: its extent and the value of each cell, rows and columns
    counted from 1. *)
Record worksheet : Type := {
  max_row : nat;
  max_column : nat;
  cell : nat -> nat -> pyval
}.

(** A workbook: its sheets by name, in the order of [wb.sheetnames]. *)
Definition workbook : Type := list (string * worksheet).

Record sheet_data : Type := {
  years : list string;
  prefectures : list (pyval * list string);
  total : option (list string)
}.

(** [d[k] = v]: a key that is present keeps its place and its key object. *)
Fixpoint dict_set {K V : Type} (eqb : K -> K -> bool)
    (d : list (K * V)) (k : K) (v : V) : list (K * V) :=
  match d with
  | [] => [(k, v)]
  | (k', v') :: rest =>
      if eqb k' k then (k', v) :: rest else (k', v') :: dict_set eqb rest k v
  end.

(** [range(2, m + 1)]. *)
Definition range_from_2 (m : nat) : list nat := seq 2 (m - 1).

Definition header_years (ws : worksheet) : list string :=
  flat_map
    (fun col =>
       let year_value := cell ws 1 col in
       if truthy year_value then [py_str year_value] else [])
    (range_from_2 (max_column ws)).

Definition cell_text (cell_value : pyval) : string :=
  if is_none cell_value || eq_str cell_value "" then "－"
  else format_number cell_value.

Definition row_data (ws : worksheet) (row : nat) : list string :=
  map (fun col => cell_text (cell ws row col)) (range_from_2 (max_column ws)).

Definition is_total_label (pref_name : pyval) : bool :=
  contains "総計" (py_str pref_name) || contains "合計" (py_str pref_name).

(** One turn of the loop over the body rows, on the pair of [prefectures]
    and [total_row]. *)
Definition row_step (ws : worksheet)
    (st : list (pyval * list string) * option (list string)) (row : nat)
    : list (pyval * list string) * option (list string) :=
  let pref_name := cell ws row 1 in
  if negb (truthy pref_name) then st
  else
    if is_total_label pref_name then (fst st, Some (row_data ws row))
    else (dict_set key_eqb (fst st) pref_name (row_data ws row), snd st).

Definition read_sheet (ws : worksheet) : sheet_data :=
  let st := fold_left (row_step ws) (range_from_2 (max_row ws)) ([], None) in
  {| years := header_years ws; prefectures := fst st; total := snd st |}.

Definition read_excel_data (wb : workbook) : list (string * sheet_data) :=
  fold_left
    (fun data sheet => dict_set String.eqb data (fst sheet) (read_sheet (snd sheet)))
    wb [].

(** ** generate_html *)

Inductive py_exn : Type :=
| IndexError
| InvalidFileException
| OSError
| UnicodeEncodeError.

(** The two literals around the tabs and panels: the opening f-string,
    which depends on the title, the subtitle and the clock, and the closing
    script.  Their text plays no part below. *)
Record template : Type := {
  tpl_head : string -> string -> string;
  tpl_script : string
}.

Fixpoint sp (n : nat) : string :=
  match n with
  | O => ""
  | S n' => String " " (sp n')
  end.

Definition enumerate {A : Type} (l : list A) : list (nat * A) :=
  combine (seq 0 (List.length l)) l.

Definition active_class (i : nat) : string :=
  if Nat.eqb i 0 then "active" else "".

Definition tab_button (i : nat) (tab_name : string) : string :=
  sp 12 ++ "<button class=" ++ dq ++ "tab " ++ active_class i ++ dq ++
  " onclick=" ++ dq ++ "showTab(event, '" ++ tab_name ++ "')" ++ dq ++ ">" ++
  tab_name ++ "</button>" ++ nl.

Definition panel_comment (tab_name : string) : string :=
  sp 8 ++ "<!-- " ++ tab_name ++ "タブ (" ++ tab_name ++ " Tab) -->" ++ nl.

Definition panel_open (i : nat) (tab_name : string) : string :=
  sp 8 ++ "<div id=" ++ dq ++ tab_name ++ dq ++ " class=" ++ dq ++
  "tab-content " ++ active_class i ++ dq ++ ">" ++ nl.

Definition panel_heading (tab_name first_year last_year : string) : string :=
  sp 12 ++ "<h2>" ++ tab_name ++ " 都道府県別補助金交付台数一覧表（" ++
  first_year ++ "～" ++ last_year ++ "年度）</h2>" ++ nl.

Definition th_total (year : string) : string :=
  sp 28 ++ "<th class=" ++ dq ++ "total-col" ++ dq ++ ">" ++ year ++ "</th>" ++ nl.

Definition th_plain (year : string) : string :=
  sp 28 ++ "<th>" ++ year ++ "</th>" ++ nl.

Definition year_header (year : string) : string :=
  if String.eqb year "計" || contains "計" year then th_total year
  else th_plain year.

Definition td_total (value : string) : string :=
  sp 28 ++ "<td class=" ++ dq ++ "total-col" ++ dq ++ ">" ++ value ++ "</td>" ++ nl.

Definition td_plain (value : string) : string :=
  sp 28 ++ "<td>" ++ value ++ "</td>" ++ nl.

(** The cells of one row: [j == len(row) - 1] picks the last one. *)
Definition value_cells (row : list string) : list string :=
  map
    (fun jv =>
       if Z.of_nat (fst jv) =? Z.of_nat (List.length row) - 1
       then td_total (snd jv) else td_plain (snd jv))
    (enumerate row).

Definition label_cell (label : string) : string :=
  sp 28 ++ "<td>" ++ label ++ "</td>" ++ nl.

Definition row_open : string := sp 24 ++ "<tr>" ++ nl.
Definition total_row_open : string :=
  sp 24 ++ "<tr class=" ++ dq ++ "total-row" ++ dq ++ ">" ++ nl.
Definition row_close : string := sp 24 ++ "</tr>" ++ nl.

Definition data_row (pref : pyval * list string) : string :=
  row_open ++
  label_cell (py_str (fst pref)) ++
  String.concat "" (value_cells (snd pref)) ++
  row_close.

(** The lines of the aggregate row; [tab_data.get('total')] is false for
    a missing row and for an empty one. *)
Definition total_row_lines (tot : option (list string)) : list string :=
  match tot with
  | Some ((_ :: _) as row) =>
      total_row_open :: label_cell "総計" :: List.app (value_cells row) [row_close]
  | _ => []
  end.

(** The panel of one sheet.  The heading reads [years[0]] and [years[-1]]. *)
Definition panel (i : nat) (tab_name : string) (tab_data : sheet_data)
    : py_exn + string :=
  match years tab_data with
  | [] => inl IndexError
  | first_year :: _ =>
      inr (panel_comment tab_name ++
           panel_open i tab_name ++
           panel_heading tab_name first_year (last (years tab_data) first_year) ++
           sp 12 ++ "<div class=" ++ dq ++ "table-wrapper" ++ dq ++ ">" ++ nl ++
           sp 16 ++ "<table>" ++ nl ++
           sp 20 ++ "<thead>" ++ nl ++
           row_open ++
           sp 28 ++ "<th>都道府県</th>" ++ nl ++
           String.concat "" (map year_header (years tab_data)) ++
           row_close ++
           sp 20 ++ "</thead>" ++ nl ++
           sp 20 ++ "<tbody>" ++ nl ++
           String.concat "" (map data_row (prefectures tab_data)) ++
           String.concat "" (total_row_lines (total tab_data)) ++
           sp 20 ++ "</tbody>" ++ nl ++
           sp 16 ++ "</table>" ++ nl ++
           sp 12 ++ "</div>" ++ nl ++
           sp 8 ++ "</div>" ++ nl ++ nl)
  end.

(** The loop over the sheets; the first exception ends it. *)
Fixpoint panels (l : list (nat * (string * sheet_data))) (html : string)
    : py_exn + string :=
  match l with
  | [] => inr html
  | (i, (tab_name, tab_data)) :: rest =>
      match panel i tab_name tab_data with
      | inl e => inl e
      | inr p => panels rest (html ++ p)
      end
  end.

(** The text of [html_template] when the function reaches the write. *)
Definition document (tpl : template) (data : list (string * sheet_data))
    (page_title page_subtitle : string) : py_exn + string :=
  let tabs := map fst data in
  let html :=
    tpl_head tpl page_title page_subtitle ++
    String.concat "" (map (fun it => tab_button (fst it) (snd it)) (enumerate tabs)) ++
    sp 8 ++ "</div>" ++ nl ++ nl in
  match panels (enumerate data) html with
  | inl e => inl e
  | inr html' => inr (html' ++ tpl_script tpl)
  end.

(** *** Effects *)

Inductive effect : Type :=
| Print (line : string)
| PathExists (path : string)
| LoadWorkbook (path : string)
| OpenForWriting (path : string)
| FileWritten (path content : string).

(** How a run stops early: [sys.exit] or an exception nobody catches. *)
Inductive halt : Type :=
| Exit (code : Z)
| Uncaught (e : py_exn).

(** A computation: what it did, and how it ended. *)
Definition run (A : Type) : Type := list effect * (halt + A).

Definition ret {A : Type} (a : A) : run A := ([], inr a).

Definition bind {A B : Type} (c : run A) (k : A -> run B) : run B :=
  match c with
  | (t, inl h) => (t, inl h)
  | (t, inr a) => let (t', r) := k a in ((t ++ t')%list, r)
  end.

Notation "x <- c ;; k" := (bind c (fun x => k))
  (at level 61, c at next level, right associativity).
Notation "c ;; k" := (bind c (fun _ => k))
  (at level 61, right associativity).

(** [print] as a request: the line handed to standard output.  What the
    stream makes of it is the matter of [on_console] below; a run read
    without a console is one whose every line is taken. *)
Definition print (line : string) : run unit := ([Print line], inr tt).
Definition sys_exit {A : Type} (code : Z) : run A := ([], inl (Exit code)).
Definition raise {A : Type} (e : py_exn) : run A := ([], inl (Uncaught e)).

(** What the run finds outside: which paths exist, what loading a path
    gives, and which paths can be written. *)
Record world : Type := {
  path_exists : string -> bool;
  load_workbook : string -> py_exn + workbook;
  writable : string -> bool
}.

Definition exists_path (w : world) (path : string) : run bool :=
  ([PathExists path], inr (path_exists w path)).

Definition load (w : world) (path : string) : run workbook :=
  match load_workbook w path with
  | inl e => ([LoadWorkbook path], inl (Uncaught e))
  | inr wb => ([LoadWorkbook path], inr wb)
  end.

Definition write_text (w : world) (path content : string) : run unit :=
  if writable w path then ([OpenForWriting path; FileWritten path content], inr tt)
  else ([OpenForWriting path], inl (Uncaught OSError)).

Definition generate_html (tpl : template) (w : world)
    (data : list (string * sheet_data))
    (output_file page_title page_subtitle : string) : run unit :=
  match document tpl data page_title page_subtitle with
  | inl e => raise e
  | inr html_template =>
      write_text w output_file html_template ;;
      print ("✅ HTMLファイルを生成しました: " ++ output_file) ;;
      print ("   Generated HTML file: " ++ output_file)
  end.

(** ** main *)

Definition usage : list string :=
  ["使い方 (Usage):";
   "  python excel_to_html_converter.py <excel_file> <output_file>";
   nl ++ "例 (Examples):";
   "  python excel_to_html_converter.py koufu_data.xlsx koufu.html";
   "  python excel_to_html_converter.py koufu2_data.xlsx koufu2.html";
   "  python excel_to_html_converter.py koufu3_data.xlsx koufu3.html"].

Fixpoint print_all (lines : list string) : run unit :=
  match lines with
  | [] => ret tt
  | line :: rest => print line ;; print_all rest
  end.

Definition titles (output_file : string) : string * string :=
  if contains "koufu2" output_file then
    ("都道府県別補助金交付状況", "外部給電器（V2L）･V2H充放電設備")
  else if contains "koufu3" output_file then
    ("都道府県別補助金交付状況", "充電設備")
  else
    ("都道府県別補助金交付状況", "EV・PHEV・FCV・原付EV").

(** [argv] is [sys.argv]: the program's name, then the arguments. *)
Definition main (tpl : template) (w : world) (argv : list string) : run unit :=
  if (List.length argv <? 3)%nat then
    print_all usage ;;
    sys_exit 1
  else
    let excel_file := nth 1 argv "" in
    let output_file := nth 2 argv "" in
    let (page_title, page_subtitle) := titles output_file in
    found <- exists_path w excel_file ;;
    if negb found then
      print ("❌ エラー: ファイルが見つかりません: " ++ excel_file) ;;
      print ("   Error: File not found: " ++ excel_file) ;;
      sys_exit 1
    else
      print ("📖 エクセルファイルを読み込んでいます: " ++ excel_file) ;;
      print ("   Reading Excel file: " ++ excel_file) ;;
      wb <- load w excel_file ;;
      let data := read_excel_data wb in
      let count := str_int (Z.of_nat (List.length data)) in
      print ("📊 " ++ count ++ "個のシートを読み込みました") ;;
      print ("   Loaded " ++ count ++ " sheets") ;;
      print_all (map (fun sheet => "   - " ++ fst sheet) data) ;;
      print (nl ++ "🔨 HTMLを生成しています...") ;;
      print "   Generating HTML..." ;;
      generate_html tpl w data output_file page_title page_subtitle ;;
      print (nl ++ "✨ 完了しました!") ;;
      print "   Done!".

(** The status the process ends with. *)
Definition exit_status (r : run unit) : Z :=
  match snd r with
  | inr _ => 0
  | inl (Exit code) => code
  | inl (Uncaught _) => 1
  end.

(** *** Standard output

    [print] hands a line to standard output, and the stream may refuse it:
    a line that its encoding cannot hold raises UnicodeEncodeError, a
    stream that cannot be written raises OSError.  What the stream does
    with a line may depend on the lines before it.  Nothing in the program
    catches these exceptions, so the run ends at the first line refused.
    When the interpreter ends it flushes the stream, and a flush that
    fails makes the status 120, whatever it was. *)
Record console : Type := {
  refuses : list string -> string -> option py_exn;
  flush_fails : list string -> bool
}.

(** What a run does on a console, after the lines [printed]: its effects
    up to the first line refused, how it ends, and the lines printed. *)
Fixpoint on_console (con : console) (printed : list string)
    (t : list effect) (r : halt + unit)
    : list effect * (halt + unit) * list string :=
  match t with
  | [] => ([], r, printed)
  | Print line :: t' =>
      match refuses con printed line with
      | Some e => ([], inl (Uncaught e), printed)
      | None =>
          let '(t'', r', p) := on_console con (printed ++ [line]) t' r in
          (Print line :: t'', r', p)
      end
  | e :: t' =>
      let '(t'', r', p) := on_console con printed t' r in
      (e :: t'', r', p)
  end.

(** The effects of the process and the status it ends with. *)
Definition process (con : console) (r : run unit) : list effect * Z :=
  let '(t, res, printed) := on_console con [] (fst r) (snd r) in
  (t, if flush_fails con printed then 120 else exit_status (t, res)).


(** ** Body rows

    A body row is extracted when its label is true in a condition, and
    marked when the label contains one of the two markers. *)
Definition extracted (ws : worksheet) (row : nat) : bool := truthy (cell ws row 1).
Definition marked (ws : worksheet) (row : nat) : bool := is_total_label (cell ws row 1).

(** ** Reading the document back *)

(** A cell line carries the aggregate-column class when it opens with the
    tag that names it. *)
Definition has_total_col (line : string) : bool :=
  String.prefix (sp 28 ++ "<th class=" ++ dq ++ "total-col" ++ dq ++ ">") line ||
  String.prefix (sp 28 ++ "<td class=" ++ dq ++ "total-col" ++ dq ++ ">") line.

Fixpoint drop_prefix (p s : string) : option string :=
  match p, s with
  | EmptyString, _ => Some s
  | String a p', String b s' => if Ascii.eqb a b then drop_prefix p' s' else None
  | String _ _, EmptyString => None
  end.

Fixpoint until_quote (s : string) : string :=
  match s with
  | EmptyString => EmptyString
  | String c rest =>
      if Ascii.eqb c (ascii_of_nat 34) then EmptyString else String c (until_quote rest)
  end.

(** The value of the id attribute of a panel's opening line, as a reader
    of the document finds it: the text up to the closing quote. *)
Definition panel_id (line : string) : option string :=
  option_map until_quote (drop_prefix (sp 8 ++ "<div id=" ++ dq) line).

(** Characters that may stand in an identifier token: letters, digits,
    hyphen, underscore, and the bytes of characters outside ASCII. *)
Definition token_char (c : ascii) : bool :=
  let n := nat_of_ascii c in
  (((48 <=? n) && (n <=? 57)) || ((65 <=? n) && (n <=? 90)) ||
   ((97 <=? n) && (n <=? 122)) || (n =? 45) || (n =? 95) || (128 <=? n))%nat.

Definition safe_token (s : string) : bool :=
  negb (String.eqb s "") && forallb token_char (list_ascii_of_string s).

(** ** Sample inputs *)

Definition sample_template : template :=
  {| tpl_head := fun title subtitle => "<h1>" ++ title ++ "</h1>" ++ subtitle ++ nl;
     tpl_script := "</html>" ++ nl |}.

(** Periods 2009, 2010 and a sum column, one region and an aggregate row
    labelled with the second marker. *)
Definition sample_sheet : worksheet :=
  {| max_row := 3;
     max_column := 4;
     cell := fun row col =>
       match row, col with
       | 1, 1 => PStr "都道府県" | 1, 2 => PInt 2009 | 1, 3 => PInt 2010 | 1, 4 => PStr "計"
       | 2, 1 => PStr "北海道" | 2, 2 => PInt 596 | 2, 3 => PInt 654 | 2, 4 => PInt 1250
       | 3, 1 => PStr "合計" | 3, 2 => PInt 596 | 3, 3 => PInt 654 | 3, 4 => PInt 1250
       | _, _ => PNone
       end%nat |}.

(** The header of the third column is blank. *)
Definition gap_sheet : worksheet :=
  {| max_row := 2;
     max_column := 3;
     cell := fun row col =>
       match row, col with
       | 1, 1 => PStr "都道府県" | 1, 2 => PInt 2009
       | 2, 1 => PStr "北海道" | 2, 2 => PInt 596 | 2, 3 => PInt 654
       | _, _ => PNone
       end%nat |}.

Definition sample_world : world :=
  {| path_exists := fun _ => true;
     load_workbook := fun _ => inr [("EV", sample_sheet)];
     writable := fun _ => true |}.

(** Two body rows with a marker, a region between them. *)
Definition two_totals_sheet : worksheet :=
  {| max_row := 4;
     max_column := 2;
     cell := fun row col =>
       match row, col with
       | 1, 1 => PStr "都道府県" | 1, 2 => PInt 2009
       | 2, 1 => PStr "小計 合計" | 2, 2 => PInt 1
       | 3, 1 => PStr "北海道" | 3, 2 => PInt 2
       | 4, 1 => PStr "総計" | 4, 2 => PInt 3
       | _, _ => PNone
       end%nat |}.

(** The document of the sample sheet. *)
Definition sample_document : string :=
  Eval vm_compute in
    match document sample_template (read_excel_data [("EV", sample_sheet)]) "t" "s" with
    | inr html => html
    | inl _ => ""
    end.

(** Two sheets, and their document. *)
Definition two_sheets : list (string * sheet_data) :=
  [("EV", read_sheet sample_sheet); ("PHEV", read_sheet gap_sheet)].

Definition two_sheet_document : string :=
  Eval vm_compute in
    match document sample_template two_sheets "t" "s" with
    | inr html => html
    | inl _ => ""
    end.

(** Two periods, neither of them a sum. *)
Definition plain_sheet : sheet_data :=
  {| years := ["2009"; "2010"];
     prefectures := [(PStr "北海道", ["596"; "654"])];
     total := None |}.

(** The magnitude of the float nearest to 1234.56, in units of 2^-1074. *)
Definition mag_1234_56 : Z :=
  Eval vm_compute in
    match py_float "1234.56" with
    | Some (Finite _ n) => n
    | _ => 0
    end.

(** ** Notions used in the proofs *)

(** A list of decimal digits. *)
Definition digits_only (l : list ascii) : Prop :=
  Forall (fun c => is_digit c = true) l.

Definition not_comma (c : ascii) : bool := negb (Ascii.eqb c ",").

(** The number a list of digits spells after the value [a]. *)
Definition read_digits (l : list ascii) (a : Z) : Z :=
  fold_left (fun a c => 10 * a + digit_val c) l a.

(** Every row held by the loop state has [len] values. *)
Definition rows_shaped (len : nat)
    (st : list (pyval * list string) * option (list string)) : Prop :=
  (forall k vals, In (k, vals) (fst st) -> List.length vals = len) /\
  (forall t, snd st = Some t -> List.length t = len).

(** ** The cells of a table, as a reader of the document finds them

    A cell line with its tag, with or without the aggregate-column class;
    the cells of a body row, where the position alone decides, and those
    of the header row, where the label alone does. *)
Definition cell_of (tag : string) (aggregate : bool) (text : string) : string :=
  sp 28 ++ "<" ++ tag ++
  (if aggregate then " class=" ++ dq ++ "total-col" ++ dq else "") ++ ">" ++
  text ++ "</" ++ tag ++ ">" ++ nl.

Definition cells_by_position (vals : list string) : string :=
  String.concat "" (map (cell_of "td" false) (removelast vals)) ++
  match vals with
  | [] => ""
  | _ :: _ => cell_of "td" true (last vals "")
  end.

Definition cells_by_label (labels : list string) : string :=
  String.concat "" (map (fun label => cell_of "th" (contains "計" label) label) labels).

(** ** Grouped digits

    Digits in groups of three as a reader checks them: the text begins
    with a digit and, read from the right, holds a comma after every
    three digits and nowhere else.  [seen] counts the digits read since
    the last comma. *)
Fixpoint grouped_from (seen : nat) (rev_text : list ascii) : bool :=
  match rev_text with
  | [] => true
  | c :: r =>
      match seen with
      | 3%nat => Ascii.eqb c "," && grouped_from 0 r
      | _ => is_digit c && grouped_from (S seen) r
      end
  end.

Definition grouped (s : string) : bool :=
  match list_ascii_of_string s with
  | c :: _ => is_digit c
  | [] => false
  end && grouped_from 0 (rev (list_ascii_of_string s)).

(** The label of a row holds one of the two markers. *)
Definition has_marker (label : string) : Prop :=
  exists before after,
    label = before ++ "総計" ++ after \/ label = before ++ "合計" ++ after.

(** * Further definitions *)

(** What may follow the mantissa of a numeral: nothing, or an exponent with
    its sign and digits; the second index is the exponent's value. *)
Inductive exp_tail : list ascii -> Z -> Prop :=
| tail_none : exp_tail [] 0
| tail_exp (neg : bool) (digits : list ascii) :
    digits_only digits -> digits <> [] ->
    exp_tail ("e"%char :: (if neg then "-"%char else "+"%char) :: digits)
             (if neg then - read_digits digits 0 else read_digits digits 0).

(** The characters [repr] writes for a finite float. *)
Definition float_char (c : ascii) : bool :=
  is_digit c || Ascii.eqb c "." || Ascii.eqb c "e" || Ascii.eqb c "+" ||
  Ascii.eqb c "-".

(** The text of a finite float from its digits and the place of the
    point, as [repr_finite] lays it out. *)
Definition float_layout (ds : string) (decpt : Z) : string :=
  let nd := Z.of_nat (String.length ds) in
  if (16 <? decpt) || (decpt <? -3) then
    match ds with
    | String d EmptyString => String d "" ++ "e" ++ exp_str (decpt - 1)
    | String d rest => String d "" ++ "." ++ rest ++ "e" ++ exp_str (decpt - 1)
    | EmptyString => ""
    end
  else if decpt <=? 0 then "0." ++ zeros (Z.to_nat (- decpt)) ++ ds
  else if decpt <? nd then
    substring 0 (Z.to_nat decpt) ds ++ "." ++
    substring (Z.to_nat decpt) (Z.to_nat (nd - decpt)) ds
  else ds ++ zeros (Z.to_nat (decpt - nd)) ++ ".0".

(** A numeral that starts with a digit, holds only the characters of a
    printed float, and reads as [m * 10^k]. *)
Definition reads_as (l : list ascii) (m k : Z) : Prop :=
  (exists d r, l = d :: r /\ is_digit d = true) /\
  Forall (fun c => float_char c = true) l /\
  parse_number l = Some (m, k).

(** An ASCII character with which no numeral can start: not a blank, a
    digit, a sign, a point or a comma, and not the first letter of inf or
    nan. *)
Definition no_numeral_start (c : ascii) : bool :=
  negb (is_space c || is_digit c ||
        Ascii.eqb c "+" || Ascii.eqb c "-" || Ascii.eqb c "." || Ascii.eqb c "," ||
        Ascii.eqb (lower c) "i" || Ascii.eqb (lower c) "n").

Definition byte (c : ascii) : Z := Z.of_nat (nat_of_ascii c).

Definition continuation (c : ascii) : bool := (128 <=? byte c) && (byte c <? 192).

(** The first character of a text as a code point, read from its UTF-8
    bytes. *)
Definition first_code_point (l : list ascii) : option Z :=
  match l with
  | [] => None
  | c :: r =>
      let n := byte c in
      if n <? 128 then Some n
      else if n <? 192 then None
      else if n <? 224 then
        match r with
        | c2 :: _ =>
            if continuation c2 then Some (64 * (n - 192) + (byte c2 - 128)) else None
        | _ => None
        end
      else if n <? 240 then
        match r with
        | c2 :: c3 :: _ =>
            if continuation c2 && continuation c3
            then Some (64 * (64 * (n - 224) + (byte c2 - 128)) + (byte c3 - 128))
            else None
        | _ => None
        end
      else
        match r with
        | c2 :: c3 :: c4 :: _ =>
            if continuation c2 && continuation c3 && continuation c4
            then Some (64 * (64 * (64 * (n - 240) + (byte c2 - 128)) + (byte c3 - 128))
                       + (byte c4 - 128))
            else None
        | _ => None
        end
  end.

(** A text whose first character is no blank and no decimal digit of any
    script, no sign, point or comma, and not the first letter of inf or
    nan. *)
Definition text_start (s : string) : bool :=
  match first_code_point (list_ascii_of_string s) with
  | Some cp =>
      negb (unicode_isspace cp) &&
      match unicode_todecimal cp with
      | Some _ => false
      | None => true
      end &&
      negb ((cp =? 43) || (cp =? 45) || (cp =? 46) || (cp =? 44) ||
            (cp =? 73) || (cp =? 105) || (cp =? 78) || (cp =? 110))
  | None => false
  end.

(** [d[k]] as a lookup: the value of the first key equal to [k]. *)
Fixpoint dict_get {K V : Type} (eqb : K -> K -> bool)
    (d : list (K * V)) (k : K) : option V :=
  match d with
  | [] => None
  | (k', v) :: rest => if eqb k' k then Some v else dict_get eqb rest k
  end.

(** No key of a dictionary equals a later one. *)
Fixpoint distinct_keys {K V : Type} (eqb : K -> K -> bool)
    (d : list (K * V)) : Prop :=
  match d with
  | [] => True
  | (k, _) :: rest =>
      (forall k' v', In (k', v') rest -> eqb k k' = false) /\ distinct_keys eqb rest
  end.

(** The body rows that enter the mapping. *)
Definition mapped_rows (ws : worksheet) : list nat :=
  filter (fun r => negb (marked ws r))
         (filter (extracted ws) (range_from_2 (max_row ws))).

(** The rows of [rows] whose label is the text [s]. *)
Definition labelled (ws : worksheet) (s : string) (rows : list nat) : list nat :=
  filter (fun r => key_eqb (cell ws r 1) (PStr s)) rows.

(** What a run has done when it calls generate_html: the check of the
    source path, the load, and the progress lines. *)
Definition progress (excel_file : string) (data : list (string * sheet_data))
    : list effect :=
  ([PathExists excel_file;
    Print ("📖 エクセルファイルを読み込んでいます: " ++ excel_file);
    Print ("   Reading Excel file: " ++ excel_file);
    LoadWorkbook excel_file;
    Print ("📊 " ++ str_int (Z.of_nat (List.length data)) ++ "個のシートを読み込みました");
    Print ("   Loaded " ++ str_int (Z.of_nat (List.length data)) ++ " sheets")] ++
   map (fun sheet => Print ("   - " ++ fst sheet)) data ++
   [Print (nl ++ "🔨 HTMLを生成しています..."); Print "   Generating HTML..."])%list.

(** What follows a successful write. *)
Definition completion (output_file : string) : list effect :=
  [Print ("✅ HTMLファイルを生成しました: " ++ output_file);
   Print ("   Generated HTML file: " ++ output_file);
   Print (nl ++ "✨ 完了しました!");
   Print "   Done!"].

(** An effect stays with the two paths of the command line: it reads only
    the source and writes only the destination. *)
Definition confined (src dst : string) (e : effect) : bool :=
  match e with
  | Print _ => true
  | PathExists p | LoadWorkbook p => String.eqb p src
  | OpenForWriting p | FileWritten p _ => String.eqb p dst
  end.





(** A console that takes every line; one whose encoding holds ASCII
    only; and one that keeps the lines in its buffer and cannot write
    them out. *)
Definition quiet_console : console :=
  {| refuses := fun _ _ => None; flush_fails := fun _ => false |}.

Definition ascii_console : console :=
  {| refuses := fun _ line =>
       if forallb is_ascii (list_ascii_of_string line) then None
       else Some UnicodeEncodeError;
     flush_fails := fun _ => false |}.

Definition full_console : console :=
  {| refuses := fun _ _ => None;
     flush_fails := fun printed => negb (Nat.eqb (List.length printed) 0) |}.

Definition sample_argv : list string :=
  ["excel_to_html_converter.py"; "koufu2_data.xlsx"; "koufu2.html"].

Definition is_file_written (e : effect) : bool :=
  match e with
  | FileWritten _ _ => true
  | _ => false
  end.

(** A cell whose float, if it holds one, is a binary64. *)
Definition well_formed_cell (v : pyval) : bool :=
  match v with
  | PFloat f => binary64 f
  | _ => true
  end.

(** ** format_japanese_date *)

(** [s.replace(old, new)] for a non-empty [old]: the occurrences of [old]
    are replaced from the left, and none overlaps the one before it.
    [skip] counts the characters of an occurrence still to pass. *)
Fixpoint replace_from (old new : string) (skip : nat) (s : string) : string :=
  match s with
  | EmptyString => EmptyString
  | String c rest =>
      match skip with
      | S k => replace_from old new k rest
      | O =>
          if String.prefix old s
          then new ++ replace_from old new (String.length old - 1) rest
          else String c (replace_from old new 0 rest)
      end
  end.

Definition replace (old new s : string) : string := replace_from old new 0 s.

(** The date of a [datetime]; the time of day plays no part. *)
Record datetime : Type := {
  dt_year : Z;
  dt_month : Z;
  dt_day : Z
}.

(** A date of the calendar, with a year of four digits, which every
    platform prints alike. *)
Definition valid_date (dt : datetime) : bool :=
  (1000 <=? dt_year dt) && (dt_year dt <=? 9999) &&
  (1 <=? dt_month dt) && (dt_month dt <=? 12) &&
  (1 <=? dt_day dt) && (dt_day dt <=? 31).

Definition two_digits (n : Z) : string :=
  (if n <? 10 then "0" else "") ++ str_nat n.

(** [dt.strftime] with the month and the day padded to two digits. *)
Definition strftime_padded (dt : datetime) : string :=
  str_nat (dt_year dt) ++ "年" ++ two_digits (dt_month dt) ++ "月" ++
  two_digits (dt_day dt) ++ "日".

(** [dt.strftime] with the flag that drops the padding. *)
Definition strftime_plain (dt : datetime) : string :=
  str_nat (dt_year dt) ++ "年" ++ str_nat (dt_month dt) ++ "月" ++
  str_nat (dt_day dt) ++ "日".

(** Where the program runs: what [platform.system()] says, and whether
    [strftime] takes the flag or raises ValueError. *)
Record platform : Type := {
  is_windows : bool;
  takes_flag : bool
}.

(** [now] is what [datetime.now()] gives. *)
Definition format_japanese_date (pf : platform) (now : datetime)
    (dt : option datetime) : string :=
  let dt := match dt with Some d => d | None => now end in
  if is_windows pf then
    if takes_flag pf then strftime_plain dt
    else replace "月0" "月" (replace "年0" "年" (strftime_padded dt))
  else
    if takes_flag pf then strftime_plain dt
    else replace "月0" "月" (replace "年0" "年" (strftime_padded dt)).

(** The part of a date after the year, padded and plain, and the test
    that the two replacements turn the one into the other. *)
Definition padded_tail (m d : Z) : string :=
  "年" ++ two_digits m ++ "月" ++ two_digits d ++ "日".

Definition plain_tail (m d : Z) : string :=
  "年" ++ str_nat m ++ "月" ++ str_nat d ++ "日".

Definition tail_unpadded (m d : Z) : bool :=
  String.eqb (replace "月0" "月" (replace "年0" "年" (padded_tail m d)))
             (plain_tail m d).

(** * Properties *)

(** ** Rounding *)

Lemma scale_pos : 0 < scale.
Proof. unfold scale. apply Z.pow_pos_nonneg; lia. Qed.

Lemma round_half_even_near (a b : Z) :
  0 < b -> Z.abs (2 * a - 2 * round_half_even a b * b) <= b.
Proof.
  intros Hb. unfold round_half_even.
  pose proof (Z.div_mod a b ltac:(lia)) as Hdm.
  pose proof (Z.mod_pos_bound a b Hb) as Hr.
  set (q := a / b) in *. set (r := a mod b) in *.
  destruct (2 * r <? b) eqn:E1; [apply Z.ltb_lt in E1; nia|].
  apply Z.ltb_ge in E1.
  destruct (b <? 2 * r) eqn:E2; [apply Z.ltb_lt in E2; nia|].
  apply Z.ltb_ge in E2.
  destruct (Z.even q); nia.
Qed.

Lemma round_half_even_nonneg (a b : Z) :
  0 <= a -> 0 < b -> 0 <= round_half_even a b.
Proof.
  intros Ha Hb. unfold round_half_even.
  pose proof (Z.div_pos a b Ha Hb).
  destruct (2 * (a mod b) <? b); [lia|].
  destruct (b <? 2 * (a mod b)); [lia|].
  destruct (Z.even (a / b)); lia.
Qed.

Lemma round_half_even_exact (q b : Z) :
  0 < b -> round_half_even (q * b) b = q.
Proof.
  intros Hb. unfold round_half_even.
  rewrite Z.mod_mul by lia. rewrite Z.div_mul by lia.
  replace (2 * 0 <? b) with true; [reflexivity|].
  symmetry. apply Z.ltb_lt. lia.
Qed.

(** ** Digits *)


Lemma digit_char_is_digit (d : Z) : 0 <= d < 10 -> is_digit (digit_char d) = true.
Proof.
  intros H. assert (d = 0 \/ d = 1 \/ d = 2 \/ d = 3 \/ d = 4 \/ d = 5 \/ d = 6 \/
                    d = 7 \/ d = 8 \/ d = 9) as C by lia.
  repeat (destruct C as [-> | C]; [reflexivity|]). now subst.
Qed.

Lemma digit_char_val (d : Z) : 0 <= d < 10 -> digit_val (digit_char d) = d.
Proof.
  intros H. assert (d = 0 \/ d = 1 \/ d = 2 \/ d = 3 \/ d = 4 \/ d = 5 \/ d = 6 \/
                    d = 7 \/ d = 8 \/ d = 9) as C by lia.
  repeat (destruct C as [-> | C]; [reflexivity|]). now subst.
Qed.

Lemma dec_digits_only (fuel : nat) :
  forall n acc, 0 <= n -> digits_only (list_ascii_of_string acc) ->
                digits_only (list_ascii_of_string (dec_digits fuel n acc)).
Proof.
  induction fuel as [|fuel IH]; intros n acc Hn Hacc; [exact Hacc|].
  cbn [dec_digits].
  assert (Hd : digits_only (list_ascii_of_string (String (digit_char (n mod 10)) acc))).
  { constructor; [|exact Hacc]. apply digit_char_is_digit. apply Z.mod_pos_bound. lia. }
  destruct (n <? 10); [exact Hd|].
  apply IH; [apply Z.div_pos; lia | exact Hd].
Qed.

Lemma str_nat_digits (n : Z) : 0 <= n -> digits_only (list_ascii_of_string (str_nat n)).
Proof. intros Hn. apply dec_digits_only; [exact Hn | constructor]. Qed.

Lemma str_nat_small (d : Z) : 0 <= d < 10 -> str_nat d = String (digit_char d) "".
Proof.
  intros H. unfold str_nat. cbn [dec_digits].
  replace (d <? 10) with true by (symmetry; apply Z.ltb_lt; lia).
  now rewrite Z.mod_small by lia.
Qed.

(** ** Grouping *)


Lemma digit_not_comma (c : ascii) : is_digit c = true -> not_comma c = true.
Proof.
  unfold not_comma. destruct (Ascii.eqb c ",") eqn:E; [|reflexivity].
  apply Ascii.eqb_eq in E. subst c. discriminate.
Qed.

Lemma remove_commas_list (l : list ascii) :
  remove_commas (string_of_list_ascii l) = string_of_list_ascii (filter not_comma l).
Proof.
  induction l as [|c l IH]; [reflexivity|].
  cbn [string_of_list_ascii remove_commas filter]. unfold not_comma at 1.
  destruct (Ascii.eqb c ","); cbn [negb]; [exact IH|].
  cbn [string_of_list_ascii]. now rewrite IH.
Qed.

Lemma filter_rev {A : Type} (f : A -> bool) (l : list A) :
  filter f (rev l) = rev (filter f l).
Proof.
  induction l as [|a l IH]; [reflexivity|].
  cbn [rev filter]. rewrite filter_app, IH. cbn [filter].
  destruct (f a); [reflexivity | now rewrite app_nil_r].
Qed.

Lemma group3_rev_step (a b c d : ascii) (l : list ascii) :
  group3_rev (a :: b :: c :: d :: l) = a :: b :: c :: ","%char :: group3_rev (d :: l).
Proof. reflexivity. Qed.

Lemma group3_rev_filter (n : nat) :
  forall l, (List.length l <= n)%nat ->
            filter not_comma (group3_rev l) = filter not_comma l.
Proof.
  induction n as [|n IH]; intros l Hl.
  - destruct l; [reflexivity | simpl in Hl; lia].
  - destruct l as [|a [|b [|c [|d l]]]]; try reflexivity.
    rewrite group3_rev_step.
    change (a :: b :: c :: ","%char :: group3_rev (d :: l))
      with (([a; b; c] ++ [","%char]) ++ group3_rev (d :: l))%list.
    rewrite !filter_app, (IH (d :: l)) by (simpl in *; lia).
    change (filter not_comma [","%char]) with (@nil ascii).
    rewrite app_nil_r, <- filter_app. reflexivity.
Qed.

Lemma filter_all {A : Type} (f : A -> bool) (l : list A) :
  Forall (fun x => f x = true) l -> filter f l = l.
Proof.
  induction 1 as [|a l Ha _ IH]; [reflexivity|].
  cbn [filter]. now rewrite Ha, IH.
Qed.

Lemma digits_no_comma (l : list ascii) :
  digits_only l -> Forall (fun c => not_comma c = true) l.
Proof. apply Forall_impl. exact digit_not_comma. Qed.

Lemma ungroup3 (s : string) :
  digits_only (list_ascii_of_string s) -> remove_commas (group3 s) = s.
Proof.
  intros Hd. unfold group3. rewrite remove_commas_list, filter_rev.
  rewrite (group3_rev_filter _ _ (le_n _)), filter_rev, rev_involutive.
  rewrite filter_all by now apply digits_no_comma.
  apply string_of_list_ascii_of_string.
Qed.

(** ** Integers that a binary64 holds exactly *)

Lemma huge_scale : huge = 2 ^ 1024 * scale.
Proof. unfold huge, scale. rewrite <- Z.pow_add_r by lia. reflexivity. Qed.

Lemma round_rat_exact (neg : bool) (p : Z) :
  0 <= p <= 2 ^ 53 -> round_rat neg p 1 = Finite neg (p * scale).
Proof.
  intros Hp. unfold round_rat. rewrite Z.div_1_r, Z.mul_1_l.
  pose proof scale_pos as Hs.
  assert (Hlt : (huge <=? p * scale) = false).
  { apply Z.leb_gt. rewrite huge_scale.
    apply Z.mul_lt_mono_pos_r; [exact Hs|].
    apply Z.le_lt_trans with (2 ^ 53); [lia|]. apply Z.pow_lt_mono_r; lia. }
  set (s := Z.max 0 (Z.log2 (p * scale) + 1 - 53)).
  assert (Hdiv : exists q, p * scale = q * 2 ^ s).
  { destruct (Z.eq_dec p 0) as [->|Hnz].
    - exists 0. lia.
    - assert (Hpos : 0 < p) by lia.
      assert (Hlog : Z.log2 (p * scale) = 1074 + Z.log2 p).
      { unfold scale. apply Z.log2_mul_pow2; lia. }
      pose proof (Z.log2_nonneg p) as Hl0.
      assert (Hl53 : Z.log2 p <= 53).
      { destruct (Z.le_gt_cases (Z.log2 p) 53) as [H|H]; [exact H|].
        exfalso. assert (2 ^ 54 <= p) by (apply Z.log2_le_pow2; lia).
        assert (2 ^ 53 < 2 ^ 54) by (apply Z.pow_lt_mono_r; lia). lia. }
      assert (Hs_eq : s = Z.log2 p + 1022) by (unfold s; rewrite Hlog; lia).
      destruct (Z.eq_dec (Z.log2 p) 53) as [H53|Hn53].
      + assert (Hp53 : p = 2 ^ 53).
        { assert (2 ^ 53 <= p) by (apply Z.log2_le_pow2; lia). lia. }
        exists (2 ^ 52). rewrite Hs_eq, H53, Hp53. unfold scale.
        rewrite <- !Z.pow_add_r by lia. reflexivity.
      + exists (p * 2 ^ (1074 - s)). rewrite <- Z.mul_assoc.
        rewrite <- Z.pow_add_r by lia. unfold scale. do 2 f_equal. lia. }
  destruct Hdiv as [q Hq].
  assert (H2s : 0 < 2 ^ s) by (apply Z.pow_pos_nonneg; unfold s; lia).
  replace (round_half_even (p * scale) (2 ^ s)) with q
    by (rewrite Hq; symmetry; now apply round_half_even_exact).
  rewrite <- Hq, Hlt. reflexivity.
Qed.

(** ** Reading a printed integer *)


Lemma digit_run_digits (l : list ascii) :
  forall a c, digits_only l ->
              digit_run l a c = (read_digits l a, c + Z.of_nat (List.length l), []).
Proof.
  induction l as [|d l IH]; intros a c Hd.
  - simpl. now rewrite Z.add_0_r.
  - inversion Hd as [|? ? Hdig Hrest]; subst.
    cbn [digit_run]. rewrite Hdig. rewrite (IH _ _ Hrest).
    cbn [read_digits fold_left List.length]. unfold read_digits.
    do 2 f_equal. lia.
Qed.

Lemma read_dec_digits (fuel : nat) :
  forall n acc, 0 <= n < 10 ^ Z.of_nat fuel ->
                read_digits (list_ascii_of_string (dec_digits fuel n acc)) 0
                = read_digits (list_ascii_of_string acc) n.
Proof.
  induction fuel as [|fuel IH]; intros n acc Hn.
  - simpl in Hn. assert (n = 0) by lia. now subst.
  - cbn [dec_digits].
    pose proof (Z.mod_pos_bound n 10 ltac:(lia)) as Hm.
    destruct (n <? 10) eqn:E.
    + apply Z.ltb_lt in E. cbn [list_ascii_of_string read_digits fold_left].
      rewrite digit_char_val by exact Hm. rewrite Z.mod_small by lia. reflexivity.
    + apply Z.ltb_ge in E. rewrite IH.
      * cbn [list_ascii_of_string read_digits fold_left].
        rewrite digit_char_val by exact Hm.
        rewrite (Z.div_mod n 10) at 3 by lia. reflexivity.
      * rewrite Nat2Z.inj_succ, Z.pow_succ_r in Hn by lia.
        split; [apply Z.div_pos; lia | apply Z.div_lt_upper_bound; lia].
Qed.

Lemma below_pow10 (n : Z) : 0 <= n -> n < 10 ^ Z.of_nat (S (Z.to_nat (Z.log2 n))).
Proof.
  intros Hn. rewrite Nat2Z.inj_succ, Z2Nat.id by apply Z.log2_nonneg.
  destruct (Z.eq_dec n 0) as [->|Hnz]; [reflexivity|].
  pose proof (Z.log2_spec n ltac:(lia)) as [_ H].
  apply Z.lt_le_trans with (2 ^ Z.succ (Z.log2 n)); [exact H|].
  apply Z.pow_le_mono_l. pose proof (Z.log2_nonneg n). lia.
Qed.

Lemma read_str_nat (n : Z) :
  0 <= n -> read_digits (list_ascii_of_string (str_nat n)) 0 = n.
Proof.
  intros Hn. unfold str_nat. rewrite read_dec_digits; [reflexivity|].
  split; [exact Hn | now apply below_pow10].
Qed.

Lemma str_nat_nonempty (n : Z) : exists c r, list_ascii_of_string (str_nat n) = c :: r.
Proof.
  unfold str_nat. cbn [dec_digits].
  destruct (n <? 10).
  - now eexists _, _.
  - generalize (Z.to_nat (Z.log2 n)) (n / 10) (digit_char (n mod 10)).
    intros fuel. generalize (@EmptyString).
    induction fuel as [|fuel IH]; intros acc m d.
    + now eexists _, _.
    + cbn [dec_digits]. destruct (m <? 10); [now eexists _, _ | apply IH].
Qed.

(** ** [float] of digits *)

Lemma digit_not_space (c : ascii) : is_digit c = true -> is_space c = false.
Proof.
  intros H. destruct c as [[] [] [] [] [] [] [] []];
    vm_compute in H; first [discriminate H | reflexivity].
Qed.

Lemma digit_take_sign (c : ascii) (r : list ascii) :
  is_digit c = true -> take_sign (c :: r) = (false, c :: r).
Proof.
  intros H. destruct c as [[] [] [] [] [] [] [] []];
    vm_compute in H; first [discriminate H | reflexivity].
Qed.

Lemma digit_not_word (c : ascii) (r : list ascii) :
  is_digit c = true ->
  let word := string_of_list_ascii (map lower (c :: r)) in
  (String.eqb word "inf" || String.eqb word "infinity") = false /\
  String.eqb word "nan" = false.
Proof.
  intros H. destruct c as [[] [] [] [] [] [] [] []];
    vm_compute in H; first [discriminate H | split; reflexivity].
Qed.

Lemma lstrip_id (l : list ascii) :
  Forall (fun c => is_space c = false) l -> lstrip l = l.
Proof. intros H. destruct H as [|c l Hc _]; [reflexivity|]. simpl. now rewrite Hc. Qed.

Lemma strip_id (l : list ascii) :
  Forall (fun c => is_space c = false) l -> strip l = l.
Proof.
  intros H. unfold strip. rewrite (lstrip_id l H).
  rewrite (lstrip_id (rev l)) by now apply Forall_rev.
  apply rev_involutive.
Qed.

Lemma parse_number_digits (c : ascii) (r : list ascii) :
  digits_only (c :: r) -> parse_number (c :: r) = Some (read_digits (c :: r) 0, 0).
Proof.
  intros Hd. inversion Hd as [|? ? Hc Hr]; subst.
  unfold parse_number, digitpart. rewrite Hc.
  rewrite (digit_run_digits r _ _ Hr). reflexivity.
Qed.

Lemma py_float_of_ascii (l : list ascii) :
  forallb is_ascii l = true ->
  py_float (string_of_list_ascii l) = float_from_string_inner l.
Proof.
  intros H. unfold py_float, transform_decimal_and_space_to_ascii.
  rewrite list_ascii_of_string_of_list_ascii. now rewrite H.
Qed.

Lemma digit_is_ascii (c : ascii) : is_digit c = true -> is_ascii c = true.
Proof.
  unfold is_digit, is_ascii. intros H. apply andb_true_iff in H.
  destruct H as [_ H]. apply Nat.leb_le in H. apply Nat.ltb_lt. lia.
Qed.

Lemma digits_are_ascii (l : list ascii) : digits_only l -> forallb is_ascii l = true.
Proof.
  intros H. apply forallb_forall. intros c Hc.
  apply digit_is_ascii. unfold digits_only in H. rewrite Forall_forall in H. now apply H.
Qed.

Lemma signed_ascii (neg : bool) (l : list ascii) :
  forallb is_ascii l = true ->
  forallb is_ascii ((if neg then ["-"%char] else []) ++ l) = true.
Proof. intros H. now destruct neg. Qed.

Lemma py_float_digits (neg : bool) (l : list ascii) :
  digits_only l -> l <> [] ->
  py_float (string_of_list_ascii ((if neg then ["-"%char] else []) ++ l))
  = Some (round_dec neg (read_digits l 0) 0).
Proof.
  intros Hd Hne. destruct l as [|c r]; [now elim Hne|].
  inversion Hd as [|? ? Hc Hr]; subst.
  rewrite py_float_of_ascii by (apply signed_ascii, digits_are_ascii, Hd).
  unfold float_from_string_inner.
  assert (Hsp : Forall (fun c => is_space c = false) (c :: r)).
  { revert Hd. apply Forall_impl. exact digit_not_space. }
  assert (Hsign : take_sign (strip ((if neg then ["-"%char] else []) ++ c :: r))
                  = (neg, c :: r)).
  { destruct neg.
    - rewrite strip_id by (constructor; [reflexivity | exact Hsp]). reflexivity.
    - cbn [app]. rewrite strip_id by exact Hsp. now apply digit_take_sign. }
  rewrite Hsign.
  destruct (digit_not_word c r Hc) as [H1 H2]. cbv zeta in H1, H2.
  rewrite H1, H2. now rewrite parse_number_digits.
Qed.

Lemma remove_commas_digits (l : list ascii) :
  digits_only l -> remove_commas (string_of_list_ascii l) = string_of_list_ascii l.
Proof.
  intros Hd. rewrite remove_commas_list. f_equal.
  apply filter_all. now apply digits_no_comma.
Qed.

Lemma to_float_int (n : Z) :
  Z.abs n <= 2 ^ 53 ->
  to_float (PInt n) = Some (Finite (n <? 0) (Z.abs n * scale)).
Proof.
  intros Hn. unfold to_float. cbn [py_str]. unfold str_int.
  assert (Habs : 0 <= Z.abs n) by apply Z.abs_nonneg.
  pose proof (str_nat_digits (Z.abs n) Habs) as Hd.
  destruct (str_nat_nonempty (Z.abs n)) as (c & r & Hcr).
  assert (Hne : list_ascii_of_string (str_nat (Z.abs n)) <> []) by (rewrite Hcr; discriminate).
  assert (Hstr : (if n <? 0 then "-" ++ str_nat (- n) else str_nat n)
                 = string_of_list_ascii
                     ((if n <? 0 then ["-"%char] else [])
                      ++ list_ascii_of_string (str_nat (Z.abs n)))).
  { destruct (n <? 0) eqn:E.
    - apply Z.ltb_lt in E. rewrite Z.abs_neq by lia.
      cbn [app string_of_list_ascii]. now rewrite string_of_list_ascii_of_string.
    - apply Z.ltb_ge in E. rewrite Z.abs_eq by lia.
      cbn [app]. now rewrite string_of_list_ascii_of_string. }
  rewrite Hstr.
  assert (Hrc : remove_commas
                  (string_of_list_ascii
                     ((if n <? 0 then ["-"%char] else [])
                      ++ list_ascii_of_string (str_nat (Z.abs n))))
                = string_of_list_ascii
                    ((if n <? 0 then ["-"%char] else [])
                     ++ list_ascii_of_string (str_nat (Z.abs n)))).
  { rewrite remove_commas_list. f_equal. apply filter_all.
    apply Forall_app. split.
    - destruct (n <? 0); repeat constructor.
    - now apply digits_no_comma. }
  rewrite Hrc, py_float_digits by assumption.
  rewrite read_str_nat by exact Habs.
  unfold round_dec. cbn [Z.leb Z.compare]. rewrite Z.pow_0_r, Z.mul_1_r.
  now rewrite round_rat_exact by lia.
Qed.

(** ** Text, continued *)

Lemma remove_commas_app (a b : string) :
  remove_commas (a ++ b) = remove_commas a ++ remove_commas b.
Proof.
  induction a as [|c a IH]; [reflexivity|].
  cbn [append remove_commas]. destruct (Ascii.eqb c ","); [exact IH|].
  cbn [append]. now rewrite IH.
Qed.

Lemma list_ascii_app (a b : string) :
  list_ascii_of_string (a ++ b)
  = (list_ascii_of_string a ++ list_ascii_of_string b)%list.
Proof. induction a as [|c a IH]; [reflexivity|]. cbn. now rewrite IH. Qed.

Lemma contains_char (c : ascii) (s : string) :
  contains (String c "") s = existsb (Ascii.eqb c) (list_ascii_of_string s).
Proof.
  induction s as [|a s IH]; [reflexivity|].
  cbn [contains list_ascii_of_string existsb String.prefix]. rewrite IH.
  destruct (ascii_dec c a) as [->|N].
  - rewrite Ascii.eqb_refl. now destruct s.
  - apply Ascii.eqb_neq in N. now rewrite N.
Qed.

Lemma digits_no_point (l : list ascii) :
  digits_only l -> existsb (Ascii.eqb ".") l = false.
Proof.
  induction 1 as [|c l Hc _ IH]; [reflexivity|].
  cbn [existsb]. rewrite IH, orb_false_r.
  destruct (Ascii.eqb "." c) eqn:E; [|reflexivity].
  apply Ascii.eqb_eq in E. subst c. discriminate.
Qed.

Lemma existsb_filter_not_comma (c : ascii) (l : list ascii) :
  not_comma c = true ->
  existsb (Ascii.eqb c) (filter not_comma l) = existsb (Ascii.eqb c) l.
Proof.
  intros Hc. induction l as [|a l IH]; [reflexivity|].
  cbn [filter existsb]. destruct (not_comma a) eqn:Ha.
  - cbn [existsb]. now rewrite IH.
  - rewrite IH. destruct (Ascii.eqb c a) eqn:E; [|reflexivity].
    apply Ascii.eqb_eq in E. subst a. congruence.
Qed.

Lemma point_survives_commas (s : string) :
  contains "." (remove_commas s) = contains "." s.
Proof.
  rewrite !contains_char.
  rewrite <- (string_of_list_ascii_of_string s) at 1.
  rewrite remove_commas_list, list_ascii_of_string_of_list_ascii.
  now apply existsb_filter_not_comma.
Qed.

(** ** Whole numbers *)

Lemma str_int_sign (z : Z) : str_int z = sign_str (z <? 0) ++ str_nat (Z.abs z).
Proof.
  unfold str_int, sign_str. destruct (z <? 0) eqn:E.
  - apply Z.ltb_lt in E. now rewrite Z.abs_neq by lia.
  - apply Z.ltb_ge in E. now rewrite Z.abs_eq by lia.
Qed.

Lemma sign_str_commas (neg : bool) : remove_commas (sign_str neg) = sign_str neg.
Proof. now destruct neg. Qed.

Lemma format_int_comma_ungroup (z : Z) :
  remove_commas (format_int_comma z) = str_int z.
Proof.
  unfold format_int_comma. rewrite remove_commas_app, sign_str_commas, str_int_sign.
  now rewrite ungroup3 by (apply str_nat_digits, Z.abs_nonneg).
Qed.

Lemma str_int_no_point (z : Z) : contains "." (str_int z) = false.
Proof.
  rewrite str_int_sign, contains_char, list_ascii_app, existsb_app.
  rewrite (digits_no_point (list_ascii_of_string (str_nat (Z.abs z))))
    by (apply str_nat_digits, Z.abs_nonneg).
  now destruct (z <? 0).
Qed.

Lemma format_int_comma_no_point (z : Z) : contains "." (format_int_comma z) = false.
Proof.
  rewrite <- point_survives_commas, format_int_comma_ungroup.
  apply str_int_no_point.
Qed.

(** ** The guard of format_number *)

Lemma blank_is_no_number (v : pyval) :
  (eq_str v "－" || eq_str v "" || is_none v) = true -> to_float v = None.
Proof.
  destruct v as [| b | z | f | s]; cbn [eq_str is_none orb]; try discriminate.
  - reflexivity.
  - rewrite orb_false_r. intros H. apply orb_true_iff in H.
    destruct H as [H|H]; apply String.eqb_eq in H; subst s; reflexivity.
Qed.

Lemma format_number_numeric (v : pyval) (num : float) :
  to_float v = Some num ->
  format_number v
  = if is_integer num then format_int_comma (int_of_float num)
    else format_float_comma_1f num.
Proof.
  intros H. unfold format_number.
  destruct (eqb_spec (eq_str v "－" || eq_str v "" || is_none v) true) as [E|E].
  - rewrite (blank_is_no_number v E) in H. discriminate.
  - apply not_true_is_false in E. now rewrite E, H.
Qed.

(** C7, as amended.  Whenever the conversion to a float succeeds and gives
    a whole number, format_number returns the digits of that number in
    groups of three, with no decimal point; taking the commas out gives
    back [str] of the number.  For an integer cell of magnitude at most
    2^53 the conversion is exact, so the digits are the cell's own. *)
Theorem format_number_whole :
  (forall v num,
      to_float v = Some num -> is_integer num = true ->
      format_number v = format_int_comma (int_of_float num) /\
      remove_commas (format_number v) = str_int (int_of_float num) /\
      contains "." (format_number v) = false) /\
  (forall n, Z.abs n <= 2 ^ 53 -> format_number (PInt n) = format_int_comma n).
Proof.
  split.
  - intros v num Hf Hi.
    assert (E : format_number v = format_int_comma (int_of_float num))
      by now rewrite (format_number_numeric v num Hf), Hi.
    rewrite E. split; [reflexivity|]. split.
    + apply format_int_comma_ungroup.
    + apply format_int_comma_no_point.
  - intros n Hn. rewrite (format_number_numeric _ _ (to_float_int n Hn)).
    cbn [is_integer int_of_float]. rewrite Z.mod_mul by (pose proof scale_pos; lia).
    rewrite Z.div_mul by (pose proof scale_pos; lia). cbn [Z.eqb].
    destruct (n <? 0) eqn:E; f_equal.
    + apply Z.ltb_lt in E. lia.
    + apply Z.ltb_ge in E. lia.
Qed.

(** C7 at the integer 1234567 and at the text 1,234,567.0. *)
Lemma format_number_whole_witness :
  format_number (PInt 1234567) = "1,234,567" /\
  format_number (PStr "1,234,567.0") = "1,234,567".
Proof.
  destruct format_number_whole as [Hgen Hint]. split.
  - rewrite (Hint 1234567) by (vm_compute; discriminate). vm_compute. reflexivity.
  - destruct (Hgen (PStr "1,234,567.0") (Finite false (1234567 * scale))) as [H _].
    + vm_compute. reflexivity.
    + vm_compute. reflexivity.
    + rewrite H. vm_compute. reflexivity.
Defined.

(** C7 as stated fails for integers that a binary64 does not hold: 2^1024
    converts to infinity and is printed as inf, and 2^53 + 1 is printed
    with the digits of 2^53. *)
Lemma large_integers_lose_their_digits :
  format_number (PInt (2 ^ 1024)) = "inf" /\
  format_number (PInt (2 ^ 53 + 1)) = "9,007,199,254,740,992" /\
  format_int_comma (2 ^ 53 + 1) = "9,007,199,254,740,993".
Proof. vm_compute. repeat split. Qed.

(** ** Magnitudes are not negative *)

Lemma digit_val_range (c : ascii) : is_digit c = true -> 0 <= digit_val c <= 9.
Proof.
  unfold is_digit, digit_val. intros H. apply andb_true_iff in H.
  destruct H as [H1 H2]. apply Nat.leb_le in H1, H2. lia.
Qed.

Lemma digit_run_nonneg (n : nat) :
  forall l acc cnt, (List.length l <= n)%nat -> 0 <= acc ->
                    0 <= fst (fst (digit_run l acc cnt)).
Proof.
  induction n as [|n IH]; intros l acc cnt Hl Hacc.
  - destruct l; [exact Hacc | simpl in Hl; lia].
  - destruct l as [|c r]; [exact Hacc|]. cbn [digit_run].
    destruct (is_digit c) eqn:Hc.
    + apply IH; [simpl in Hl; lia|]. pose proof (digit_val_range c Hc). lia.
    + destruct (Ascii.eqb c "_"); [|exact Hacc].
      destruct r as [|d r']; [exact Hacc|].
      destruct (is_digit d) eqn:Hd; [|exact Hacc].
      apply IH; [simpl in Hl; lia|]. pose proof (digit_val_range d Hd). lia.
Qed.

Lemma digitpart_nonneg (l : list ascii) (acc m c : Z) (r : list ascii) :
  0 <= acc -> digitpart l acc = Some (m, c, r) -> 0 <= m.
Proof.
  intros Hacc. unfold digitpart. destruct l as [|d l]; [discriminate|].
  destruct (is_digit d) eqn:Hd; [|discriminate].
  intros H.
  assert (E : digit_run l (10 * acc + digit_val d) 1 = (m, c, r)) by congruence.
  pose proof (digit_run_nonneg _ l (10 * acc + digit_val d) 1 (le_n _)) as Hn.
  rewrite E in Hn. apply Hn. pose proof (digit_val_range d Hd). lia.
Qed.

Lemma parse_number_nonneg (l : list ascii) (m k : Z) :
  parse_number l = Some (m, k) -> 0 <= m.
Proof.
  unfold parse_number.
  destruct (digitpart l 0) as [[[a c0] r0]|] eqn:Hint.
  - pose proof (digitpart_nonneg _ _ _ _ _ (Z.le_refl 0) Hint) as Ha.
    assert (Hafter : forall m' fc rest,
               match r0 with
               | "."%char :: r =>
                   match digitpart r a with
                   | Some res => Some res
                   | None => Some (a, 0, r)
                   end
               | _ => Some (a, 0, r0)
               end = Some (m', fc, rest) -> 0 <= m').
    { intros m' fc rest. destruct r0 as [|x r]; [intros H; now inversion H; subst|].
      destruct (Ascii.eqb x ".") eqn:Ex.
      - apply Ascii.eqb_eq in Ex. subst x.
        destruct (digitpart r a) as [[[a' c'] r']|] eqn:Hfr; intros H; inversion H; subst.
        + exact (digitpart_nonneg _ _ _ _ _ Ha Hfr).
        + exact Ha.
      - destruct x as [[] [] [] [] [] [] [] []]; try discriminate Ex;
          intros H; inversion H; subst; exact Ha. }
    destruct (match r0 with
              | "."%char :: r =>
                  match digitpart r a with
                  | Some res => Some res
                  | None => Some (a, 0, r)
                  end
              | _ => Some (a, 0, r0)
              end) as [[[m' fc] rest]|] eqn:Haft; [|discriminate].
    specialize (Hafter _ _ _ eq_refl).
    destruct rest as [|e r].
    + intros H. inversion H. now subst.
    + destruct (Ascii.eqb (lower e) "e"); [|discriminate].
      destruct (take_sign r) as [eneg r1].
      destruct (digitpart r1 0) as [[[ev c1] [|x r2]]|]; try discriminate.
      intros H. inversion H. now subst.
  - assert (Hafter : forall m' fc rest,
               match l with
               | "."%char :: r =>
                   match digitpart r 0 with
                   | Some res => Some res
                   | None => None
                   end
               | _ => None
               end = Some (m', fc, rest) -> 0 <= m').
    { intros m' fc rest. destruct l as [|x r]; [discriminate|].
      destruct (Ascii.eqb x ".") eqn:Ex.
      - apply Ascii.eqb_eq in Ex. subst x.
        destruct (digitpart r 0) as [[[a' c'] r']|] eqn:Hfr; intros H; inversion H; subst.
        exact (digitpart_nonneg _ _ _ _ _ (Z.le_refl 0) Hfr).
      - destruct x as [[] [] [] [] [] [] [] []]; try discriminate Ex; discriminate. }
    destruct (match l with
              | "."%char :: r =>
                  match digitpart r 0 with
                  | Some res => Some res
                  | None => None
                  end
              | _ => None
              end) as [[[m' fc] rest]|] eqn:Haft; [|discriminate].
    specialize (Hafter _ _ _ eq_refl).
    destruct rest as [|e r].
    + intros H. inversion H. now subst.
    + destruct (Ascii.eqb (lower e) "e"); [|discriminate].
      destruct (take_sign r) as [eneg r1].
      destruct (digitpart r1 0) as [[[ev c1] [|x r2]]|]; try discriminate.
      intros H. inversion H. now subst.
Qed.

Lemma round_rat_nonneg (neg neg' : bool) (p q n : Z) :
  0 <= p -> 0 < q -> round_rat neg p q = Finite neg' n -> 0 <= n.
Proof.
  intros Hp Hq. unfold round_rat.
  set (s := Z.max 0 (Z.log2 (p * scale / q) + 1 - 53)).
  assert (H2s : 0 < 2 ^ s) by (apply Z.pow_pos_nonneg; unfold s; lia).
  destruct (huge <=? _); [discriminate|]. intros H. inversion H; subst.
  apply Z.mul_nonneg_nonneg; [|lia].
  apply round_half_even_nonneg; [pose proof scale_pos; nia | nia].
Qed.

Lemma round_dec_nonneg (neg neg' : bool) (m k n : Z) :
  0 <= m -> round_dec neg m k = Finite neg' n -> 0 <= n.
Proof.
  intros Hm. unfold round_dec. destruct (0 <=? k) eqn:E.
  - apply Z.leb_le in E. apply round_rat_nonneg; [|lia].
    apply Z.mul_nonneg_nonneg; [exact Hm | apply Z.pow_nonneg; lia].
  - apply Z.leb_gt in E. apply round_rat_nonneg; [exact Hm|].
    apply Z.pow_pos_nonneg; lia.
Qed.

Lemma py_float_nonneg (s : string) (neg : bool) (n : Z) :
  py_float s = Some (Finite neg n) -> 0 <= n.
Proof.
  unfold py_float, float_from_string_inner. destruct (take_sign _) as [sg r].
  destruct (_ || _); [discriminate|].
  destruct (String.eqb _ "nan"); [discriminate|].
  destruct (parse_number r) as [[m k]|] eqn:Hp; [|discriminate].
  intros H. inversion H as [E].
  exact (round_dec_nonneg _ _ _ _ _ (parse_number_nonneg _ _ _ Hp) E).
Qed.

(** ** Numbers with a fractional part *)

Lemma tenths_near (n : Z) :
  Z.abs (2 * (10 * n) - 2 * tenths n * scale) <= scale.
Proof. unfold tenths. apply round_half_even_near. exact scale_pos. Qed.

Example format_number_1234_56 :
  format_number (PStr "1234.56") = "1,234.6" /\
  format_number (PFloat (Finite false mag_1234_56)) = "1,234.6" /\
  repr (Finite false mag_1234_56) = "1234.56".
Proof. vm_compute. repeat split. Qed.

(** ** Text *)

Lemma append_assoc (a b c : string) : (a ++ b) ++ c = a ++ (b ++ c).
Proof. induction a as [|x a IH]; simpl; [reflexivity | now rewrite IH]. Qed.

Lemma drop_prefix_app (p s : string) : drop_prefix p (p ++ s) = Some s.
Proof.
  induction p as [|a p IH]; simpl; [now destruct s|].
  now rewrite Ascii.eqb_refl.
Qed.

(** ** The fragment identifier of a panel *)

(** C3 as stated fails: a sheet name with a blank in it is emitted as the
    id, blank included. *)
Lemma sheet_name_with_space_not_sanitized :
  panel_id (panel_open 0 "EV PHEV") = Some "EV PHEV" /\
  safe_token "EV PHEV" = false /\
  match document sample_template [("EV PHEV", read_sheet sample_sheet)] "t" "s" with
  | inr html => contains ("<div id=" ++ dq ++ "EV PHEV" ++ dq) html
  | inl _ => false
  end = true.
Proof. vm_compute. repeat split. Qed.

(** ** The aggregate column *)

Lemma prefix_app (p s : string) : String.prefix p (p ++ s) = true.
Proof.
  induction p as [|a p IH]; simpl; [now destruct s|].
  destruct (ascii_dec a a) as [_|N]; [exact IH | now elim N].
Qed.

Lemma value_cells_from (len : nat) (l : list string) :
  forall start, l <> [] -> (start + List.length l = len)%nat ->
  map (fun jv : nat * string =>
         if Z.of_nat (fst jv) =? Z.of_nat len - 1
         then td_total (snd jv) else td_plain (snd jv))
      (combine (seq start (List.length l)) l)
  = (map td_plain (removelast l) ++ [td_total (last l "")])%list.
Proof.
  induction l as [|v l IH]; intros start Hne Hlen; [now elim Hne|].
  destruct l as [|v' l].
  - simpl in *. replace (Z.of_nat start =? Z.of_nat len - 1) with true; [reflexivity|].
    symmetry. apply Z.eqb_eq. lia.
  - change (List.length (v :: v' :: l)) with (S (List.length (v' :: l))).
    cbn [seq combine map fst snd].
    replace (Z.of_nat start =? Z.of_nat len - 1) with false.
    + rewrite (IH (S start)); [reflexivity | discriminate | simpl in *; lia].
    + symmetry. apply Z.eqb_neq. simpl in Hlen. lia.
Qed.

Lemma value_cells_split (row : list string) :
  row <> [] ->
  value_cells row = (map td_plain (removelast row) ++ [td_total (last row "")])%list.
Proof.
  intros Hne. unfold value_cells, enumerate. now apply value_cells_from.
Qed.

(** C1 as stated fails: with the periods 2009 and 2010 the last header
    cell has no class, and no header cell of the document has one. *)
Lemma last_header_without_class :
  has_total_col (last (map year_header (years plain_sheet)) "") = false /\
  match document sample_template [("EV", plain_sheet)] "t" "s" with
  | inr html => contains "<th class=" html
  | inl _ => true
  end = false.
Proof. split; vm_compute; reflexivity. Qed.

(** ** The aggregate row *)

Example second_marker_rendered_as_first :
  py_str (cell sample_sheet 3 1) = "合計" /\
  match document sample_template (read_excel_data [("EV", sample_sheet)]) "t" "s" with
  | inr html => contains (label_cell "総計") html && negb (contains "合計" html)
  | inl _ => false
  end = true.
Proof. split; vm_compute; reflexivity. Qed.

(** ** Blank cells *)

(** C8.  A cell holding nothing, the empty text or the placeholder itself
    is printed as the placeholder, by format_number and by the loader; the
    result is neither 0 nor empty. *)
Theorem blank_formats_to_placeholder (v : pyval) :
  v = PNone \/ v = PStr "" \/ v = PStr placeholder ->
  format_number v = placeholder /\ cell_text v = placeholder /\
  String.eqb (format_number v) "0" = false /\
  String.eqb (format_number v) "" = false.
Proof. intros [-> | [-> | ->]]; repeat split. Qed.

(** C8 at the empty text. *)
Lemma blank_formats_to_placeholder_witness :
  format_number (PStr "") = placeholder /\ cell_text (PStr "") = placeholder /\
  String.eqb (format_number (PStr "")) "0" = false /\
  String.eqb (format_number (PStr "")) "" = false.
Proof. apply (blank_formats_to_placeholder (PStr "")). right. left. reflexivity. Defined.

(** ** Dictionaries *)

Lemma dict_set_in {K V : Type} (eqb : K -> K -> bool) (d : list (K * V))
    (k : K) (v : V) (k0 : K) (v0 : V) :
  In (k0, v0) (dict_set eqb d k v) ->
  In (k0, v0) d \/ (v0 = v /\ (k0 = k \/ exists v', In (k0, v') d /\ eqb k0 k = true)).
Proof.
  induction d as [|[k' v'] d IH]; simpl.
  - intros [H|[]]. inversion H; subst. right. split; [reflexivity | now left].
  - destruct (eqb k' k) eqn:E; simpl.
    + intros [H|H].
      * inversion H; subst. right. split; [reflexivity|]. right. exists v'. split; [now left | exact E].
      * left. now right.
    + intros [H|H].
      * left. now left.
      * destruct (IH H) as [Hin | [Hv [Hk | (v'' & Hin & Hk)]]].
        -- left. now right.
        -- right. split; [exact Hv | now left].
        -- right. split; [exact Hv|]. right. exists v''. split; [now right | exact Hk].
Qed.

Lemma dict_set_values {K V : Type} (eqb : K -> K -> bool) (P : V -> Prop)
    (d : list (K * V)) (k : K) (v : V) :
  (forall k0 v0, In (k0, v0) d -> P v0) -> P v ->
  forall k0 v0, In (k0, v0) (dict_set eqb d k v) -> P v0.
Proof.
  intros Hd Hv k0 v0 Hin. destruct (dict_set_in _ _ _ _ _ _ Hin) as [H | [-> _]].
  - exact (Hd _ _ H).
  - exact Hv.
Qed.

Lemma dict_set_keys {K V : Type} (eqb : K -> K -> bool) (P : K -> Prop)
    (d : list (K * V)) (k : K) (v : V) :
  (forall k0 v0, In (k0, v0) d -> P k0) -> P k ->
  forall k0 v0, In (k0, v0) (dict_set eqb d k v) -> P k0.
Proof.
  intros Hd Hk k0 v0 Hin.
  destruct (dict_set_in _ _ _ _ _ _ Hin) as [H | [_ [-> | (v' & H & _)]]].
  - exact (Hd _ _ H).
  - exact Hk.
  - exact (Hd _ _ H).
Qed.

(** ** The shape of a sheet *)

Lemma range_from_2_length (m : nat) : List.length (range_from_2 m) = (m - 1)%nat.
Proof. unfold range_from_2. apply length_seq. Qed.

Lemma range_from_2_in (m col : nat) :
  In col (range_from_2 m) <-> (2 <= col <= m)%nat.
Proof. unfold range_from_2. rewrite in_seq. lia. Qed.

Lemma row_data_length (ws : worksheet) (row : nat) :
  List.length (row_data ws row) = (max_column ws - 1)%nat.
Proof. unfold row_data. now rewrite length_map, range_from_2_length. Qed.

Lemma header_cols_le (ws : worksheet) (cols : list nat) :
  (List.length
     (flat_map (fun col => let year_value := cell ws 1 col in
                           if truthy year_value then [py_str year_value] else [])
               cols) <= List.length cols)%nat.
Proof.
  induction cols as [|c cols IH]; [simpl; lia|].
  cbn [flat_map]. rewrite length_app. cbv zeta.
  destruct (truthy (cell ws 1 c)); cbn [List.length]; cbv zeta in IH; lia.
Qed.

Lemma header_cols_full (ws : worksheet) (cols : list nat) :
  (forall col, In col cols -> truthy (cell ws 1 col) = true) ->
  List.length
    (flat_map (fun col => let year_value := cell ws 1 col in
                          if truthy year_value then [py_str year_value] else [])
              cols) = List.length cols.
Proof.
  induction cols as [|c cols IH]; intros H; [reflexivity|].
  cbn [flat_map]. rewrite length_app. cbv zeta.
  rewrite (H c (or_introl eq_refl)). cbn [List.length Nat.add]. f_equal.
  apply IH. intros col Hc. apply H. now right.
Qed.


Lemma row_step_shaped (ws : worksheet) st (row : nat) :
  rows_shaped (max_column ws - 1) st ->
  rows_shaped (max_column ws - 1) (row_step ws st row).
Proof.
  intros [Hp Ht]. unfold row_step.
  destruct (truthy (cell ws row 1)); simpl; [|now split].
  destruct (is_total_label (cell ws row 1)); split; simpl.
  - exact Hp.
  - intros t H. inversion H. apply row_data_length.
  - apply dict_set_values; [exact Hp | apply row_data_length].
  - exact Ht.
Qed.

Lemma rows_loop_shaped (ws : worksheet) (rows : list nat) :
  forall st, rows_shaped (max_column ws - 1) st ->
             rows_shaped (max_column ws - 1) (fold_left (row_step ws) rows st).
Proof.
  induction rows as [|r rows IH]; intros st H; simpl; [exact H|].
  apply IH. now apply row_step_shaped.
Qed.

Lemma read_sheet_shape (ws : worksheet) :
  (forall k vals, In (k, vals) (prefectures (read_sheet ws)) ->
                  List.length vals = (max_column ws - 1)%nat) /\
  (forall t, total (read_sheet ws) = Some t ->
             List.length t = (max_column ws - 1)%nat) /\
  (List.length (years (read_sheet ws)) <= max_column ws - 1)%nat /\
  ((forall col, (2 <= col <= max_column ws)%nat -> truthy (cell ws 1 col) = true) ->
   List.length (years (read_sheet ws)) = (max_column ws - 1)%nat).
Proof.
  assert (H : rows_shaped (max_column ws - 1)
                (fold_left (row_step ws) (range_from_2 (max_row ws)) ([], None))).
  { apply rows_loop_shaped. split; simpl; [intros ? ? [] | discriminate]. }
  destruct H as [Hp Ht]. unfold read_sheet; simpl. repeat split.
  - exact Hp.
  - exact Ht.
  - unfold header_years. rewrite <- (range_from_2_length (max_column ws)).
    apply header_cols_le.
  - intros Hall. unfold header_years.
    rewrite <- (range_from_2_length (max_column ws)).
    apply header_cols_full. intros col Hc. apply Hall. now apply range_from_2_in.
Qed.

Lemma dict_set_string_in {V : Type} (d : list (string * V))
    (k : string) (v : V) (k0 : string) (v0 : V) :
  In (k0, v0) (dict_set String.eqb d k v) -> In (k0, v0) d \/ (k0 = k /\ v0 = v).
Proof.
  intros Hin. destruct (dict_set_in _ _ _ _ _ _ Hin) as [H | [-> [-> | (v' & _ & E)]]].
  - now left.
  - now right.
  - apply String.eqb_eq in E. now right.
Qed.

Lemma read_excel_data_from (all wb : workbook) :
  forall data,
    (forall sheet, In sheet wb -> In sheet all) ->
    (forall name d, In (name, d) data ->
                    exists ws, In (name, ws) all /\ d = read_sheet ws) ->
    forall name d,
      In (name, d)
         (fold_left (fun data sheet =>
                       dict_set String.eqb data (fst sheet) (read_sheet (snd sheet)))
                    wb data) ->
      exists ws, In (name, ws) all /\ d = read_sheet ws.
Proof.
  induction wb as [|[n ws] wb IH]; intros data Hsub Hd name d Hin; simpl in Hin.
  - exact (Hd _ _ Hin).
  - refine (IH _ _ _ _ _ Hin).
    + intros sheet Hs. apply Hsub. now right.
    + intros name' d' Hin'. apply dict_set_string_in in Hin'.
      destruct Hin' as [H | [-> ->]].
      * exact (Hd _ _ H).
      * exists ws. split; [apply Hsub; now left | reflexivity].
Qed.

Lemma read_excel_data_sheets (wb : workbook) (name : string) (d : sheet_data) :
  In (name, d) (read_excel_data wb) ->
  exists ws, In (name, ws) wb /\ d = read_sheet ws.
Proof.
  apply (read_excel_data_from wb wb).
  - auto.
  - intros ? ? [].
Qed.

(** C2, as amended.  Every sheet of the result comes from a worksheet of
    the workbook; each of its rows and its aggregate row have one value per
    column after the first; the periods are at most as many, and exactly as
    many when no header cell of those columns is blank. *)
Theorem sheet_row_lengths (wb : workbook) (name : string) (d : sheet_data) :
  In (name, d) (read_excel_data wb) ->
  exists ws,
    In (name, ws) wb /\ d = read_sheet ws /\
    (forall k vals, In (k, vals) (prefectures d) ->
                    List.length vals = (max_column ws - 1)%nat) /\
    (forall t, total d = Some t -> List.length t = (max_column ws - 1)%nat) /\
    (List.length (years d) <= max_column ws - 1)%nat /\
    ((forall col, (2 <= col <= max_column ws)%nat -> truthy (cell ws 1 col) = true) ->
     List.length (years d) = (max_column ws - 1)%nat).
Proof.
  intros Hin. destruct (read_excel_data_sheets _ _ _ Hin) as (ws & Hws & ->).
  exists ws. split; [exact Hws|]. split; [reflexivity|]. apply read_sheet_shape.
Qed.

(** C2, as amended, at the sample sheet. *)
Lemma sheet_row_lengths_witness :
  exists ws,
    In ("EV", ws) [("EV", sample_sheet)] /\
    read_sheet sample_sheet = read_sheet ws /\
    (forall k vals, In (k, vals) (prefectures (read_sheet sample_sheet)) ->
                    List.length vals = (max_column ws - 1)%nat) /\
    (forall t, total (read_sheet sample_sheet) = Some t ->
               List.length t = (max_column ws - 1)%nat) /\
    (List.length (years (read_sheet sample_sheet)) <= max_column ws - 1)%nat /\
    ((forall col, (2 <= col <= max_column ws)%nat -> truthy (cell ws 1 col) = true) ->
     List.length (years (read_sheet sample_sheet)) = (max_column ws - 1)%nat).
Proof.
  apply (sheet_row_lengths [("EV", sample_sheet)] "EV" (read_sheet sample_sheet)).
  simpl. left. reflexivity.
Defined.

(** C2 as stated fails: with a blank header in the third column the sheet
    has one period and a row of two values. *)
Lemma blank_header_shortens_years :
  map (fun sheet =>
         (List.length (years (snd sheet)),
          map (fun pref => List.length (snd pref)) (prefectures (snd sheet))))
      (read_excel_data [("EV", gap_sheet)])
  = [(1%nat, [2%nat])].
Proof. vm_compute. reflexivity. Qed.

(** ** The aggregate row of a sheet *)


Lemma last_marked_fold (ws : worksheet) (rows : list nat) :
  forall t0,
    fold_left (fun _ r => Some (row_data ws r)) rows t0
    = match rows with
      | [] => t0
      | _ :: _ => Some (row_data ws (last rows 0%nat))
      end.
Proof.
  induction rows as [|r rows IH]; intros t0; [reflexivity|].
  cbn [fold_left]. rewrite IH. destruct rows; reflexivity.
Qed.

Lemma rows_loop_split (ws : worksheet) (rows : list nat) :
  forall st,
    fold_left (row_step ws) rows st
    = (fold_left (fun d r => dict_set key_eqb d (cell ws r 1) (row_data ws r))
                 (filter (fun r => negb (marked ws r)) (filter (extracted ws) rows))
                 (fst st),
       fold_left (fun _ r => Some (row_data ws r))
                 (filter (marked ws) (filter (extracted ws) rows))
                 (snd st)).
Proof.
  induction rows as [|r rows IH]; intros [d t]; [reflexivity|].
  cbn [fold_left]. rewrite IH. cbn [filter].
  assert (He : truthy (cell ws r 1) = extracted ws r) by reflexivity.
  assert (Hm : is_total_label (cell ws r 1) = marked ws r) by reflexivity.
  unfold row_step. rewrite He, Hm.
  destruct (extracted ws r); cbn [negb filter fst snd]; [|reflexivity].
  destruct (marked ws r); reflexivity.
Qed.

Lemma unmarked_keys (ws : worksheet) (rows : list nat) :
  forall d,
    (forall k vals, In (k, vals) d -> is_total_label k = false) ->
    forall k vals,
      In (k, vals)
         (fold_left (fun d r => dict_set key_eqb d (cell ws r 1) (row_data ws r))
                    (filter (fun r => negb (marked ws r)) rows) d) ->
      is_total_label k = false.
Proof.
  induction rows as [|r rows IH]; intros d Hd k vals; [apply Hd|].
  cbn [filter]. destruct (marked ws r) eqn:Hm; cbn [negb].
  - now apply IH.
  - cbn [fold_left]. apply IH.
    apply dict_set_keys; [exact Hd | exact Hm].
Qed.

Example later_total_row_wins :
  let ws :=
    {| max_row := 4; max_column := 2;
       cell := fun row col =>
         match row, col with
         | 2, 1 => PStr "小計 合計" | 2, 2 => PInt 1
         | 3, 1 => PStr "北海道" | 3, 2 => PInt 2
         | 4, 1 => PStr "総計" | 4, 2 => PInt 3
         | _, _ => PNone
         end%nat |} in
  total (read_sheet ws) = Some ["3"] /\
  prefectures (read_sheet ws) = [(PStr "北海道", ["2"])].
Proof. vm_compute. split; reflexivity. Qed.

(** ** Lists and enumeration *)

Lemma enumerate_from_in {A : Type} (l : list A) (x : A) (start : nat) :
  In x l -> exists i, In (i, x) (combine (seq start (List.length l)) l).
Proof.
  revert start. induction l as [|a l IH]; intros start Hin; [destruct Hin|].
  destruct Hin as [->|Hin].
  - exists start. now left.
  - destruct (IH (S start) Hin) as [i Hi]. exists i. now right.
Qed.

Lemma enumerate_in {A : Type} (l : list A) (x : A) :
  In x l -> exists i, In (i, x) (enumerate l).
Proof. apply enumerate_from_in. Qed.

(** ** The panels *)

Lemma panel_fails_only_by_index (i : nat) (name : string) (d : sheet_data) (e : py_exn) :
  panel i name d = inl e -> e = IndexError.
Proof.
  unfold panel. destruct (years d); intros H; [now inversion H | discriminate].
Qed.

Lemma panel_empty_years (i : nat) (name : string) (d : sheet_data) :
  years d = [] -> panel i name d = inl IndexError.
Proof. unfold panel. now intros ->. Qed.

Lemma panels_empty_years (l : list (nat * (string * sheet_data))) :
  forall html,
    (exists i name d, In (i, (name, d)) l /\ years d = []) ->
    panels l html = inl IndexError.
Proof.
  induction l as [|[i [name d]] l IH]; intros html (j & n & d' & Hin & Hy).
  - destruct Hin.
  - simpl. destruct (panel i name d) as [e|p] eqn:Hp.
    + now rewrite (panel_fails_only_by_index _ _ _ _ Hp).
    + destruct Hin as [Heq|Hin].
      * inversion Heq; subst. rewrite (panel_empty_years _ _ _ Hy) in Hp. discriminate.
      * apply IH. now exists j, n, d'.
Qed.

(** C9.  When some sheet has no periods, building the document raises
    IndexError, and generate_html ends with it before writing anything. *)
Theorem empty_years_raise_index_error
    (tpl : template) (w : world) (data : list (string * sheet_data))
    (output_file page_title page_subtitle name : string) (d : sheet_data) :
  In (name, d) data -> years d = [] ->
  document tpl data page_title page_subtitle = inl IndexError /\
  generate_html tpl w data output_file page_title page_subtitle
    = ([], inl (Uncaught IndexError)).
Proof.
  intros Hin Hy.
  assert (Hdoc : document tpl data page_title page_subtitle = inl IndexError).
  { unfold document. rewrite panels_empty_years; [reflexivity|].
    destruct (enumerate_in data (name, d) Hin) as [i Hi]. now exists i, name, d. }
  split; [exact Hdoc|]. unfold generate_html. now rewrite Hdoc.
Qed.

(** C9 at a map whose second sheet has no periods. *)
Lemma empty_years_raise_index_error_witness :
  document sample_template
    [("EV", read_sheet sample_sheet);
     ("V2H", {| years := []; prefectures := []; total := None |})]
    "t" "s" = inl IndexError /\
  generate_html sample_template sample_world
    [("EV", read_sheet sample_sheet);
     ("V2H", {| years := []; prefectures := []; total := None |})]
    "out.html" "t" "s" = ([], inl (Uncaught IndexError)).
Proof.
  apply (empty_years_raise_index_error sample_template sample_world _ "out.html" "t" "s"
           "V2H" {| years := []; prefectures := []; total := None |}).
  - simpl. right. left. reflexivity.
  - reflexivity.
Defined.

(** ** main *)

Lemma print_all_trace (lines : list string) :
  print_all lines = (map Print lines, inr tt).
Proof.
  induction lines as [|l ls IH]; [reflexivity|].
  simpl. rewrite IH. reflexivity.
Qed.



Lemma main_ignores_further_arguments
    (tpl : template) (w : world) (prog src dst : string) (more : list string) :
  main tpl w (prog :: src :: dst :: more) = main tpl w [prog; src; dst].
Proof. reflexivity. Qed.


(** * Further properties *)

(** ** Rounding depends on the value alone *)

Lemma round_half_even_scale (a b t : Z) :
  0 < b -> 0 < t -> round_half_even (a * t) (b * t) = round_half_even a b.
Proof.
  intros Hb Ht. unfold round_half_even.
  rewrite Z.div_mul_cancel_r by lia.
  rewrite Z.mul_mod_distr_r by lia.
  set (q := a / b). set (r := a mod b).
  replace (2 * (r * t) <? b * t) with (2 * r <? b)
    by (destruct (Z.ltb_spec (2 * r) b), (Z.ltb_spec (2 * (r * t)) (b * t)); nia).
  replace (b * t <? 2 * (r * t)) with (b <? 2 * r)
    by (destruct (Z.ltb_spec b (2 * r)), (Z.ltb_spec (b * t) (2 * (r * t))); nia).
  reflexivity.
Qed.

Lemma round_rat_scale (neg : bool) (p q t : Z) :
  0 < q -> 0 < t -> round_rat neg (p * t) (q * t) = round_rat neg p q.
Proof.
  intros Hq Ht. unfold round_rat.
  replace (p * t * scale) with (p * scale * t) by ring.
  rewrite Z.div_mul_cancel_r by lia.
  set (s := Z.max 0 (Z.log2 (p * scale / q) + 1 - 53)).
  assert (H2s : 0 < 2 ^ s) by (apply Z.pow_pos_nonneg; unfold s; lia).
  replace (q * t * 2 ^ s) with (q * 2 ^ s * t) by ring.
  rewrite round_half_even_scale by nia. reflexivity.
Qed.

Lemma round_dec_shift (neg : bool) (m k j : Z) :
  0 <= j -> round_dec neg (m * 10 ^ j) k = round_dec neg m (k + j).
Proof.
  intros Hj. unfold round_dec.
  destruct (Z.leb_spec 0 k) as [Hk|Hk].
  - replace (0 <=? k + j) with true by (symmetry; apply Z.leb_le; lia).
    rewrite Z.pow_add_r by lia. f_equal. ring.
  - destruct (Z.leb_spec 0 (k + j)) as [Hkj|Hkj].
    + replace j with ((k + j) + (- k)) at 1 by lia.
      rewrite Z.pow_add_r by lia.
      rewrite <- (round_rat_scale neg (m * 10 ^ (k + j)) 1 (10 ^ (- k)))
        by (try apply Z.pow_pos_nonneg; lia).
      f_equal; ring.
    + replace (- k) with ((- (k + j)) + j) by lia.
      rewrite Z.pow_add_r by lia.
      apply round_rat_scale; apply Z.pow_pos_nonneg; lia.
Qed.

(** ** A binary64 is the float nearest to itself *)

Lemma round_rat_representable (neg : bool) (n p q : Z) :
  binary64 (Finite neg n) = true -> 0 < q -> p * scale = n * q ->
  round_rat neg p q = Finite neg n.
Proof.
  unfold binary64. intros Hv Hq Hpq.
  apply andb_true_iff in Hv. destruct Hv as [Hv Hmod].
  apply andb_true_iff in Hv. destruct Hv as [Hn0 Hnh].
  apply Z.leb_le in Hn0. apply Z.ltb_lt in Hnh. apply Z.eqb_eq in Hmod.
  unfold round_rat. rewrite Hpq, Z.div_mul by lia.
  set (s := Z.max 0 (Z.log2 n + 1 - 53)) in *.
  assert (H2s : 0 < 2 ^ s) by (apply Z.pow_pos_nonneg; unfold s; lia).
  apply Z.mod_divide in Hmod; [|lia]. destruct Hmod as [x Hx].
  replace (n * q) with (x * (q * 2 ^ s)) by (rewrite Hx; ring).
  rewrite round_half_even_exact by nia.
  rewrite <- Hx. replace (huge <=? n) with false by (symmetry; apply Z.leb_gt; lia).
  reflexivity.
Qed.

Lemma pow10_split (j : Z) : 0 <= j -> 10 ^ j = 5 ^ j * 2 ^ j.
Proof. intros Hj. rewrite <- Z.pow_mul_l. reflexivity. Qed.

Lemma exact_expansion_reads_back (n : Z) :
  binary64 (Finite false n) = true -> reads_back n (n * 5 ^ 1074) (-1074) = true.
Proof.
  intros Hv. unfold reads_back, round_dec.
  change (0 <=? -1074) with false. change (- -1074) with 1074. cbv iota.
  rewrite (round_rat_representable false n).
  - apply Z.eqb_refl.
  - exact Hv.
  - apply Z.pow_pos_nonneg; lia.
  - rewrite (pow10_split 1074) by lia. unfold scale. ring.
Qed.

Lemma scaled_floor_nonneg (n k : Z) : 0 <= n -> 0 <= scaled_floor n k.
Proof.
  intros Hn. unfold scaled_floor. pose proof scale_pos as Hs.
  destruct (0 <=? k) eqn:E.
  - apply Z.leb_le in E. apply Z.div_pos; [lia|].
    apply Z.mul_pos_pos; [lia | apply Z.pow_pos_nonneg; lia].
  - apply Z.leb_gt in E. apply Z.div_pos; [|lia].
    apply Z.mul_nonneg_nonneg; [lia | apply Z.pow_nonneg; lia].
Qed.

Lemma nearest_of_cases (n k lo : Z) :
  nearest_of n k lo = lo \/ nearest_of n k lo = lo + 1.
Proof.
  unfold nearest_of. destruct (0 <=? k);
    match goal with |- context [?a ?= ?b] => destruct (a ?= b) end;
    try destruct (Z.even lo); auto.
Qed.

Lemma shortest_reads_back (fuel : nat) :
  forall p n e c k,
    binary64 (Finite false n) = true ->
    shortest fuel p n e = (c, k) ->
    reads_back n c k = true /\ 0 <= c.
Proof.
  induction fuel as [|fuel IH]; intros p n e c k Hv Hs.
  - cbn [shortest] in Hs.
    assert (Hc : c = n * 5 ^ 1074) by congruence.
    assert (Hk : k = -1074) by congruence. subst c k. clear Hs. split.
    + now apply exact_expansion_reads_back.
    + unfold binary64 in Hv. apply andb_true_iff in Hv. destruct Hv as [Hv _].
      apply andb_true_iff in Hv. destruct Hv as [Hn0 _]. apply Z.leb_le in Hn0.
      apply Z.mul_nonneg_nonneg; [lia | apply Z.pow_nonneg; lia].
  - cbn [shortest] in Hs. cbv zeta in Hs.
    assert (Hn0 : 0 <= n).
    { unfold binary64 in Hv. apply andb_true_iff in Hv. destruct Hv as [Hv _].
      apply andb_true_iff in Hv. destruct Hv as [Hn0 _]. now apply Z.leb_le in Hn0. }
    pose proof (scaled_floor_nonneg n (e - p + 1) Hn0) as Hlo.
    destruct (reads_back n (scaled_floor n (e - p + 1)) (e - p + 1)) eqn:E1;
      destruct (reads_back n (scaled_floor n (e - p + 1) + 1) (e - p + 1)) eqn:E2.
    + inversion Hs; subst.
      destruct (nearest_of_cases n (e - p + 1) (scaled_floor n (e - p + 1))) as [-> | ->];
        split; (assumption || lia).
    + inversion Hs; subst. now split.
    + inversion Hs; subst. split; [assumption | lia].
    + exact (IH _ _ _ _ _ Hv Hs).
Qed.

Lemma round_dec_zero (neg : bool) (k : Z) : round_dec neg 0 k = Finite neg 0.
Proof.
  unfold round_dec. destruct (0 <=? k) eqn:E.
  - rewrite Z.mul_0_l. reflexivity.
  - apply Z.leb_gt in E. unfold round_rat. rewrite Z.mul_0_l.
    assert (Hq : 0 < 10 ^ (- k)) by (apply Z.pow_pos_nonneg; lia).
    rewrite Z.div_0_l by lia. change (Z.max 0 (Z.log2 0 + 1 - 53)) with 0.
    unfold round_half_even. rewrite Z.div_0_l, Z.mod_0_l by lia.
    replace (2 * 0 <? 10 ^ (- k) * 2 ^ 0) with true by (symmetry; apply Z.ltb_lt; lia).
    reflexivity.
Qed.

Lemma shortest_positive (fuel : nat) (p n e c k : Z) :
  binary64 (Finite false n) = true -> 0 < n ->
  shortest fuel p n e = (c, k) ->
  round_dec false c k = Finite false n /\ 0 < c.
Proof.
  intros Hv Hn Hs. destruct (shortest_reads_back _ _ _ _ _ _ Hv Hs) as [Hr Hc].
  unfold reads_back in Hr.
  assert (Hround : round_dec false c k = Finite false n).
  { unfold round_dec, round_rat in *.
    destruct (0 <=? k);
      match type of Hr with context [if ?b then _ else _] => destruct b end;
      try discriminate Hr; apply Z.eqb_eq in Hr; now subst. }
  split; [exact Hround|].
  destruct (Z.eq_dec c 0) as [->|]; [|lia].
  rewrite round_dec_zero in Hround. inversion Hround. lia.
Qed.

(** ** Reading digits *)

Lemma read_digits_app (a b : list ascii) (x : Z) :
  read_digits (a ++ b) x = read_digits b (read_digits a x).
Proof. unfold read_digits. apply fold_left_app. Qed.

Lemma read_digits_zeros (z : nat) (x : Z) :
  read_digits (repeat "0"%char z) x = x * 10 ^ Z.of_nat z.
Proof.
  revert x. induction z as [|z IH]; intros x.
  - simpl. lia.
  - cbn [repeat]. change (read_digits ("0"%char :: repeat "0"%char z) x)
      with (read_digits (repeat "0"%char z) (10 * x + 0)).
    rewrite IH, Nat2Z.inj_succ, Z.pow_succ_r by lia. ring.
Qed.

Lemma zeros_list (z : nat) : list_ascii_of_string (zeros z) = repeat "0"%char z.
Proof. induction z as [|z IH]; [reflexivity|]. cbn. now rewrite IH. Qed.

Lemma digits_only_zeros (z : nat) : digits_only (repeat "0"%char z).
Proof. induction z; constructor; [reflexivity | assumption]. Qed.

Lemma rstrip0_split (l : list ascii) :
  exists z, l = (repeat "0"%char z ++ rstrip0 l)%list.
Proof.
  induction l as [|a l [z IH]]; [now exists 0%nat|].
  destruct a as [[] [] [] [] [] [] [] []]; try (now exists 0%nat).
  exists (S z). cbn [rstrip0 repeat app]. now rewrite <- IH.
Qed.

Lemma repeat_rev {A : Type} (x : A) (z : nat) : rev (repeat x z) = repeat x z.
Proof.
  induction z as [|z IH]; [reflexivity|].
  cbn [repeat rev]. rewrite IH. clear IH.
  induction z as [|z IH]; [reflexivity|]. cbn [repeat app]. now rewrite IH.
Qed.

Lemma strip_zeros_split (l : list ascii) :
  exists z, l = (rev (rstrip0 (rev l)) ++ repeat "0"%char z)%list.
Proof.
  destruct (rstrip0_split (rev l)) as [z Hz]. exists z.
  rewrite <- (rev_involutive l) at 1. rewrite Hz at 1.
  now rewrite rev_app_distr, repeat_rev.
Qed.

(** ** Reading a numeral *)

Lemma digit_run_tail (l t : list ascii) (x a c : Z) :
  digits_only l -> exp_tail t x ->
  digit_run (l ++ t) a c = (read_digits l a, c + Z.of_nat (List.length l), t).
Proof.
  intros Hl Ht. revert a c. induction Hl as [|d l Hd _ IH]; intros a c.
  - cbn [app List.length read_digits fold_left]. rewrite Z.add_0_r.
    destruct Ht; reflexivity.
  - cbn [app digit_run]. rewrite Hd, IH. cbn [List.length]. unfold read_digits.
    cbn [fold_left]. do 2 f_equal. lia.
Qed.

Lemma digit_run_point (l t : list ascii) (a c : Z) :
  digits_only l ->
  digit_run (l ++ "."%char :: t) a c
  = (read_digits l a, c + Z.of_nat (List.length l), "."%char :: t).
Proof.
  intros Hl. revert a c. induction Hl as [|d l Hd _ IH]; intros a c.
  - cbn [app List.length read_digits fold_left]. now rewrite Z.add_0_r.
  - cbn [app digit_run]. rewrite Hd, IH. cbn [List.length]. unfold read_digits.
    cbn [fold_left]. do 2 f_equal. lia.
Qed.

Lemma digitpart_tail (d : ascii) (l t : list ascii) (x acc : Z) :
  digits_only (d :: l) -> exp_tail t x ->
  digitpart ((d :: l) ++ t) acc
  = Some (read_digits (d :: l) acc, Z.of_nat (List.length (d :: l)), t).
Proof.
  intros Hd Ht. inversion Hd as [|? ? Hd0 Hl]; subst.
  cbn [app digitpart]. rewrite Hd0, (digit_run_tail l t x _ _ Hl Ht).
  cbn [List.length]. unfold read_digits. cbn [fold_left]. do 3 f_equal. lia.
Qed.

Lemma digitpart_point (d : ascii) (l t : list ascii) (acc : Z) :
  digits_only (d :: l) ->
  digitpart ((d :: l) ++ "."%char :: t) acc
  = Some (read_digits (d :: l) acc, Z.of_nat (List.length (d :: l)), "."%char :: t).
Proof.
  intros Hd. inversion Hd as [|? ? Hd0 Hl]; subst.
  cbn [app digitpart]. rewrite Hd0, (digit_run_point l t _ _ Hl).
  cbn [List.length]. unfold read_digits. cbn [fold_left]. do 3 f_equal. lia.
Qed.

Lemma exponent_read (t : list ascii) (x m fc : Z) :
  exp_tail t x ->
  match t with
  | [] => Some (m, - fc)
  | e :: r =>
      if Ascii.eqb (lower e) "e" then
        let (eneg, r1) := take_sign r in
        match digitpart r1 0 with
        | Some (ev, _, []) => Some (m, (if eneg then - ev else ev) - fc)
        | _ => None
        end
      else None
  end = Some (m, x - fc).
Proof.
  intros Ht. destruct Ht as [|neg digits Hd Hne]; [reflexivity|].
  change (Ascii.eqb (lower "e") "e") with true. cbv iota.
  destruct digits as [|d l]; [now elim Hne|].
  assert (Hsign : take_sign ((if neg then "-"%char else "+"%char) :: d :: l)
                  = (neg, d :: l)) by now destruct neg.
  rewrite Hsign.
  pose proof (digitpart_tail d l [] 0 0 Hd tail_none) as Hp.
  rewrite app_nil_r in Hp. rewrite Hp. now destruct neg.
Qed.

Lemma parse_number_point (a b t : list ascii) (x : Z) :
  digits_only a -> a <> [] -> digits_only b -> b <> [] -> exp_tail t x ->
  parse_number (a ++ "."%char :: b ++ t)
  = Some (read_digits (a ++ b) 0, x - Z.of_nat (List.length b)).
Proof.
  intros Ha Hane Hb Hbne Ht.
  destruct a as [|a0 a]; [now elim Hane|]. destruct b as [|b0 b]; [now elim Hbne|].
  unfold parse_number. rewrite (digitpart_point a0 a _ 0 Ha).
  rewrite (digitpart_tail b0 b t x _ Hb Ht).
  rewrite read_digits_app. now apply exponent_read.
Qed.

Lemma parse_number_plain (a t : list ascii) (x : Z) :
  digits_only a -> a <> [] -> exp_tail t x ->
  parse_number (a ++ t) = Some (read_digits a 0, x).
Proof.
  intros Ha Hane Ht. destruct a as [|a0 a]; [now elim Hane|].
  unfold parse_number. rewrite (digitpart_tail a0 a t x 0 Ha Ht).
  assert (Hnp : match t with
                | "."%char :: r =>
                    match digitpart r (read_digits (a0 :: a) 0) with
                    | Some res => Some res
                    | None => Some (read_digits (a0 :: a) 0, 0, r)
                    end
                | _ => Some (read_digits (a0 :: a) 0, 0, t)
                end = Some (read_digits (a0 :: a) 0, 0, t))
    by (destruct Ht; reflexivity).
  rewrite Hnp. rewrite (exponent_read t x _ 0 Ht). do 2 f_equal. lia.
Qed.

(** ** The characters of a printed float *)

Lemma float_char_plain (c : ascii) :
  float_char c = true -> is_space c = false /\ not_comma c = true.
Proof.
  intros H. destruct c as [[] [] [] [] [] [] [] []];
    vm_compute in H; first [discriminate H | split; reflexivity].
Qed.

Lemma float_chars_ascii (l : list ascii) :
  Forall (fun c => float_char c = true) l -> forallb is_ascii l = true.
Proof.
  intros H. apply forallb_forall. intros c Hc. rewrite Forall_forall in H.
  specialize (H c Hc). destruct c as [[] [] [] [] [] [] [] []];
    vm_compute in H; first [discriminate H | reflexivity].
Qed.

Lemma digit_float_char (c : ascii) : is_digit c = true -> float_char c = true.
Proof. intros H. unfold float_char. now rewrite H. Qed.

Lemma digits_float_chars (l : list ascii) : digits_only l -> Forall (fun c => float_char c = true) l.
Proof. apply Forall_impl. exact digit_float_char. Qed.

Lemma string_length_list (s : string) :
  String.length s = List.length (list_ascii_of_string s).
Proof. induction s as [|c s IH]; [reflexivity|]. cbn. now rewrite IH. Qed.

Lemma substring_firstn (m : nat) (s : string) :
  list_ascii_of_string (substring 0 m s) = firstn m (list_ascii_of_string s).
Proof.
  revert s. induction m as [|m IH]; intros s.
  - destruct s; reflexivity.
  - destruct s as [|c s]; [reflexivity|]. cbn. now rewrite IH.
Qed.

Lemma substring_skipn (n m : nat) (s : string) :
  list_ascii_of_string (substring n m s)
  = firstn m (skipn n (list_ascii_of_string s)).
Proof.
  revert s. induction n as [|n IH]; intros s.
  - apply substring_firstn.
  - destruct s as [|c s]; [now destruct m|]. cbn [substring]. rewrite IH. reflexivity.
Qed.

(** ** [float] of a numeral that starts with a digit *)

Lemma py_float_signed (neg : bool) (d : ascii) (l : list ascii) :
  is_digit d = true -> Forall (fun c => is_space c = false) (d :: l) ->
  forallb is_ascii (d :: l) = true ->
  py_float (string_of_list_ascii ((if neg then ["-"%char] else []) ++ d :: l))
  = match parse_number (d :: l) with
    | Some (m, k) => Some (round_dec neg m k)
    | None => None
    end.
Proof.
  intros Hd Hsp Hasc. rewrite py_float_of_ascii by (apply signed_ascii, Hasc).
  unfold float_from_string_inner.
  assert (Hsign : take_sign (strip ((if neg then ["-"%char] else []) ++ d :: l))
                  = (neg, d :: l)).
  { destruct neg.
    - rewrite strip_id by (constructor; [reflexivity | exact Hsp]). reflexivity.
    - cbn [app]. rewrite strip_id by exact Hsp. now apply digit_take_sign. }
  rewrite Hsign.
  destruct (digit_not_word d l Hd) as [H1 H2]. cbv zeta in H1, H2.
  now rewrite H1, H2.
Qed.

Lemma round_dec_sign (neg : bool) (m k n : Z) :
  round_dec false m k = Finite false n -> round_dec neg m k = Finite neg n.
Proof.
  unfold round_dec, round_rat. destruct (0 <=? k);
    match goal with |- context [if ?b then _ else _] => destruct b end;
    intros H; inversion H; reflexivity.
Qed.

(** ** The exponent of a printed float *)

Lemma exp_str_tail (x : Z) :
  exp_tail ("e"%char :: list_ascii_of_string (exp_str x)) x.
Proof.
  unfold exp_str.
  set (pad := if Z.abs x <? 10 then "0" else "").
  assert (Hpad : digits_only (list_ascii_of_string pad) /\
                 read_digits (list_ascii_of_string pad) 0 = 0).
  { unfold pad. destruct (Z.abs x <? 10); split; try reflexivity; repeat constructor. }
  destruct Hpad as [Hpd Hpr].
  pose proof (str_nat_digits (Z.abs x) (Z.abs_nonneg x)) as Hd.
  destruct (str_nat_nonempty (Z.abs x)) as (c & r & Hcr).
  assert (Hlist : list_ascii_of_string
                    ((if x <? 0 then "-" else "+") ++ pad ++ str_nat (Z.abs x))
                  = (if x <? 0 then "-"%char else "+"%char)
                    :: (list_ascii_of_string pad ++ list_ascii_of_string (str_nat (Z.abs x)))%list).
  { rewrite list_ascii_app, list_ascii_app. now destruct (x <? 0). }
  rewrite Hlist.
  replace x with (if x <? 0
                  then - read_digits (list_ascii_of_string pad
                                      ++ list_ascii_of_string (str_nat (Z.abs x))) 0
                  else read_digits (list_ascii_of_string pad
                                    ++ list_ascii_of_string (str_nat (Z.abs x))) 0) at 3.
  - apply tail_exp.
    + apply Forall_app. now split.
    + rewrite Hcr. now destruct (list_ascii_of_string pad).
  - rewrite read_digits_app, Hpr, read_str_nat by apply Z.abs_nonneg.
    destruct (Z.ltb_spec x 0); lia.
Qed.

Lemma exp_str_chars (x : Z) :
  Forall (fun c => float_char c = true) (list_ascii_of_string (exp_str x)).
Proof.
  unfold exp_str. rewrite !list_ascii_app.
  apply Forall_app. split; [|apply Forall_app; split].
  - destruct (x <? 0); repeat constructor.
  - destruct (Z.abs x <? 10); repeat constructor.
  - apply digits_float_chars, str_nat_digits, Z.abs_nonneg.
Qed.

(** ** The layouts of a printed float *)

Lemma repr_finite_layout (n : Z) :
  repr_finite n
  = let '(c, k) := shortest 17 1 n (dec_exponent n) in
    float_layout
      (string_of_list_ascii (rev (rstrip0 (rev (list_ascii_of_string (str_nat c))))))
      (Z.of_nat (String.length (str_nat c)) + k).
Proof. unfold repr_finite, float_layout. now destruct (shortest _ _ _ _). Qed.

Lemma reads_point (a b t : list ascii) (x : Z) :
  digits_only a -> a <> [] -> digits_only b -> b <> [] -> exp_tail t x ->
  Forall (fun c => float_char c = true) t ->
  reads_as (a ++ "."%char :: b ++ t) (read_digits (a ++ b) 0)
           (x - Z.of_nat (List.length b)).
Proof.
  intros Ha Hane Hb Hbne Ht Hft. split; [|split].
  - destruct a as [|d a]; [now elim Hane|]. exists d, (a ++ "."%char :: b ++ t)%list.
    split; [reflexivity|]. now inversion Ha.
  - apply Forall_app. split; [now apply digits_float_chars|].
    constructor; [reflexivity|]. apply Forall_app. split; [now apply digits_float_chars | exact Hft].
  - now apply parse_number_point.
Qed.

Lemma reads_plain (a t : list ascii) (x : Z) :
  digits_only a -> a <> [] -> exp_tail t x ->
  Forall (fun c => float_char c = true) t ->
  reads_as (a ++ t) (read_digits a 0) x.
Proof.
  intros Ha Hane Ht Hft. split; [|split].
  - destruct a as [|d a]; [now elim Hane|]. exists d, (a ++ t)%list.
    split; [reflexivity|]. now inversion Ha.
  - apply Forall_app. split; [now apply digits_float_chars | exact Hft].
  - now apply parse_number_plain.
Qed.

Lemma exp_tail_chars (x : Z) :
  Forall (fun c => float_char c = true) ("e"%char :: list_ascii_of_string (exp_str x)).
Proof. constructor; [reflexivity | apply exp_str_chars]. Qed.

Lemma Forall_take {A : Type} (P : A -> Prop) (n : nat) (l : list A) :
  Forall P l -> Forall P (firstn n l).
Proof.
  intros H. revert n. induction H as [|a l Ha _ IH]; intros [|n]; cbn [firstn];
    constructor; auto.
Qed.

Lemma Forall_drop {A : Type} (P : A -> Prop) (n : nat) (l : list A) :
  Forall P l -> Forall P (skipn n l).
Proof.
  intros H. revert n. induction H as [|a l Ha Hl IH]; intros [|n]; cbn [skipn];
    try constructor; auto.
Qed.

Lemma float_layout_reads (dl : list ascii) (decpt : Z) :
  digits_only dl -> dl <> [] ->
  exists m k,
    reads_as (list_ascii_of_string (float_layout (string_of_list_ascii dl) decpt)) m k /\
    forall neg, round_dec neg m k
                = round_dec neg (read_digits dl 0) (decpt - Z.of_nat (List.length dl)).
Proof.
  intros Hd Hne. unfold float_layout.
  rewrite string_length_list, list_ascii_of_string_of_list_ascii.
  set (nd := Z.of_nat (List.length dl)).
  destruct ((16 <? decpt) || (decpt <? -3)) eqn:Hexp.
  - (* exponent form *)
    destruct dl as [|d [|d' r]]; [now elim Hne | |].
    + exists (read_digits [d] 0), (decpt - 1). split.
      * cbn [string_of_list_ascii]. cbn [append list_ascii_of_string].
        apply (reads_plain [d] _ (decpt - 1) Hd);
          [discriminate | apply exp_str_tail | apply exp_tail_chars].
      * intros neg. now subst nd.
    + exists (read_digits ([d] ++ d' :: r) 0),
             (decpt - 1 - Z.of_nat (List.length (d' :: r))). split.
      * cbn [string_of_list_ascii]. cbn [append list_ascii_of_string].
        rewrite list_ascii_app, list_ascii_of_string_of_list_ascii.
        cbn [list_ascii_of_string append].
        inversion Hd as [|? ? Hd0 Hr]; subst.
        apply (reads_point [d] (d' :: r) _ (decpt - 1));
          [repeat constructor; assumption | discriminate | exact Hr | discriminate
          | apply exp_str_tail | apply exp_tail_chars].
      * intros neg. f_equal. subst nd. cbn [List.length]. lia.
  - apply orb_false_iff in Hexp. destruct Hexp as [H16 H3].
    apply Z.ltb_ge in H16, H3.
    destruct (Z.leb_spec decpt 0) as [H0|H0].
    + (* zeros after the point *)
      set (z := Z.to_nat (- decpt)).
      exists (read_digits (["0"%char] ++ (repeat "0"%char z ++ dl)) 0),
             (0 - Z.of_nat (List.length (repeat "0"%char z ++ dl)%list)).
      split.
      * replace (list_ascii_of_string ("0." ++ zeros z ++ string_of_list_ascii dl))
          with (["0"%char] ++ "."%char :: (repeat "0"%char z ++ dl) ++ [])%list.
        -- apply reads_point;
             [repeat constructor | discriminate
             | apply Forall_app; split; [apply digits_only_zeros | exact Hd]
             | destruct dl; [now elim Hne | now destruct (repeat "0"%char z)]
             | constructor | constructor].
        -- rewrite app_nil_r. cbn [append list_ascii_of_string app].
           now rewrite list_ascii_app, zeros_list, list_ascii_of_string_of_list_ascii.
      * intros neg. rewrite !read_digits_app, read_digits_zeros.
        change (read_digits ["0"%char] 0) with 0. rewrite Z.mul_0_l.
        f_equal. rewrite length_app, repeat_length. subst nd z. lia.
    + destruct (Z.ltb_spec decpt nd) as [Hlt|Hge].
      * (* the point inside the digits *)
        set (p := Z.to_nat decpt).
        assert (Hp : (0 < p < List.length dl)%nat) by (subst p nd; lia).
        exists (read_digits (firstn p dl ++ skipn p dl) 0),
               (0 - Z.of_nat (List.length (skipn p dl))).
        split.
        -- replace (list_ascii_of_string
                      (substring 0 p (string_of_list_ascii dl) ++ "." ++
                       substring p (Z.to_nat (nd - decpt)) (string_of_list_ascii dl)))
             with (firstn p dl ++ "."%char :: skipn p dl ++ [])%list.
           ++ apply reads_point.
              ** now apply Forall_take.
              ** destruct dl; [now elim Hne|]. destruct p; [lia | discriminate].
              ** now apply Forall_drop.
              ** intros E. apply (f_equal (@List.length ascii)) in E.
                 rewrite length_skipn in E. simpl in E. lia.
              ** constructor.
              ** constructor.
           ++ rewrite app_nil_r, list_ascii_app. cbn [append list_ascii_of_string].
              rewrite substring_firstn, substring_skipn,
                list_ascii_of_string_of_list_ascii.
              rewrite (firstn_all2 (skipn p dl))
                by (rewrite length_skipn; subst p nd; lia).
              reflexivity.
        -- intros neg. rewrite firstn_skipn. f_equal.
           rewrite length_skipn. subst p nd. lia.
      * (* a whole number *)
        set (j := Z.to_nat (decpt - nd)).
        exists (read_digits ((dl ++ repeat "0"%char j) ++ ["0"%char]) 0),
               (0 - Z.of_nat (List.length ["0"%char])).
        split.
        -- replace (list_ascii_of_string (string_of_list_ascii dl ++ zeros j ++ ".0"))
             with ((dl ++ repeat "0"%char j) ++ "."%char :: ["0"%char] ++ [])%list.
           ++ apply reads_point;
                [apply Forall_app; split; [exact Hd | apply digits_only_zeros]
                | destruct dl; [now elim Hne | discriminate]
                | repeat constructor | discriminate | constructor | constructor].
           ++ rewrite !list_ascii_app, zeros_list, list_ascii_of_string_of_list_ascii.
              rewrite <- app_assoc. reflexivity.
        -- intros neg. rewrite !read_digits_app, read_digits_zeros.
           change (read_digits ["0"%char] ?v) with (10 * v + 0).
           cbn [List.length].
           replace (10 * (read_digits dl 0 * 10 ^ Z.of_nat j) + 0)
             with (read_digits dl 0 * 10 ^ (Z.of_nat j + 1))
             by (rewrite Z.pow_add_r by lia; ring).
           rewrite round_dec_shift by lia. f_equal. subst j. lia.
Qed.

(** ** [float (repr x)] is [x] *)

Lemma repr_finite_reads (n : Z) :
  binary64 (Finite false n) = true -> 0 < n ->
  exists m k,
    reads_as (list_ascii_of_string (repr_finite n)) m k /\
    forall neg, round_dec neg m k = Finite neg n.
Proof.
  intros Hv Hn. rewrite repr_finite_layout.
  destruct (shortest 17 1 n (dec_exponent n)) as [c k] eqn:Hs.
  destruct (shortest_positive _ _ _ _ _ _ Hv Hn Hs) as [Hround Hc].
  set (la := list_ascii_of_string (str_nat c)).
  set (dl := rev (rstrip0 (rev la))).
  destruct (strip_zeros_split la) as [z Hz]. fold dl in Hz.
  assert (Hla : digits_only la) by (apply str_nat_digits; lia).
  assert (Hdl : digits_only dl).
  { unfold digits_only in Hla. rewrite Hz in Hla. now apply Forall_app in Hla. }
  assert (Hval : c = read_digits dl 0 * 10 ^ Z.of_nat z).
  { rewrite <- (read_str_nat c) at 1 by lia. fold la. rewrite Hz at 1.
    now rewrite read_digits_app, read_digits_zeros. }
  assert (Hne : dl <> []).
  { intros E. rewrite E in Hval. cbn in Hval. lia. }
  destruct (float_layout_reads dl (Z.of_nat (String.length (str_nat c)) + k) Hdl Hne)
    as (m & k' & Hreads & Hdec).
  exists m, k'. split; [exact Hreads|].
  intros neg. rewrite Hdec.
  replace (Z.of_nat (String.length (str_nat c)) + k - Z.of_nat (List.length dl))
    with (k + Z.of_nat z).
  - rewrite <- round_dec_shift by lia. rewrite <- Hval.
    now apply round_dec_sign.
  - rewrite string_length_list. fold la. rewrite Hz at 1.
    rewrite length_app, repeat_length. lia.
Qed.

Lemma float_zero_reads_back (neg : bool) :
  to_float (PFloat (Finite neg 0)) = Some (Finite neg 0).
Proof. destruct neg; vm_compute; reflexivity. Qed.

Lemma repr_reads_back (f : float) :
  binary64 f = true -> to_float (PFloat f) = Some f.
Proof.
  intros Hv. destruct f as [neg n | neg |]; [| now destruct neg | reflexivity].
  destruct (Z.eq_dec n 0) as [->|Hnz]; [apply float_zero_reads_back|].
  assert (Hn : 0 < n).
  { unfold binary64 in Hv. apply andb_true_iff in Hv. destruct Hv as [Hv _].
    apply andb_true_iff in Hv. destruct Hv as [Hn0 _]. apply Z.leb_le in Hn0. lia. }
  destruct (repr_finite_reads n Hv Hn) as (m & k & ((d & r & Hl & Hd) & Hchars & Hparse) & Hround).
  unfold to_float. cbn [py_str repr].
  replace (n =? 0) with false by (symmetry; now apply Z.eqb_neq).
  assert (Hstr : (if neg then "-" else "") ++ repr_finite n
                 = string_of_list_ascii ((if neg then ["-"%char] else []) ++ d :: r)).
  { rewrite <- Hl. destruct neg; cbn [app string_of_list_ascii append];
      now rewrite string_of_list_ascii_of_string. }
  rewrite Hstr, remove_commas_list.
  rewrite Hl in Hchars.
  rewrite filter_all.
  - rewrite py_float_signed.
    + rewrite <- Hl, Hparse. now rewrite Hround.
    + exact Hd.
    + revert Hchars. apply Forall_impl. intros c Hc. now apply float_char_plain.
    + now apply float_chars_ascii.
  - apply Forall_app. split.
    + destruct neg; repeat constructor.
    + revert Hchars. apply Forall_impl. intros c Hc. now apply float_char_plain.
Qed.

Lemma sign_str_commas_if (neg : bool) :
  remove_commas (if neg then "-" else "") = (if neg then "-" else "").
Proof. now destruct neg. Qed.

(** X1.  Printing a float and reading the text back gives the float
    itself, for every binary64, the infinities and NaN included; so the
    conversion in format_number loses nothing of a float cell. *)
Theorem float_reads_back (f : float) :
  binary64 f = true ->
  py_float (repr f) = Some f /\ to_float (PFloat f) = Some f.
Proof.
  intros Hv. split; [|exact (repr_reads_back f Hv)].
  assert (Hrc : remove_commas (repr f) = repr f);
    [|rewrite <- Hrc at 1; exact (repr_reads_back f Hv)].
  destruct f as [neg n | neg |]; [| now destruct neg | reflexivity].
  destruct (Z.eq_dec n 0) as [->|Hnz]; [now destruct neg|].
  assert (Hn : 0 < n).
  { unfold binary64 in Hv. apply andb_true_iff in Hv. destruct Hv as [Hv _].
    apply andb_true_iff in Hv. destruct Hv as [Hn0 _]. apply Z.leb_le in Hn0. lia. }
  destruct (repr_finite_reads n Hv Hn) as (m & k & (_ & Hchars & _) & _).
  cbn [repr]. replace (n =? 0) with false by (symmetry; now apply Z.eqb_neq).
  rewrite remove_commas_app, sign_str_commas_if.
  f_equal. rewrite <- (string_of_list_ascii_of_string (repr_finite n)) at 1.
  rewrite remove_commas_list, filter_all; [apply string_of_list_ascii_of_string|].
  revert Hchars. apply Forall_impl. intros c Hc. now apply float_char_plain.
Qed.

(** ** Float cells *)

(** X1 at the float nearest to 1234.56. *)
Lemma float_reads_back_witness :
  py_float (repr (Finite false mag_1234_56)) = Some (Finite false mag_1234_56) /\
  to_float (PFloat (Finite false mag_1234_56)) = Some (Finite false mag_1234_56).
Proof. apply (float_reads_back (Finite false mag_1234_56)). vm_compute. reflexivity. Defined.

(** ** Commas in a numeral *)

Lemma remove_commas_twice (s : string) :
  remove_commas (remove_commas s) = remove_commas s.
Proof.
  induction s as [|c s IH]; [reflexivity|].
  cbn [remove_commas]. destruct (Ascii.eqb c ",") eqn:E; [exact IH|].
  cbn [remove_commas]. now rewrite E, IH.
Qed.

(** X3.  When a text reads as a number once its commas are taken out,
    format_number prints it as it prints the text without the commas,
    wherever the commas stand. *)
Theorem commas_do_not_matter (s : string) (num : float) :
  to_float (PStr s) = Some num ->
  format_number (PStr (remove_commas s)) = format_number (PStr s).
Proof.
  intros H.
  assert (H' : to_float (PStr (remove_commas s)) = Some num).
  { unfold to_float in *. cbn [py_str] in *. now rewrite remove_commas_twice. }
  now rewrite (format_number_numeric _ _ H), (format_number_numeric _ _ H').
Qed.

(** X3 at a text with misplaced commas. *)
Lemma commas_do_not_matter_witness :
  format_number (PStr (remove_commas "1,23,4.5")) = format_number (PStr "1,23,4.5").
Proof.
  apply (commas_do_not_matter "1,23,4.5" (Finite false (2469 * (scale / 2)))).
  vm_compute. reflexivity.
Defined.

Example misplaced_commas_are_read :
  format_number (PStr "1,23,4.5") = "1,234.5".
Proof. vm_compute. reflexivity. Qed.

(** ** Text that is no numeral *)

Lemma lstrip_keeps_last (l : list ascii) (c : ascii) :
  is_space c = false -> exists y, lstrip (l ++ [c]) = (y ++ [c])%list.
Proof.
  intros Hc. induction l as [|a l [y IH]].
  - exists []. simpl. now rewrite Hc.
  - cbn [app lstrip]. destruct (is_space a).
    + now exists y.
    + now exists (a :: l).
Qed.

Lemma strip_keeps_first (c : ascii) (l : list ascii) :
  is_space c = false -> exists r, strip (c :: l) = c :: r.
Proof.
  intros Hc. unfold strip. cbn [lstrip]. rewrite Hc. cbn [rev].
  destruct (lstrip_keeps_last (rev l) c Hc) as [y Hy]. rewrite Hy.
  exists (rev y). now rewrite rev_app_distr.
Qed.

Lemma no_numeral_start_no_float (c : ascii) (r : list ascii) :
  no_numeral_start c = true -> float_from_string_inner (c :: r) = None.
Proof.
  intros H.
  assert (Hsp : is_space c = false)
    by (destruct c as [[] [] [] [] [] [] [] []]; vm_compute in H;
        first [discriminate H | reflexivity]).
  unfold float_from_string_inner.
  destruct (strip_keeps_first c r Hsp) as [r' Hr]. rewrite Hr. clear Hr Hsp.
  destruct c as [[] [] [] [] [] [] [] []];
    vm_compute in H; first [discriminate H | reflexivity].
Qed.

Lemma text_start_ascii (c : ascii) (cp : Z) :
  byte c = cp -> cp < 128 ->
  (negb (unicode_isspace cp) &&
   match unicode_todecimal cp with
   | Some _ => false
   | None => true
   end &&
   negb ((cp =? 43) || (cp =? 45) || (cp =? 46) || (cp =? 44) ||
         (cp =? 73) || (cp =? 105) || (cp =? 78) || (cp =? 110))) = true ->
  no_numeral_start c = true /\ Ascii.eqb c "," = false.
Proof.
  intros <- _ H. destruct c as [[] [] [] [] [] [] [] []];
    vm_compute in H; first [discriminate H | split; reflexivity].
Qed.

Lemma continuation_kept (c : ascii) :
  continuation c = true -> Ascii.eqb c "," = false /\ is_ascii c = false.
Proof.
  intros H. destruct c as [[] [] [] [] [] [] [] []];
    vm_compute in H; first [discriminate H | split; reflexivity].
Qed.

Lemma some_eq {A : Type} (a b : A) : Some a = Some b -> a = b.
Proof. congruence. Qed.

Lemma transformed_text (cp : Z) (rest : list ascii) :
  unicode_isspace cp = false -> unicode_todecimal cp = None ->
  transformed cp rest = ["?"%char].
Proof. intros H1 H2. unfold transformed. now rewrite H1, H2. Qed.

Lemma transform_ascii_start (c : ascii) (l : list ascii) :
  is_ascii c = true -> no_numeral_start c = true ->
  exists c' r, transform_decimal_and_space_to_ascii (c :: l) = c' :: r /\
               no_numeral_start c' = true.
Proof.
  intros Ha H. unfold transform_decimal_and_space_to_ascii.
  destruct (forallb is_ascii (c :: l)); [now exists c, l|].
  cbn [transform]. destruct (Z.of_nat (nat_of_ascii c) <? 127) eqn:E1.
  - now exists c, (transform l 0 0).
  - destruct (Z.of_nat (nat_of_ascii c) <? 192) eqn:E2; [now exists "?"%char, []|].
    destruct c as [[] [] [] [] [] [] [] []]; vm_compute in Ha, E2; discriminate.
Qed.

(** X4.  A text whose first character is no blank and no decimal digit of
    any script, no sign, point or comma and not the first letter of inf
    or nan, does not convert to a float and is returned as it is. *)
Theorem text_passes_through (s : string) :
  text_start s = true ->
  to_float (PStr s) = None /\ format_number (PStr s) = s.
Proof.
  intros H.
  assert (Hf : to_float (PStr s) = None).
  { unfold to_float, py_float. cbn [py_str].
    unfold text_start in H.
    destruct (first_code_point (list_ascii_of_string s)) as [cp|] eqn:Hcp;
      [|discriminate].
    destruct s as [|c rest]; [discriminate|].
    cbn [list_ascii_of_string first_code_point] in Hcp.
    destruct (byte c <? 128) eqn:E1.
    - (* an ASCII character *)
      assert (Hc : byte c = cp) by congruence.
      apply Z.ltb_lt in E1.
      destruct (text_start_ascii c cp Hc ltac:(lia) H) as [Hstart Hcomma].
      assert (Ha : is_ascii c = true).
      { unfold is_ascii. apply Nat.ltb_lt. unfold byte in E1. lia. }
      cbn [remove_commas]. rewrite Hcomma. cbn [list_ascii_of_string].
      destruct (transform_ascii_start c (list_ascii_of_string (remove_commas rest))
                  Ha Hstart) as (c' & r & -> & Hc').
      now apply no_numeral_start_no_float.
    - destruct (byte c <? 192) eqn:E2; [discriminate|].
      apply andb_true_iff in H. destruct H as [H _].
      apply andb_true_iff in H. destruct H as [Hsp Hdec].
      apply negb_true_iff in Hsp.
      assert (Hdec' : unicode_todecimal cp = None)
        by (destruct (unicode_todecimal cp); [discriminate | reflexivity]).
      assert (Hc : Ascii.eqb c "," = false /\ is_ascii c = false).
      { destruct c as [[] [] [] [] [] [] [] []]; vm_compute in E1;
          first [discriminate E1 | split; reflexivity]. }
      destruct Hc as [Hcomma Hasc].
      cbn [remove_commas]. rewrite Hcomma.
      unfold transform_decimal_and_space_to_ascii.
      cbn [list_ascii_of_string forallb]. rewrite Hasc. cbn [andb transform].
      fold (byte c).
      replace (byte c <? 127) with false
        by (symmetry; apply Z.ltb_ge; apply Z.ltb_ge in E1; lia).
      rewrite E2.
      destruct (byte c <? 224) eqn:E3; [|destruct (byte c <? 240) eqn:E4].
      + (* two bytes *)
        destruct rest as [|c2 rest]; [discriminate|].
        cbn [list_ascii_of_string] in Hcp.
        destruct (continuation c2) eqn:K2; [|discriminate].
        destruct (continuation_kept c2 K2) as [Hk2 _].
        cbn [remove_commas]. rewrite Hk2. cbn [list_ascii_of_string transform].
        fold (byte c2). apply some_eq in Hcp. rewrite Hcp.
        now rewrite transformed_text.
      + (* three bytes *)
        destruct rest as [|c2 [|c3 rest]]; try discriminate.
        cbn [list_ascii_of_string] in Hcp.
        destruct (continuation c2) eqn:K2; [|discriminate].
        destruct (continuation c3) eqn:K3; [|discriminate].
        destruct (continuation_kept c2 K2) as [Hk2 _].
        destruct (continuation_kept c3 K3) as [Hk3 _].
        cbn [remove_commas]. rewrite Hk2. cbn [remove_commas]. rewrite Hk3.
        cbn [list_ascii_of_string transform].
        fold (byte c2). fold (byte c3). cbn [andb] in Hcp.
        apply some_eq in Hcp. rewrite Hcp.
        now rewrite transformed_text.
      + (* four bytes *)
        destruct rest as [|c2 [|c3 [|c4 rest]]]; try discriminate.
        cbn [list_ascii_of_string] in Hcp.
        destruct (continuation c2) eqn:K2; [|discriminate].
        destruct (continuation c3) eqn:K3; [|discriminate].
        destruct (continuation c4) eqn:K4; [|discriminate].
        destruct (continuation_kept c2 K2) as [Hk2 _].
        destruct (continuation_kept c3 K3) as [Hk3 _].
        destruct (continuation_kept c4 K4) as [Hk4 _].
        cbn [remove_commas]. rewrite Hk2. cbn [remove_commas]. rewrite Hk3.
        cbn [remove_commas]. rewrite Hk4.
        cbn [list_ascii_of_string transform].
        fold (byte c2). fold (byte c3). fold (byte c4). cbn [andb] in Hcp.
        apply some_eq in Hcp. rewrite Hcp.
        now rewrite transformed_text. }
  split; [exact Hf|].
  destruct s as [|c rest]; [discriminate H|]. set (s := String c rest) in *.
  unfold format_number. rewrite Hf. cbn [eq_str is_none py_str].
  rewrite orb_false_r. replace (String.eqb s "") with false by reflexivity.
  rewrite orb_false_r.
  destruct (String.eqb s "－") eqn:E.
  - apply String.eqb_eq in E. now rewrite E.
  - reflexivity.
Qed.

(** X4 at the name of a prefecture. *)
Lemma text_passes_through_witness :
  to_float (PStr "北海道") = None /\ format_number (PStr "北海道") = "北海道".
Proof. apply (text_passes_through "北海道"). vm_compute. reflexivity. Defined.

(** Digits of another script are read as digits: the text is a number. *)
Example fullwidth_digits_are_read :
  text_start "１２３" = false /\ format_number (PStr "１２３") = "123".
Proof. split; vm_compute; reflexivity. Qed.

(** ** The order of the sheets *)

Lemma dict_set_fresh {K V : Type} (eqb : K -> K -> bool) (d : list (K * V))
    (k : K) (v : V) :
  (forall k' v', In (k', v') d -> eqb k' k = false) ->
  dict_set eqb d k v = (d ++ [(k, v)])%list.
Proof.
  induction d as [|[k' v'] d IH]; intros H; [reflexivity|].
  cbn [dict_set app]. rewrite (H k' v' (or_introl eq_refl)).
  f_equal. apply IH. intros k0 v0 Hin. apply (H k0 v0). now right.
Qed.

Lemma sheets_in_order (wb : workbook) :
  forall data,
    NoDup (map fst data ++ map fst wb) ->
    fold_left (fun data sheet =>
                 dict_set String.eqb data (fst sheet) (read_sheet (snd sheet)))
              wb data
    = (data ++ map (fun sheet => (fst sheet, read_sheet (snd sheet))) wb)%list.
Proof.
  induction wb as [|[n ws] wb IH]; intros data Hnd.
  - cbn. now rewrite app_nil_r.
  - cbn [fold_left map fst snd]. rewrite dict_set_fresh.
    + rewrite IH.
      * now rewrite <- app_assoc.
      * rewrite map_app. cbn [map fst]. rewrite <- app_assoc. exact Hnd.
    + intros k' v' Hin. apply String.eqb_neq. intros ->.
      cbn [map fst] in Hnd. apply NoDup_remove_2 in Hnd. apply Hnd.
      apply in_or_app. left. now apply (in_map fst) in Hin.
Qed.

(** X5.  When the sheet names are distinct, read_excel_data gives one
    entry per sheet, in the order of the workbook, each the record read
    from that sheet. *)
Theorem read_excel_data_keeps_order (wb : workbook) :
  NoDup (map fst wb) ->
  read_excel_data wb = map (fun sheet => (fst sheet, read_sheet (snd sheet))) wb.
Proof. intros Hnd. unfold read_excel_data. now rewrite sheets_in_order. Qed.

(** X5 at a workbook of two sheets. *)
Lemma read_excel_data_keeps_order_witness :
  read_excel_data [("EV", sample_sheet); ("PHEV", gap_sheet)]
  = map (fun sheet => (fst sheet, read_sheet (snd sheet)))
        [("EV", sample_sheet); ("PHEV", gap_sheet)].
Proof.
  apply (read_excel_data_keeps_order [("EV", sample_sheet); ("PHEV", gap_sheet)]).
  repeat constructor; simpl; intuition discriminate.
Defined.

(** ** Rows with the same label *)

Lemma dict_set_distinct {K V : Type} (eqb : K -> K -> bool) (d : list (K * V))
    (k : K) (v : V) :
  distinct_keys eqb d -> distinct_keys eqb (dict_set eqb d k v).
Proof.
  induction d as [|[k' v'] d IH]; intros Hd.
  - cbn. split; [intros ? ? [] | exact I].
  - destruct Hd as [Hfirst Hrest]. cbn [dict_set].
    destruct (eqb k' k) eqn:E.
    + split; assumption.
    + split; [|now apply IH].
      intros k0 v0 Hin. apply dict_set_in in Hin.
      destruct Hin as [Hin | [_ [-> | (v'' & Hin & _)]]].
      * exact (Hfirst _ _ Hin).
      * exact E.
      * exact (Hfirst _ _ Hin).
Qed.

Lemma key_eqb_text_r (k : pyval) (s : string) :
  key_eqb k (PStr s) = true <-> k = PStr s.
Proof.
  split.
  - destruct k as [| b | z | [neg n | neg |] | t]; cbn; try discriminate.
    intros H. apply String.eqb_eq in H. now subst.
  - intros ->. cbn. apply String.eqb_refl.
Qed.

Lemma key_eqb_text_l (k : pyval) (s : string) :
  key_eqb (PStr s) k = true <-> k = PStr s.
Proof.
  split.
  - destruct k as [| b | z | [neg n | neg |] | t]; cbn; try discriminate.
    intros H. apply String.eqb_eq in H. now subst.
  - intros ->. cbn. apply String.eqb_refl.
Qed.

Lemma dict_get_set_text (d : list (pyval * list string)) (k : pyval)
    (v : list string) (s : string) :
  dict_get key_eqb (dict_set key_eqb d k v) (PStr s)
  = if key_eqb k (PStr s) then Some v else dict_get key_eqb d (PStr s).
Proof.
  induction d as [|[k' v'] d IH].
  - cbn. reflexivity.
  - cbn [dict_set]. destruct (key_eqb k' k) eqn:E.
    + cbn [dict_get]. destruct (key_eqb k (PStr s)) eqn:Ek.
      * apply key_eqb_text_r in Ek. subst k.
        apply key_eqb_text_r in E. subst k'.
        assert (Hr : key_eqb (PStr s) (PStr s) = true) by now apply key_eqb_text_r.
        rewrite Hr. reflexivity.
      * destruct (key_eqb k' (PStr s)) eqn:Ek'; [|reflexivity].
        apply key_eqb_text_r in Ek'. subst k'.
        apply key_eqb_text_l in E. subst k.
        assert (Hr : key_eqb (PStr s) (PStr s) = true) by now apply key_eqb_text_r.
        congruence.
    + cbn [dict_get]. rewrite IH.
      destruct (key_eqb k' (PStr s)) eqn:Ek'; [|reflexivity].
      destruct (key_eqb k (PStr s)) eqn:Ek; [|reflexivity].
      apply key_eqb_text_r in Ek', Ek. subst k k'.
      assert (Hr : key_eqb (PStr s) (PStr s) = true) by now apply key_eqb_text_r.
      congruence.
Qed.

Lemma mapped_rows_get (ws : worksheet) (s : string) (rows : list nat) :
  forall d,
    dict_get key_eqb
      (fold_left (fun d r => dict_set key_eqb d (cell ws r 1) (row_data ws r)) rows d)
      (PStr s)
    = match labelled ws s rows with
      | [] => dict_get key_eqb d (PStr s)
      | _ :: _ => Some (row_data ws (last (labelled ws s rows) 0%nat))
      end.
Proof.
  induction rows as [|r rows IH]; intros d; [reflexivity|].
  cbn [fold_left]. rewrite IH. unfold labelled. cbn [filter].
  fold (labelled ws s rows).
  destruct (labelled ws s rows) as [|r' rs] eqn:El.
  - rewrite dict_get_set_text. now destruct (key_eqb (cell ws r 1) (PStr s)).
  - destruct (key_eqb (cell ws r 1) (PStr s)); reflexivity.
Qed.

Lemma mapped_rows_distinct (ws : worksheet) (rows : list nat) :
  forall d,
    distinct_keys key_eqb d ->
    distinct_keys key_eqb
      (fold_left (fun d r => dict_set key_eqb d (cell ws r 1) (row_data ws r)) rows d).
Proof.
  induction rows as [|r rows IH]; intros d Hd; [exact Hd|].
  cbn [fold_left]. apply IH. now apply dict_set_distinct.
Qed.

Lemma prefectures_fold (ws : worksheet) :
  prefectures (read_sheet ws)
  = fold_left (fun d r => dict_set key_eqb d (cell ws r 1) (row_data ws r))
              (mapped_rows ws) [].
Proof. unfold read_sheet, mapped_rows. cbn [prefectures]. now rewrite rows_loop_split. Qed.

(** X6.  The mapping of a sheet never holds two equal labels; the entry
    of a text label holds the values of the last body row with that label
    among the rows that enter the mapping, and there is none when no such
    row exists. *)
Theorem repeated_label_keeps_later_row (ws : worksheet) (s : string) :
  distinct_keys key_eqb (prefectures (read_sheet ws)) /\
  dict_get key_eqb (prefectures (read_sheet ws)) (PStr s)
  = match labelled ws s (mapped_rows ws) with
    | [] => None
    | _ :: _ => Some (row_data ws (last (labelled ws s (mapped_rows ws)) 0%nat))
    end.
Proof.
  rewrite prefectures_fold. split.
  - apply mapped_rows_distinct. exact I.
  - apply mapped_rows_get.
Qed.

Example repeated_label_example :
  let ws :=
    {| max_row := 4; max_column := 2;
       cell := fun row col =>
         match row, col with
         | 2, 1 => PStr "北海道" | 2, 2 => PInt 1
         | 3, 1 => PStr "青森県" | 3, 2 => PInt 2
         | 4, 1 => PStr "北海道" | 4, 2 => PInt 3
         | _, _ => PNone
         end%nat |} in
  prefectures (read_sheet ws) = [(PStr "北海道", ["3"]); (PStr "青森県", ["2"])].
Proof. vm_compute. reflexivity. Qed.

(** ** No cell is left empty *)

Lemma str_nat_not_empty (n : Z) : str_nat n <> "".
Proof.
  destruct (str_nat_nonempty n) as (c & r & H). intros E. now rewrite E in H.
Qed.

Lemma str_int_not_empty (z : Z) : str_int z <> "".
Proof.
  unfold str_int. destruct (z <? 0); [discriminate | apply str_nat_not_empty].
Qed.

Lemma format_int_comma_not_empty (z : Z) : format_int_comma z <> "".
Proof.
  intros E. apply (str_int_not_empty z).
  now rewrite <- format_int_comma_ungroup, E.
Qed.

Lemma format_float_not_empty (f : float) : format_float_comma_1f f <> "".
Proof.
  destruct f as [neg n | neg |]; cbn [format_float_comma_1f].
  - destruct neg; cbn [sign_str append]; [discriminate|].
    now destruct (group3 (str_nat (tenths n / 10))).
  - now destruct neg.
  - discriminate.
Qed.

Lemma format_number_not_empty (v : pyval) :
  well_formed_cell v = true -> format_number v <> "".
Proof.
  intros Hw. unfold format_number.
  destruct (eq_str v "－" || eq_str v "" || is_none v) eqn:Hg; [discriminate|].
  destruct (to_float v) as [num|] eqn:Hf.
  - destruct (is_integer num);
      [apply format_int_comma_not_empty | apply format_float_not_empty].
  - destruct v as [| b | z | f | s]; cbn [py_str].
    + discriminate Hg.
    + now destruct b.
    + apply str_int_not_empty.
    + cbn [well_formed_cell] in Hw. rewrite (repr_reads_back f Hw) in Hf. discriminate.
    + cbn [eq_str is_none] in Hg. rewrite orb_false_r in Hg.
      apply orb_false_iff in Hg. destruct Hg as [_ Hg].
      intros E. subst s. discriminate.
Qed.

Lemma cell_text_not_empty (v : pyval) :
  well_formed_cell v = true -> cell_text v <> "".
Proof.
  intros Hw. unfold cell_text.
  destruct (is_none v || eq_str v ""); [discriminate | now apply format_number_not_empty].
Qed.

Lemma row_data_not_empty (ws : worksheet) (row : nat) :
  (forall r c, well_formed_cell (cell ws r c) = true) ->
  Forall (fun x => x <> "") (row_data ws row).
Proof.
  intros Hw. unfold row_data. apply Forall_map, Forall_forall.
  intros col _. apply cell_text_not_empty, Hw.
Qed.

Lemma rows_loop_not_empty (ws : worksheet) (rows : list nat) :
  (forall r c, well_formed_cell (cell ws r c) = true) ->
  forall st,
    (forall k vals, In (k, vals) (fst st) -> Forall (fun x => x <> "") vals) ->
    (forall t, snd st = Some t -> Forall (fun x => x <> "") t) ->
    (forall k vals, In (k, vals) (fst (fold_left (row_step ws) rows st)) ->
                    Forall (fun x => x <> "") vals) /\
    (forall t, snd (fold_left (row_step ws) rows st) = Some t ->
               Forall (fun x => x <> "") t).
Proof.
  intros Hw. induction rows as [|r rows IH]; intros st Hp Ht; [now split|].
  cbn [fold_left]. apply IH; unfold row_step;
    destruct (truthy (cell ws r 1)); cbn [negb]; try assumption;
    destruct (is_total_label (cell ws r 1)); cbn [fst snd]; try assumption.
  - apply dict_set_values; [exact Hp | now apply row_data_not_empty].
  - intros t H. inversion H. now apply row_data_not_empty.
Qed.

(** X7.  In a sheet whose float cells are binary64 values, no value of
    any row of the mapping or of the aggregate row is the empty text. *)
Theorem no_value_is_empty (ws : worksheet) :
  (forall r c, well_formed_cell (cell ws r c) = true) ->
  (forall k vals, In (k, vals) (prefectures (read_sheet ws)) ->
                  Forall (fun x => x <> "") vals) /\
  (forall t, total (read_sheet ws) = Some t -> Forall (fun x => x <> "") t).
Proof.
  intros Hw. unfold read_sheet. cbn [prefectures total].
  apply (rows_loop_not_empty ws _ Hw ([], None)).
  - intros ? ? [].
  - discriminate.
Qed.

(** X7 at the sample sheet. *)
Lemma no_value_is_empty_witness :
  (forall k vals, In (k, vals) (prefectures (read_sheet sample_sheet)) ->
                  Forall (fun x => x <> "") vals) /\
  (forall t, total (read_sheet sample_sheet) = Some t -> Forall (fun x => x <> "") t).
Proof.
  apply (no_value_is_empty sample_sheet).
  intros r c. unfold sample_sheet. cbn [cell].
  destruct r as [|[|[|[|r]]]]; try reflexivity;
    destruct c as [|[|[|[|[|c]]]]]; reflexivity.
Defined.

(** ** When the document is built *)

Lemma enumerate_member {A : Type} (l : list A) (i : nat) (x : A) :
  In (i, x) (enumerate l) -> In x l.
Proof. unfold enumerate. apply in_combine_r. Qed.

Lemma panels_succeed (l : list (nat * (string * sheet_data))) :
  forall html,
    (forall i name d, In (i, (name, d)) l -> years d <> []) ->
    exists html', panels l html = inr html'.
Proof.
  induction l as [|[i [name d]] l IH]; intros html H.
  - now exists html.
  - cbn [panels]. unfold panel.
    destruct (years d) as [|y ys] eqn:Hy.
    + now elim (H i name d (or_introl eq_refl)).
    + apply IH. intros j n d' Hin. apply (H j n d'). now right.
Qed.

Lemma document_succeeds
    (tpl : template) (data : list (string * sheet_data))
    (page_title page_subtitle : string) :
  (forall name d, In (name, d) data -> years d <> []) ->
  exists html, document tpl data page_title page_subtitle = inr html.
Proof.
  intros H. unfold document.
  destruct (panels_succeed (enumerate data)
              (tpl_head tpl page_title page_subtitle ++
               String.concat ""
                 (map (fun it => tab_button (fst it) (snd it))
                      (enumerate (map fst data))) ++
               sp 8 ++ "</div>" ++ nl ++ nl)) as [html' Hp].
  - intros i name d Hin. apply (H name d). exact (enumerate_member _ _ _ Hin).
  - rewrite Hp. now eexists.
Qed.

Lemma document_fails
    (tpl : template) (data : list (string * sheet_data))
    (page_title page_subtitle name : string) (d : sheet_data) :
  In (name, d) data -> years d = [] ->
  document tpl data page_title page_subtitle = inl IndexError.
Proof.
  intros Hin Hy. destruct (enumerate_in data (name, d) Hin) as [i Hi].
  unfold document. now rewrite panels_empty_years by (now exists i, name, d).
Qed.

(** X8.  The document is built exactly when every sheet has at least one
    period. *)
Theorem document_built_iff_periods
    (tpl : template) (data : list (string * sheet_data))
    (page_title page_subtitle : string) :
  (exists html, document tpl data page_title page_subtitle = inr html) <->
  (forall name d, In (name, d) data -> years d <> []).
Proof.
  split.
  - intros [html Hdoc] name d Hin Hy.
    rewrite (document_fails tpl data page_title page_subtitle name d Hin Hy) in Hdoc.
    discriminate.
  - apply document_succeeds.
Qed.

(** ** The runs of main *)

Lemma main_run (tpl : template) (w : world) (argv : list string) :
  (3 <= List.length argv)%nat ->
  main tpl w argv
  = let src := nth 1 argv "" in
    let dst := nth 2 argv "" in
    if negb (path_exists w src) then
      ([PathExists src;
        Print ("❌ エラー: ファイルが見つかりません: " ++ src);
        Print ("   Error: File not found: " ++ src)], inl (Exit 1))
    else
      match load_workbook w src with
      | inl e =>
          ([PathExists src;
            Print ("📖 エクセルファイルを読み込んでいます: " ++ src);
            Print ("   Reading Excel file: " ++ src);
            LoadWorkbook src], inl (Uncaught e))
      | inr wb =>
          let data := read_excel_data wb in
          match document tpl data (fst (titles dst)) (snd (titles dst)) with
          | inl e => (progress src data, inl (Uncaught e))
          | inr html =>
              if writable w dst then
                ((progress src data ++
                  OpenForWriting dst :: FileWritten dst html :: completion dst)%list,
                 inr tt)
              else
                ((progress src data ++ [OpenForWriting dst])%list,
                 inl (Uncaught OSError))
          end
      end.
Proof.
  intros Hlen. unfold main.
  replace (List.length argv <? 3)%nat with false by (symmetry; apply Nat.ltb_ge; lia).
  cbv zeta. destruct (titles (nth 2 argv "")) as [page_title page_subtitle].
  cbn [fst snd]. unfold exists_path.
  destruct (path_exists w (nth 1 argv "")); cbn [negb bind print sys_exit app];
    [|reflexivity].
  unfold load. destruct (load_workbook w (nth 1 argv "")) as [e|wb];
    cbn [bind print app]; [reflexivity|].
  rewrite print_all_trace. unfold generate_html, progress.
  destruct (document tpl (read_excel_data wb) page_title page_subtitle) as [e|html].
  - cbn [bind print raise app]. rewrite map_map. reflexivity.
  - unfold write_text. destruct (writable w (nth 2 argv ""));
      cbn [bind print app]; rewrite map_map; unfold completion;
      repeat (rewrite <- app_assoc; cbn [app]); reflexivity.
Qed.

(** ** A source path that does not exist *)



(** ** A sheet without periods *)





(** ** What a run touches, and how it ends *)

Lemma progress_confined (src dst : string) (data : list (string * sheet_data)) :
  forallb (confined src dst) (progress src data) = true.
Proof.
  unfold progress. cbn [app forallb confined]. rewrite String.eqb_refl.
  cbn [andb]. rewrite forallb_app. cbn [forallb confined andb].
  rewrite andb_true_r.
  induction data as [|sheet rest IH]; [reflexivity | exact IH].
Qed.

Lemma progress_writes_nothing (src : string) (data : list (string * sheet_data)) :
  filter is_file_written (progress src data) = [].
Proof.
  unfold progress. cbn [app filter is_file_written]. rewrite filter_app.
  cbn [filter is_file_written]. rewrite app_nil_r.
  induction data as [|sheet rest IH]; [reflexivity | exact IH].
Qed.

Lemma usage_trace (tpl : template) (w : world) (argv : list string) :
  (List.length argv < 3)%nat -> main tpl w argv = (map Print usage, inl (Exit 1)).
Proof.
  intros Hlen. unfold main. apply Nat.ltb_lt in Hlen. rewrite Hlen.
  now rewrite print_all_trace.
Qed.

Lemma main_confined (tpl : template) (w : world) (argv : list string) :
  forallb (confined (nth 1 argv "") (nth 2 argv "")) (fst (main tpl w argv)) = true /\
  (exit_status (main tpl w argv) = 0 \/ exit_status (main tpl w argv) = 1).
Proof.
  destruct (Nat.lt_ge_cases (List.length argv) 3) as [Hlt|Hge].
  - rewrite (usage_trace tpl w argv Hlt). split; [reflexivity | now right].
  - rewrite (main_run tpl w argv Hge). cbv zeta.
    destruct (path_exists w (nth 1 argv "")); cbn [negb].
    + destruct (load_workbook w (nth 1 argv "")) as [e|wb].
      * cbn [fst forallb confined]. rewrite String.eqb_refl. split; [reflexivity | now right].
      * destruct (document tpl (read_excel_data wb) _ _) as [e|html].
        -- cbn [fst]. rewrite progress_confined. split; [reflexivity | now right].
        -- destruct (writable w (nth 2 argv "")); cbn [fst];
             rewrite forallb_app, progress_confined; cbn [forallb confined completion];
             rewrite String.eqb_refl; split; try reflexivity; [now left | now right].
    + cbn [fst forallb confined]. rewrite String.eqb_refl. split; [reflexivity | now right].
Qed.

Lemma main_written (tpl : template) (w : world) (argv : list string) :
  (exit_status (main tpl w argv) = 0 ->
   exists html,
     filter is_file_written (fst (main tpl w argv))
     = [FileWritten (nth 2 argv "") html]) /\
  (exit_status (main tpl w argv) <> 0 ->
   filter is_file_written (fst (main tpl w argv)) = []).
Proof.
  destruct (Nat.lt_ge_cases (List.length argv) 3) as [Hlt|Hge].
  - rewrite (usage_trace tpl w argv Hlt). split; [discriminate | reflexivity].
  - rewrite (main_run tpl w argv Hge). cbv zeta.
    destruct (path_exists w (nth 1 argv "")); cbn [negb].
    + destruct (load_workbook w (nth 1 argv "")) as [e|wb].
      * split; [discriminate | reflexivity].
      * destruct (document tpl (read_excel_data wb) _ _) as [e|html].
        -- cbn [fst]. rewrite progress_writes_nothing. split; [discriminate | reflexivity].
        -- destruct (writable w (nth 2 argv "")); cbn [fst];
             rewrite filter_app, progress_writes_nothing; cbn [app filter is_file_written completion].
           ++ split; [intros _; now exists html | intros H; now elim H].
           ++ split; [discriminate | reflexivity].
    + split; [discriminate | reflexivity].
Qed.

(** ** The date of the information block *)

Lemma replace_passes_digits (o : ascii) (old' new : string) (ds : list ascii) (t : string) :
  is_digit o = false -> digits_only ds ->
  replace (String o old') new (string_of_list_ascii ds ++ t)
  = string_of_list_ascii ds ++ replace (String o old') new t.
Proof.
  intros Ho Hd. unfold replace. induction Hd as [|c ds Hc _ IH]; [reflexivity|].
  cbn [string_of_list_ascii append replace_from String.prefix].
  destruct (ascii_dec o c) as [->|_]; [congruence|].
  now rewrite IH.
Qed.

Lemma replace_passes_year (o : ascii) (old' new : string) (y : Z) (t : string) :
  is_digit o = false -> 0 <= y ->
  replace (String o old') new (str_nat y ++ t)
  = str_nat y ++ replace (String o old') new t.
Proof.
  intros Ho Hy. rewrite <- (string_of_list_ascii_of_string (str_nat y)).
  apply replace_passes_digits; [exact Ho | now apply str_nat_digits].
Qed.

Lemma tails_unpadded :
  forallb (fun m => forallb (tail_unpadded (Z.of_nat m)) (map Z.of_nat (seq 1 31)))
          (seq 1 12) = true.
Proof. vm_compute. reflexivity. Qed.

Lemma tail_unpadded_in_range (m d : Z) :
  1 <= m <= 12 -> 1 <= d <= 31 -> tail_unpadded m d = true.
Proof.
  intros Hm Hd. pose proof tails_unpadded as H.
  rewrite forallb_forall in H.
  specialize (H (Z.to_nat m)). rewrite Z2Nat.id in H by lia.
  assert (Hin : In (Z.to_nat m) (seq 1 12)) by (apply in_seq; lia).
  specialize (H Hin). rewrite forallb_forall in H. apply H.
  replace d with (Z.of_nat (Z.to_nat d)) by lia.
  apply in_map, in_seq. lia.
Qed.

Lemma fallback_unpadded (dt : datetime) :
  valid_date dt = true ->
  replace "月0" "月" (replace "年0" "年" (strftime_padded dt)) = strftime_plain dt.
Proof.
  unfold valid_date. intros Hv.
  repeat (apply andb_true_iff in Hv; destruct Hv as [Hv ?]).
  repeat match goal with
         | H : (_ <=? _) = true |- _ => apply Z.leb_le in H
         end.
  pose proof (tail_unpadded_in_range (dt_month dt) (dt_day dt)
                ltac:(lia) ltac:(lia)) as Ht.
  unfold tail_unpadded in Ht. apply String.eqb_eq in Ht.
  unfold strftime_padded, strftime_plain.
  change ("年" ++ two_digits (dt_month dt) ++ "月" ++ two_digits (dt_day dt) ++ "日")
    with (padded_tail (dt_month dt) (dt_day dt)).
  rewrite (replace_passes_year _ _ _ (dt_year dt)) by (reflexivity || lia).
  rewrite (replace_passes_year _ _ _ (dt_year dt)) by (reflexivity || lia).
  now rewrite Ht.
Qed.

(** X15.  For every date of four-digit year, format_japanese_date gives
    the year, the month and the day without padding, on either platform
    and whether or not strftime takes the flag: the two replacements of
    the fallback remove exactly the padding zeros. *)
Theorem japanese_date_is_unpadded (pf : platform) (now : datetime) (dt : option datetime) :
  valid_date (match dt with Some d => d | None => now end) = true ->
  format_japanese_date pf now dt
  = strftime_plain (match dt with Some d => d | None => now end).
Proof.
  intros Hv. unfold format_japanese_date. cbv zeta.
  destruct (is_windows pf), (takes_flag pf);
    first [reflexivity | now apply fallback_unpadded].
Qed.

(** X15 at 5 January 2025, through the fallback. *)
Lemma japanese_date_is_unpadded_witness :
  format_japanese_date {| is_windows := false; takes_flag := false |}
    {| dt_year := 2025; dt_month := 11; dt_day := 21 |}
    (Some {| dt_year := 2025; dt_month := 1; dt_day := 5 |})
  = strftime_plain {| dt_year := 2025; dt_month := 1; dt_day := 5 |}.
Proof.
  apply (japanese_date_is_unpadded {| is_windows := false; takes_flag := false |}
           {| dt_year := 2025; dt_month := 11; dt_day := 21 |}
           (Some {| dt_year := 2025; dt_month := 1; dt_day := 5 |})).
  reflexivity.
Defined.

(** ** Digits in groups of three *)

Lemma round_half_even_tie (a b : Z) :
  0 < b -> Z.abs (2 * a - 2 * round_half_even a b * b) = b ->
  Z.even (round_half_even a b) = true.
Proof.
  intros Hb. unfold round_half_even.
  pose proof (Z.div_mod a b ltac:(lia)) as Hdm.
  pose proof (Z.mod_pos_bound a b Hb) as Hr.
  set (q := a / b) in *. set (r := a mod b) in *.
  destruct (2 * r <? b) eqn:E1; [apply Z.ltb_lt in E1; nia|].
  apply Z.ltb_ge in E1.
  destruct (b <? 2 * r) eqn:E2; [apply Z.ltb_lt in E2; nia|].
  apply Z.ltb_ge in E2.
  destruct (Z.even q) eqn:E; intros _; [exact E|].
  rewrite Z.even_add, E. reflexivity.
Qed.

Lemma group3_rev_grouped (n : nat) :
  forall l, (List.length l <= n)%nat -> digits_only l ->
            grouped_from 0 (group3_rev l) = true.
Proof.
  induction n as [|n IH]; intros l Hl Hd.
  - destruct l; [reflexivity | simpl in Hl; lia].
  - destruct l as [|a [|b [|c [|d l]]]].
    + reflexivity.
    + inversion Hd as [|? ? Ha _]; subst. cbn. now rewrite Ha.
    + inversion Hd as [|? ? Ha Hd1]; subst. inversion Hd1 as [|? ? Hb _]; subst.
      cbn. now rewrite Ha, Hb.
    + inversion Hd as [|? ? Ha Hd1]; subst. inversion Hd1 as [|? ? Hb Hd2]; subst.
      inversion Hd2 as [|? ? Hc _]; subst. cbn. now rewrite Ha, Hb, Hc.
    + inversion Hd as [|? ? Ha Hd1]; subst. inversion Hd1 as [|? ? Hb Hd2]; subst.
      inversion Hd2 as [|? ? Hc Hd3]; subst.
      rewrite group3_rev_step. cbn [grouped_from]. rewrite Ha, Hb, Hc.
      cbn [andb Ascii.eqb Bool.eqb]. apply IH; [simpl in *; lia | exact Hd3].
Qed.

Lemma group3_rev_last (n : nat) :
  forall l x, (List.length l <= n)%nat -> l <> [] ->
              last (group3_rev l) x = last l x.
Proof.
  induction n as [|n IH]; intros l x Hl Hne.
  - destruct l; [now elim Hne | simpl in Hl; lia].
  - destruct l as [|a [|b [|c [|d l]]]]; try reflexivity.
    rewrite group3_rev_step.
    change (last (a :: b :: c :: ","%char :: group3_rev (d :: l)) x)
      with (last (","%char :: group3_rev (d :: l)) x).
    change (last (a :: b :: c :: d :: l) x) with (last (d :: l) x).
    rewrite <- (IH (d :: l) x) by (simpl in *; lia || discriminate).
    destruct (group3_rev (d :: l)) eqn:E; [|reflexivity].
    destruct l as [|e [|f [|g l]]]; discriminate E.
Qed.

Lemma group3_rev_nonempty (l : list ascii) : l <> [] -> group3_rev l <> [].
Proof. destruct l as [|a [|b [|c [|d l]]]]; intros H; [now elim H | discriminate..]. Qed.

Lemma rev_head_last {A : Type} (l : list A) (x : A) :
  l <> [] -> exists r, rev l = last l x :: r.
Proof.
  intros Hne. destruct (exists_last Hne) as (l' & a & ->).
  rewrite rev_app_distr, last_last. now exists (rev l').
Qed.

(** The digits of a number, grouped. *)
Lemma group3_grouped (s : string) :
  digits_only (list_ascii_of_string s) -> s <> "" ->
  grouped (group3 s) = true.
Proof.
  intros Hd Hne. unfold grouped, group3.
  rewrite list_ascii_of_string_of_list_ascii, rev_involutive.
  set (l := rev (list_ascii_of_string s)).
  assert (Hl : digits_only l) by (apply Forall_rev; exact Hd).
  assert (Hlne : l <> []).
  { unfold l. destruct s as [|c s]; [now elim Hne|]. cbn [list_ascii_of_string rev].
    intros E. now apply app_eq_nil in E as [_ E]. }
  rewrite (group3_rev_grouped _ l (le_n _) Hl), andb_true_r.
  destruct (rev_head_last (group3_rev l) "0"%char (group3_rev_nonempty l Hlne)) as [r ->].
  rewrite (group3_rev_last _ l "0"%char (le_n _) Hlne).
  destruct (exists_last Hlne) as (l' & a & E). rewrite E, last_last.
  unfold digits_only in Hl. rewrite E in Hl. apply Forall_app in Hl.
  destruct Hl as [_ Hl]. now inversion Hl.
Qed.

(** The text of a whole number. *)
Lemma whole_text (z : Z) :
  exists g,
    grouped g = true /\
    remove_commas g = str_nat (Z.abs z) /\
    read_digits (list_ascii_of_string (remove_commas g)) 0 = Z.abs z /\
    format_int_comma z = sign_str (z <? 0) ++ g.
Proof.
  exists (group3 (str_nat (Z.abs z))).
  pose proof (str_nat_digits (Z.abs z) (Z.abs_nonneg z)) as Hd.
  split; [apply group3_grouped; [exact Hd | apply str_nat_not_empty]|].
  rewrite (ungroup3 _ Hd). split; [reflexivity|].
  split; [apply read_str_nat, Z.abs_nonneg | reflexivity].
Qed.

(** The text of a number with one decimal place. *)
Lemma fractional_text (neg : bool) (n : Z) :
  0 <= n ->
  exists q g d,
    0 <= q /\
    Z.abs (2 * (10 * n) - 2 * q * scale) <= scale /\
    (Z.abs (2 * (10 * n) - 2 * q * scale) = scale -> Z.even q = true) /\
    grouped g = true /\
    remove_commas g = str_nat (q / 10) /\
    read_digits (list_ascii_of_string (remove_commas g)) 0 = q / 10 /\
    is_digit d = true /\ digit_val d = q mod 10 /\
    format_float_comma_1f (Finite neg n) = sign_str neg ++ g ++ "." ++ String d "".
Proof.
  intros Hn. set (q := tenths n).
  assert (Hq : 0 <= q) by (apply round_half_even_nonneg; [lia | exact scale_pos]).
  pose proof (Z.mod_pos_bound q 10 ltac:(lia)) as Hm.
  assert (Hq10 : 0 <= q / 10) by (apply Z.div_pos; lia).
  pose proof (str_nat_digits (q / 10) Hq10) as Hd.
  exists q, (group3 (str_nat (q / 10))), (digit_char (q mod 10)).
  split; [exact Hq|]. split; [apply tenths_near|].
  split; [apply round_half_even_tie, scale_pos|].
  split; [apply group3_grouped; [exact Hd | apply str_nat_not_empty]|].
  rewrite (ungroup3 _ Hd). split; [reflexivity|].
  split; [now apply read_str_nat|].
  split; [now apply digit_char_is_digit|].
  split; [now apply digit_char_val|].
  cbn [format_float_comma_1f]. fold q.
  now rewrite (str_nat_small (q mod 10)) by exact Hm.
Qed.

(** C6, as amended.  When the conversion to a float gives a finite number
    that is not whole, format_number returns the sign, the integer part
    in groups of three, a point and exactly one digit, of the number [q]
    of tenths nearest to the converted value, the even one when two are
    equally near. *)
Theorem format_number_fractional (v : pyval) (neg : bool) (n : Z) :
  to_float v = Some (Finite neg n) ->
  is_integer (Finite neg n) = false ->
  exists q g d,
    0 <= q /\
    Z.abs (2 * (10 * n) - 2 * q * scale) <= scale /\
    (Z.abs (2 * (10 * n) - 2 * q * scale) = scale -> Z.even q = true) /\
    grouped g = true /\
    remove_commas g = str_nat (q / 10) /\
    read_digits (list_ascii_of_string (remove_commas g)) 0 = q / 10 /\
    is_digit d = true /\ digit_val d = q mod 10 /\
    format_number v = sign_str neg ++ g ++ "." ++ String d "".
Proof.
  intros Hf Hi.
  assert (Hn : 0 <= n) by (unfold to_float in Hf; exact (py_float_nonneg _ _ _ Hf)).
  rewrite (format_number_numeric v _ Hf), Hi.
  exact (fractional_text neg n Hn).
Qed.

(** C6, as amended, at the text 1234.56, which is printed as 1,234.6. *)
Lemma format_number_fractional_witness :
  (exists q g d,
      0 <= q /\
      Z.abs (2 * (10 * mag_1234_56) - 2 * q * scale) <= scale /\
      (Z.abs (2 * (10 * mag_1234_56) - 2 * q * scale) = scale -> Z.even q = true) /\
      grouped g = true /\
      remove_commas g = str_nat (q / 10) /\
      read_digits (list_ascii_of_string (remove_commas g)) 0 = q / 10 /\
      is_digit d = true /\ digit_val d = q mod 10 /\
      format_number (PStr "1234.56") = sign_str false ++ g ++ "." ++ String d "") /\
  format_number (PStr "1234.56") = "1,234.6" /\
  grouped "1,234" = true /\ grouped "1234" = false /\ grouped "12,34" = false.
Proof.
  split.
  - apply (format_number_fractional (PStr "1234.56") false mag_1234_56).
    + vm_compute. reflexivity.
    + vm_compute. reflexivity.
  - vm_compute. repeat split.
Defined.

(** C6 as stated fails for a text with a fractional part that the
    conversion loses: one half above 2^52 rounds to 2^52, and 1e-400 to
    zero; both are printed without a decimal place. *)
Lemma fraction_lost_in_conversion :
  format_number (PStr "4503599627370496.5") = "4,503,599,627,370,496" /\
  format_number (PStr "1e-400") = "0" /\
  contains "." (format_number (PStr "4503599627370496.5")) = false.
Proof. vm_compute. repeat split. Qed.

(** ** What a float cell is printed as *)

(** X2.  A float cell is never passed through as text.  A whole value is
    printed as its integer part in groups of three, with its sign when it
    is not zero; any other finite value as in C6; the infinities and NaN
    as inf, -inf and nan. *)
Theorem format_number_float_cell (f : float) :
  binary64 f = true ->
  match f with
  | Finite neg n =>
      if n mod scale =? 0 then
        exists g,
          grouped g = true /\
          remove_commas g = str_nat (n / scale) /\
          read_digits (list_ascii_of_string (remove_commas g)) 0 = n / scale /\
          format_number (PFloat f) = sign_str (neg && (0 <? n)) ++ g
      else
        exists q g d,
          0 <= q /\
          Z.abs (2 * (10 * n) - 2 * q * scale) <= scale /\
          (Z.abs (2 * (10 * n) - 2 * q * scale) = scale -> Z.even q = true) /\
          grouped g = true /\
          remove_commas g = str_nat (q / 10) /\
          read_digits (list_ascii_of_string (remove_commas g)) 0 = q / 10 /\
          is_digit d = true /\ digit_val d = q mod 10 /\
          format_number (PFloat f) = sign_str neg ++ g ++ "." ++ String d ""
  | Inf neg => format_number (PFloat f) = if neg then "-inf" else "inf"
  | NaN => format_number (PFloat f) = "nan"
  end.
Proof.
  intros Hv. rewrite (format_number_numeric _ _ (repr_reads_back f Hv)).
  destruct f as [neg n | neg |]; [| reflexivity | reflexivity].
  assert (Hn : 0 <= n).
  { unfold binary64 in Hv. apply andb_true_iff in Hv. destruct Hv as [Hv _].
    apply andb_true_iff in Hv. destruct Hv as [Hn0 _]. now apply Z.leb_le in Hn0. }
  cbn [is_integer int_of_float].
  destruct (n mod scale =? 0) eqn:E; [|exact (fractional_text neg n Hn)].
  pose proof scale_pos as Hs.
  assert (Hd : 0 <= n / scale) by (apply Z.div_pos; lia).
  apply Z.eqb_eq in E.
  destruct (whole_text (if neg then - (n / scale) else n / scale))
    as (g & Hg & Hrc & Hrd & Hfmt).
  assert (Habs : Z.abs (if neg then - (n / scale) else n / scale) = n / scale)
    by (destruct neg; lia).
  rewrite Habs in Hrc, Hrd.
  exists g. repeat split; try assumption.
  rewrite Hfmt. f_equal.
  assert (Hpos : (0 <? n) = (0 <? n / scale)).
  { pose proof (Z.div_mod n scale ltac:(lia)) as Hdm. rewrite E in Hdm.
    destruct (0 <? n) eqn:E1; destruct (0 <? n / scale) eqn:E2; try reflexivity.
    - apply Z.ltb_lt in E1. apply Z.ltb_ge in E2. nia.
    - apply Z.ltb_ge in E1. apply Z.ltb_lt in E2. nia. }
  rewrite Hpos. destruct neg; cbn [andb].
  - destruct (0 <? n / scale) eqn:E2.
    + apply Z.ltb_lt in E2. replace (- (n / scale) <? 0) with true; [reflexivity|].
      symmetry. apply Z.ltb_lt. lia.
    + apply Z.ltb_ge in E2. replace (- (n / scale) <? 0) with false; [reflexivity|].
      symmetry. apply Z.ltb_ge. lia.
  - replace (n / scale <? 0) with false; [reflexivity|].
    symmetry. apply Z.ltb_ge. lia.
Qed.

(** X2 at the float nearest to 1234.56 and at the float -1234567.0. *)
Lemma format_number_float_cell_witness :
  (exists q g d,
      0 <= q /\
      Z.abs (2 * (10 * mag_1234_56) - 2 * q * scale) <= scale /\
      (Z.abs (2 * (10 * mag_1234_56) - 2 * q * scale) = scale -> Z.even q = true) /\
      grouped g = true /\
      remove_commas g = str_nat (q / 10) /\
      read_digits (list_ascii_of_string (remove_commas g)) 0 = q / 10 /\
      is_digit d = true /\ digit_val d = q mod 10 /\
      format_number (PFloat (Finite false mag_1234_56))
      = sign_str false ++ g ++ "." ++ String d "") /\
  format_number (PFloat (Finite false mag_1234_56)) = "1,234.6" /\
  format_number (PFloat (Finite true (1234567 * scale))) = "-1,234,567" /\
  format_number (PFloat (Finite true 0)) = "0".
Proof.
  split.
  - pose proof (format_number_float_cell (Finite false mag_1234_56)) as H.
    cbv beta iota in H.
    replace (mag_1234_56 mod scale =? 0) with false in H by (vm_compute; reflexivity).
    apply H. vm_compute. reflexivity.
  - vm_compute. repeat split.
Defined.

(** ** Substrings *)

Lemma prefix_split (p s : string) :
  String.prefix p s = true -> exists t, s = p ++ t.
Proof.
  revert s. induction p as [|a p IH]; intros s H.
  - now exists s.
  - destruct s as [|b s]; [discriminate|]. cbn [String.prefix] in H.
    destruct (ascii_dec a b) as [->|N]; [|discriminate].
    destruct (IH s H) as [t ->]. now exists t.
Qed.

Lemma contains_split (needle hay : string) :
  contains needle hay = true -> exists before after, hay = before ++ needle ++ after.
Proof.
  induction hay as [|c hay IH]; cbn [contains]; intros H.
  - rewrite orb_false_r in H. destruct (prefix_split _ _ H) as [t Ht].
    exists "", t. exact Ht.
  - apply orb_true_iff in H. destruct H as [H|H].
    + destruct (prefix_split _ _ H) as [t Ht]. exists "", t. exact Ht.
    + destruct (IH H) as (b & a & ->). now exists (String c b), a.
Qed.

Lemma contains_app (before needle after : string) :
  contains needle (before ++ needle ++ after) = true.
Proof.
  induction before as [|c before IH].
  - cbn [append]. destruct (needle ++ after) eqn:E.
    + cbn [contains]. rewrite orb_false_r. rewrite <- E. apply prefix_app.
    + cbn [contains]. rewrite <- E. now rewrite prefix_app.
  - cbn [append contains]. rewrite IH. apply orb_true_r.
Qed.

(** The test of the loader is the containment of a marker. *)
Lemma is_total_label_marker (v : pyval) :
  is_total_label v = true <-> has_marker (py_str v).
Proof.
  unfold is_total_label, has_marker. split.
  - intros H. apply orb_true_iff in H. destruct H as [H|H];
      destruct (contains_split _ _ H) as (b & a & E); exists b, a; [now left | now right].
  - intros (b & a & [E|E]); rewrite E, contains_app; [reflexivity | apply orb_true_r].
Qed.

Lemma no_marker_label (v : pyval) :
  is_total_label v = false <-> ~ has_marker (py_str v).
Proof.
  rewrite <- is_total_label_marker. destruct (is_total_label v); split; intros H;
    try reflexivity; try discriminate; try (intros E; discriminate E).
  now elim H.
Qed.

(** ** The last row with a marker *)

Lemma filter_last_of {A : Type} (f : A -> bool) (l1 l2 : list A) (x d : A) :
  f x = true -> (forall y, In y l2 -> f y = false) ->
  filter f (l1 ++ x :: l2) <> [] /\ last (filter f (l1 ++ x :: l2)) d = x.
Proof.
  intros Hx Hl2.
  assert (E : filter f l2 = []).
  { induction l2 as [|y l2 IH]; [reflexivity|]. cbn [filter].
    rewrite (Hl2 y (or_introl eq_refl)). apply IH. intros z Hz. apply Hl2. now right. }
  rewrite filter_app. cbn [filter]. rewrite Hx, E.
  split; [intros H; now apply app_eq_nil in H as [_ H] | apply last_last].
Qed.

Lemma seq_split_at (a n x : nat) :
  In x (seq a n) ->
  exists l1 l2, seq a n = (l1 ++ x :: l2)%list /\ forall y, In y l2 -> (x < y)%nat /\ In y (seq a n).
Proof.
  revert a. induction n as [|n IH]; intros a H; [destruct H|].
  cbn [seq] in H. destruct H as [->|H].
  - exists [], (seq (S x) n). split; [reflexivity|].
    intros y Hy. split; [apply in_seq in Hy; lia | now right].
  - destruct (IH (S a) H) as (l1 & l2 & E & Hl2).
    exists (a :: l1), l2. cbn [seq]. rewrite E. split; [reflexivity|].
    intros y Hy. destruct (Hl2 y Hy) as [H1 H2]. split; [exact H1|].
    right. now rewrite <- E.
Qed.

Lemma filter_both {A : Type} (f g : A -> bool) (l : list A) :
  filter g (filter f l) = filter (fun x => f x && g x) l.
Proof.
  induction l as [|x l IH]; [reflexivity|]. cbn [filter].
  destruct (f x); cbn [andb filter]; [|exact IH].
  destruct (g x); now rewrite IH.
Qed.

Lemma filter_none {A : Type} (f : A -> bool) (l : list A) :
  (forall x, In x l -> f x = false) -> filter f l = [].
Proof.
  induction l as [|x l IH]; intros H; [reflexivity|]. cbn [filter].
  rewrite (H x (or_introl eq_refl)). apply IH. intros y Hy. apply H. now right.
Qed.

Lemma sheet_total (ws : worksheet) :
  total (read_sheet ws)
  = match filter (marked ws) (filter (extracted ws) (range_from_2 (max_row ws))) with
    | [] => None
    | _ :: _ =>
        Some (row_data ws
                (last (filter (marked ws)
                         (filter (extracted ws) (range_from_2 (max_row ws)))) 0%nat))
    end.
Proof.
  unfold read_sheet. cbn [total]. rewrite rows_loop_split. cbn [snd].
  apply last_marked_fold.
Qed.

Lemma sheet_prefectures (ws : worksheet) :
  prefectures (read_sheet ws)
  = fold_left (fun d r => dict_set key_eqb d (cell ws r 1) (row_data ws r))
              (filter (fun r => negb (marked ws r))
                      (filter (extracted ws) (range_from_2 (max_row ws)))) [].
Proof. unfold read_sheet. cbn [prefectures]. now rewrite rows_loop_split. Qed.

(** The row that gives the aggregate row. *)
Lemma last_marker_row (ws : worksheet) (row : nat) :
  In row (range_from_2 (max_row ws)) ->
  extracted ws row = true ->
  has_marker (py_str (cell ws row 1)) ->
  (forall later, In later (range_from_2 (max_row ws)) -> (row < later)%nat ->
                 extracted ws later = true ->
                 ~ has_marker (py_str (cell ws later 1))) ->
  total (read_sheet ws) = Some (row_data ws row).
Proof.
  intros Hin He Hm Hlater. rewrite sheet_total, filter_both.
  unfold range_from_2 in *.
  destruct (seq_split_at _ _ _ Hin) as (l1 & l2 & E & Hl2). rewrite E.
  assert (Hrow : extracted ws row && marked ws row = true).
  { rewrite He. cbn [andb]. now apply is_total_label_marker. }
  assert (Htail : forall y, In y l2 -> extracted ws y && marked ws y = false).
  { intros y Hy. destruct (Hl2 y Hy) as [Hlt Hiny].
    destruct (extracted ws y) eqn:Ey; [|reflexivity]. cbn [andb].
    apply no_marker_label. now apply Hlater. }
  destruct (filter_last_of (fun x => extracted ws x && marked ws x) l1 l2 row 0%nat
              Hrow Htail) as [Hne Hlast].
  destruct (filter _ (l1 ++ row :: l2)) as [|x l] eqn:F; [now elim Hne|].
  now rewrite Hlast.
Qed.

Lemma no_marker_row (ws : worksheet) :
  (forall row, In row (range_from_2 (max_row ws)) -> extracted ws row = true ->
               ~ has_marker (py_str (cell ws row 1))) ->
  total (read_sheet ws) = None.
Proof.
  intros H. rewrite sheet_total, filter_both, filter_none; [reflexivity|].
  intros x Hx. destruct (extracted ws x) eqn:Ex; [|reflexivity]. cbn [andb].
  apply no_marker_label. now apply H.
Qed.

(** The aggregate row of a sheet comes from a row with a marker. *)
Lemma total_from_marker_row (ws : worksheet) (t : list string) :
  total (read_sheet ws) = Some t ->
  exists row,
    In row (range_from_2 (max_row ws)) /\ extracted ws row = true /\
    has_marker (py_str (cell ws row 1)) /\ row_data ws row = t.
Proof.
  rewrite sheet_total, filter_both.
  set (f := fun x => extracted ws x && marked ws x).
  destruct (filter f (range_from_2 (max_row ws))) as [|x l] eqn:F; [discriminate|].
  intros H.
  assert (Hin : In (last (x :: l) 0%nat) (filter f (range_from_2 (max_row ws)))).
  { rewrite F. destruct (@exists_last _ (x :: l) ltac:(discriminate)) as (l' & a & E).
    rewrite E, last_last. apply in_or_app. right. now left. }
  apply filter_In in Hin. destruct Hin as [Hin Hf]. unfold f in Hf.
  apply andb_true_iff in Hf. destruct Hf as [He Hm].
  exists (last (x :: l) 0%nat). repeat split; try assumption.
  - now apply is_total_label_marker.
  - congruence.
Qed.

(** ** The rows of the mapping *)

Lemma dict_set_has {K V : Type} (eqb : K -> K -> bool) (d : list (K * V)) (k : K) (v : V) :
  exists k', In (k', v) (dict_set eqb d k v) /\ (k' = k \/ eqb k' k = true).
Proof.
  induction d as [|[k0 v0] d (k' & Hin & Hk)]; cbn [dict_set].
  - exists k. split; [now left | now left].
  - destruct (eqb k0 k) eqn:E.
    + exists k0. split; [now left | now right].
    + exists k'. split; [now right | exact Hk].
Qed.

Lemma dict_set_persists {K V : Type} (eqb : K -> K -> bool) (d : list (K * V))
    (k : K) (v : V) (k0 : K) (v0 : V) :
  In (k0, v0) d -> exists v', In (k0, v') (dict_set eqb d k v).
Proof.
  induction d as [|[k1 v1] d IH]; [intros []|]. intros [H|H]; cbn [dict_set].
  - inversion H; subst. destruct (eqb k0 k); eexists; now left.
  - destruct (eqb k1 k).
    + exists v0. now right.
    + destruct (IH H) as [v' Hv']. exists v'. now right.
Qed.

Lemma rows_persist (ws : worksheet) (rows : list nat) :
  forall d k0 v0,
    In (k0, v0) d ->
    exists v', In (k0, v')
                  (fold_left (fun d r => dict_set key_eqb d (cell ws r 1) (row_data ws r))
                             rows d).
Proof.
  induction rows as [|r rows IH]; intros d k0 v0 H; [now exists v0|].
  cbn [fold_left].
  destruct (dict_set_persists key_eqb d (cell ws r 1) (row_data ws r) k0 v0 H) as [v' Hv'].
  exact (IH _ _ _ Hv').
Qed.

Lemma rows_are_keys (ws : worksheet) (rows : list nat) :
  forall d row,
    In row rows ->
    exists k vals,
      In (k, vals)
         (fold_left (fun d r => dict_set key_eqb d (cell ws r 1) (row_data ws r)) rows d) /\
      (k = cell ws row 1 \/ key_eqb k (cell ws row 1) = true).
Proof.
  induction rows as [|r rows IH]; intros d row H; [destruct H|].
  cbn [fold_left]. destruct H as [->|H].
  - destruct (dict_set_has key_eqb d (cell ws row 1) (row_data ws row)) as (k' & Hin & Hk).
    destruct (rows_persist ws rows _ _ _ Hin) as [v' Hv'].
    now exists k', v'.
  - now apply IH.
Qed.

(** C5.  Among the extracted body rows, the last one whose label holds a
    marker gives the aggregate row of the sheet, and there is none when
    no label holds a marker; no key of the mapping holds a marker, and
    every extracted row without a marker has its label among the keys. *)
Theorem aggregate_row_detection (ws : worksheet) :
  (forall row,
      In row (range_from_2 (max_row ws)) -> extracted ws row = true ->
      has_marker (py_str (cell ws row 1)) ->
      (forall later, In later (range_from_2 (max_row ws)) -> (row < later)%nat ->
                     extracted ws later = true ->
                     ~ has_marker (py_str (cell ws later 1))) ->
      total (read_sheet ws) = Some (row_data ws row)) /\
  ((forall row, In row (range_from_2 (max_row ws)) -> extracted ws row = true ->
                ~ has_marker (py_str (cell ws row 1))) ->
   total (read_sheet ws) = None) /\
  (forall k vals, In (k, vals) (prefectures (read_sheet ws)) ->
                  ~ has_marker (py_str k)) /\
  (forall row,
      In row (range_from_2 (max_row ws)) -> extracted ws row = true ->
      ~ has_marker (py_str (cell ws row 1)) ->
      exists k vals,
        In (k, vals) (prefectures (read_sheet ws)) /\
        (k = cell ws row 1 \/ key_eqb k (cell ws row 1) = true)).
Proof.
  split; [|split; [|split]].
  - exact (last_marker_row ws).
  - exact (no_marker_row ws).
  - intros k vals Hin. apply no_marker_label.
    rewrite sheet_prefectures in Hin. revert k vals Hin.
    apply unmarked_keys. intros ? ? [].
  - intros row Hin He Hm. rewrite sheet_prefectures. apply rows_are_keys.
    apply filter_In. split; [apply filter_In; now split|].
    apply negb_true_iff. now apply no_marker_label.
Qed.

(** C5 at a sheet with two rows that hold a marker: the later one gives
    the aggregate row, and the region between them is the only entry of
    the mapping. *)
Lemma aggregate_row_detection_witness :
  total (read_sheet two_totals_sheet) = Some ["3"] /\
  prefectures (read_sheet two_totals_sheet) = [(PStr "北海道", ["2"])] /\
  py_str (cell two_totals_sheet 2 1) = "小計 合計" /\
  py_str (cell two_totals_sheet 4 1) = "総計".
Proof.
  destruct (aggregate_row_detection two_totals_sheet) as [Hlast _].
  split; [|vm_compute; repeat split].
  rewrite (Hlast 4%nat).
  - vm_compute. reflexivity.
  - right. right. now left.
  - vm_compute. reflexivity.
  - exists "", "". now left.
  - intros later Hin Hlt. cbn in Hin.
    destruct Hin as [<-|[<-|[<-|[]]]]; lia.
Defined.

(** ** The text of a document *)

Lemma append_empty_r (s : string) : s ++ "" = s.
Proof. induction s as [|c s IH]; [reflexivity|]. cbn. now rewrite IH. Qed.

Lemma concat_cons (x : string) (l : list string) :
  String.concat "" (x :: l) = x ++ String.concat "" l.
Proof. destruct l; cbn [String.concat]; [now rewrite append_empty_r | reflexivity]. Qed.

Lemma concat_app (l1 l2 : list string) :
  String.concat "" (l1 ++ l2) = String.concat "" l1 ++ String.concat "" l2.
Proof.
  induction l1 as [|x l1 IH]; [reflexivity|].
  cbn [app]. now rewrite !concat_cons, IH, append_assoc.
Qed.

Lemma concat_at (ps : list string) (i : nat) (p : string) :
  nth_error ps i = Some p ->
  exists before after, String.concat "" ps = before ++ p ++ after.
Proof.
  intros H. destruct (nth_error_split ps i H) as (l1 & l2 & -> & _).
  exists (String.concat "" l1), (String.concat "" l2).
  now rewrite concat_app, concat_cons.
Qed.

Lemma Forall2_at {A B : Type} (R : A -> B -> Prop) (l1 : list A) (l2 : list B) :
  Forall2 R l1 l2 ->
  forall i x, nth_error l1 i = Some x -> exists y, nth_error l2 i = Some y /\ R x y.
Proof.
  induction 1 as [|a b l1 l2 Hab _ IH]; intros i x Hx.
  - destruct i; discriminate.
  - destruct i as [|i].
    + inversion Hx; subst. now exists b.
    + exact (IH i x Hx).
Qed.

Lemma enumerate_from_at {A : Type} (l : list A) :
  forall start i x,
    nth_error l i = Some x ->
    nth_error (combine (seq start (List.length l)) l) i = Some ((start + i)%nat, x).
Proof.
  induction l as [|a l IH]; intros start i x H; [destruct i; discriminate|].
  destruct i as [|i]; cbn [List.length seq combine nth_error] in *.
  - inversion H; subst. now rewrite Nat.add_0_r.
  - rewrite (IH (S start) i x H). f_equal. f_equal. lia.
Qed.

Lemma enumerate_at {A : Type} (l : list A) (i : nat) (x : A) :
  nth_error l i = Some x -> nth_error (enumerate l) i = Some (i, x).
Proof. intros H. unfold enumerate. now rewrite (enumerate_from_at l 0 i x H). Qed.

Lemma panels_text (l : list (nat * (string * sheet_data))) :
  forall html html',
    panels l html = inr html' ->
    exists ps,
      Forall2 (fun it p => panel (fst it) (fst (snd it)) (snd (snd it)) = inr p) l ps /\
      html' = html ++ String.concat "" ps.
Proof.
  induction l as [|[i [name d]] l IH]; intros html html' H; cbn [panels] in H.
  - exists []. split; [constructor|]. cbn. inversion H. now rewrite append_empty_r.
  - destruct (panel i name d) as [e|p] eqn:Hp; [discriminate|].
    destruct (IH _ _ H) as (ps & Hps & ->).
    exists (p :: ps). split; [now constructor|].
    now rewrite concat_cons, append_assoc.
Qed.

(** A document is the opening text, the tab buttons, the panels and the
    closing script, in this order. *)
Lemma document_text
    (tpl : template) (data : list (string * sheet_data))
    (page_title page_subtitle html : string) :
  document tpl data page_title page_subtitle = inr html ->
  exists ps,
    Forall2 (fun it p => panel (fst it) (fst (snd it)) (snd (snd it)) = inr p)
            (enumerate data) ps /\
    html = tpl_head tpl page_title page_subtitle ++
           String.concat ""
             (map (fun it => tab_button (fst it) (snd it)) (enumerate (map fst data))) ++
           sp 8 ++ "</div>" ++ nl ++ nl ++
           String.concat "" ps ++ tpl_script tpl.
Proof.
  unfold document. intros H.
  destruct (panels (enumerate data) _) as [e|html'] eqn:Hp; [discriminate|].
  destruct (panels_text _ _ _ Hp) as (ps & Hps & ->).
  exists ps. split; [exact Hps|]. inversion H. now rewrite !append_assoc.
Qed.

Lemma document_panel
    (tpl : template) (data : list (string * sheet_data))
    (page_title page_subtitle html : string)
    (i : nat) (name : string) (d : sheet_data) :
  document tpl data page_title page_subtitle = inr html ->
  nth_error data i = Some (name, d) ->
  exists p before after, panel i name d = inr p /\ html = before ++ p ++ after.
Proof.
  intros Hdoc Hi. destruct (document_text _ _ _ _ _ Hdoc) as (ps & Hps & ->).
  destruct (Forall2_at _ _ _ Hps i _ (enumerate_at data i _ Hi)) as (p & Hp & Hpanel).
  cbn [fst snd] in Hpanel.
  destruct (concat_at ps i p Hp) as (b & a & ->).
  exists p,
    (tpl_head tpl page_title page_subtitle ++
     String.concat ""
       (map (fun it => tab_button (fst it) (snd it)) (enumerate (map fst data))) ++
     sp 8 ++ "</div>" ++ nl ++ nl ++ b),
    (a ++ tpl_script tpl).
  split; [exact Hpanel|]. now rewrite !append_assoc.
Qed.

Lemma document_button
    (tpl : template) (data : list (string * sheet_data))
    (page_title page_subtitle html : string)
    (i : nat) (name : string) (d : sheet_data) :
  document tpl data page_title page_subtitle = inr html ->
  nth_error data i = Some (name, d) ->
  exists before after, html = before ++ tab_button i name ++ after.
Proof.
  intros Hdoc Hi. destruct (document_text _ _ _ _ _ Hdoc) as (ps & _ & ->).
  assert (Hn : nth_error (map fst data) i = Some name)
    by (rewrite nth_error_map, Hi; reflexivity).
  apply enumerate_at in Hn.
  apply (map_nth_error (fun it : nat * string => tab_button (fst it) (snd it))) in Hn.
  cbn [fst snd] in Hn.
  destruct (concat_at _ _ _ Hn) as (b & a & ->).
  exists (tpl_head tpl page_title page_subtitle ++ b),
         (a ++ sp 8 ++ "</div>" ++ nl ++ nl ++ String.concat "" ps ++ tpl_script tpl).
  now rewrite !append_assoc.
Qed.

Lemma inr_eq {A B : Type} (x y : B) : @inr A B x = inr y -> x = y.
Proof. congruence. Qed.

(** ** The cells of a panel *)

Lemma year_header_cell (year : string) :
  year_header year = cell_of "th" (contains "計" year) year.
Proof.
  unfold year_header.
  destruct (contains "計" year) eqn:Hc.
  - now rewrite orb_true_r.
  - rewrite orb_false_r. destruct (String.eqb year "計") eqn:He; [|reflexivity].
    apply String.eqb_eq in He. subst year. discriminate Hc.
Qed.

Lemma header_cells_text (labels : list string) :
  String.concat "" (map year_header labels) = cells_by_label labels.
Proof.
  unfold cells_by_label. f_equal. apply map_ext. exact year_header_cell.
Qed.

Lemma value_cells_text (vals : list string) :
  String.concat "" (value_cells vals) = cells_by_position vals.
Proof.
  destruct vals as [|v vals]; [reflexivity|].
  rewrite value_cells_split by discriminate.
  unfold cells_by_position. rewrite concat_app. f_equal.
Qed.

Lemma data_row_text (pref : pyval * list string) :
  data_row pref
  = sp 24 ++ "<tr>" ++ nl ++ cell_of "td" false (py_str (fst pref)) ++
    cells_by_position (snd pref) ++ sp 24 ++ "</tr>" ++ nl.
Proof.
  unfold data_row. rewrite value_cells_text.
  unfold row_open, label_cell, row_close, cell_of. now rewrite !append_assoc.
Qed.

Lemma total_row_text (tot : option (list string)) :
  String.concat "" (total_row_lines tot)
  = match tot with
    | Some (v :: rest) =>
        sp 24 ++ "<tr class=" ++ dq ++ "total-row" ++ dq ++ ">" ++ nl ++
        sp 28 ++ "<td>総計</td>" ++ nl ++
        cells_by_position (v :: rest) ++ sp 24 ++ "</tr>" ++ nl
    | _ => ""
    end.
Proof.
  destruct tot as [[|v rest]|]; try reflexivity.
  cbn [total_row_lines]. rewrite !concat_cons, concat_app, value_cells_text.
  cbn [String.concat]. unfold total_row_open, label_cell, row_close.
  now rewrite !append_assoc.
Qed.

(** The rows of a panel, from the header cells to the end of the body. *)
Lemma panel_rows (i : nat) (name : string) (d : sheet_data) (p : string) :
  panel i name d = inr p ->
  exists before after,
    p = before ++
        sp 28 ++ "<th>都道府県</th>" ++ nl ++
        cells_by_label (years d) ++
        sp 24 ++ "</tr>" ++ nl ++
        sp 20 ++ "</thead>" ++ nl ++
        sp 20 ++ "<tbody>" ++ nl ++
        String.concat ""
          (map (fun row =>
                  sp 24 ++ "<tr>" ++ nl ++
                  cell_of "td" false (py_str (fst row)) ++
                  cells_by_position (snd row) ++
                  sp 24 ++ "</tr>" ++ nl)
               (prefectures d)) ++
        match total d with
        | Some (v :: rest) =>
            sp 24 ++ "<tr class=" ++ dq ++ "total-row" ++ dq ++ ">" ++ nl ++
            sp 28 ++ "<td>総計</td>" ++ nl ++
            cells_by_position (v :: rest) ++ sp 24 ++ "</tr>" ++ nl
        | _ => ""
        end ++
        sp 20 ++ "</tbody>" ++ nl ++ after.
Proof.
  unfold panel. destruct (years d) as [|y ys] eqn:Hy; [discriminate|].
  intros H. apply inr_eq in H. subst p.
  rewrite <- Hy, header_cells_text, total_row_text.
  rewrite (map_ext data_row _ data_row_text).
  exists (panel_comment name ++ panel_open i name ++
          panel_heading name y (last (years d) y) ++
          sp 12 ++ "<div class=" ++ dq ++ "table-wrapper" ++ dq ++ ">" ++ nl ++
          sp 16 ++ "<table>" ++ nl ++ sp 20 ++ "<thead>" ++ nl ++ row_open),
         (sp 16 ++ "</table>" ++ nl ++ sp 12 ++ "</div>" ++ nl ++ sp 8 ++ "</div>" ++ nl ++ nl).
  unfold row_close. now rewrite !append_assoc.
Qed.

(** ** The aggregate column in the document *)

Lemma document_rows
    (tpl : template) (data : list (string * sheet_data))
    (page_title page_subtitle html name : string) (d : sheet_data) :
  document tpl data page_title page_subtitle = inr html ->
  In (name, d) data ->
  exists before after,
    html = before ++
           sp 28 ++ "<th>都道府県</th>" ++ nl ++
           cells_by_label (years d) ++
           sp 24 ++ "</tr>" ++ nl ++
           sp 20 ++ "</thead>" ++ nl ++
           sp 20 ++ "<tbody>" ++ nl ++
           String.concat ""
             (map (fun row =>
                     sp 24 ++ "<tr>" ++ nl ++
                     cell_of "td" false (py_str (fst row)) ++
                     cells_by_position (snd row) ++
                     sp 24 ++ "</tr>" ++ nl)
                  (prefectures d)) ++
           match total d with
           | Some (v :: rest) =>
               sp 24 ++ "<tr class=" ++ dq ++ "total-row" ++ dq ++ ">" ++ nl ++
               sp 28 ++ "<td>総計</td>" ++ nl ++
               cells_by_position (v :: rest) ++ sp 24 ++ "</tr>" ++ nl
           | _ => ""
           end ++
           sp 20 ++ "</tbody>" ++ nl ++ after.
Proof.
  intros Hdoc Hin. destruct (In_nth_error _ _ Hin) as [i Hi].
  destruct (document_panel _ _ _ _ _ _ _ _ Hdoc Hi) as (p & b & a & Hp & ->).
  destruct (panel_rows _ _ _ _ Hp) as (pb & pa & ->).
  exists (b ++ pb), (pa ++ a). now rewrite !append_assoc.
Qed.

(** C1, as amended.  In the document, the table of every sheet has one
    header cell per period, which carries the aggregate-column class
    exactly when its label contains the sum sign, whatever its position;
    every body row, and the aggregate row, has its label cell and one
    cell per value, of which the last one carries the class and no
    earlier one does, whatever the values. *)
Theorem aggregate_column_class
    (tpl : template) (data : list (string * sheet_data))
    (page_title page_subtitle html name : string) (d : sheet_data) :
  document tpl data page_title page_subtitle = inr html ->
  In (name, d) data ->
  exists before after,
    html = before ++
           sp 28 ++ "<th>都道府県</th>" ++ nl ++
           cells_by_label (years d) ++
           sp 24 ++ "</tr>" ++ nl ++
           sp 20 ++ "</thead>" ++ nl ++
           sp 20 ++ "<tbody>" ++ nl ++
           String.concat ""
             (map (fun row =>
                     sp 24 ++ "<tr>" ++ nl ++
                     cell_of "td" false (py_str (fst row)) ++
                     cells_by_position (snd row) ++
                     sp 24 ++ "</tr>" ++ nl)
                  (prefectures d)) ++
           match total d with
           | Some (v :: rest) =>
               sp 24 ++ "<tr class=" ++ dq ++ "total-row" ++ dq ++ ">" ++ nl ++
               sp 28 ++ "<td>総計</td>" ++ nl ++
               cells_by_position (v :: rest) ++ sp 24 ++ "</tr>" ++ nl
           | _ => ""
           end ++
           sp 20 ++ "</tbody>" ++ nl ++ after.
Proof. exact (document_rows tpl data page_title page_subtitle html name d). Qed.

(** C1, as amended, at the document of the sample sheet, with the cells
    of its header and of its rows written out. *)
Lemma aggregate_column_class_witness :
  (exists before after,
      sample_document
      = before ++
        sp 28 ++ "<th>都道府県</th>" ++ nl ++
        cells_by_label (years (read_sheet sample_sheet)) ++
        sp 24 ++ "</tr>" ++ nl ++
        sp 20 ++ "</thead>" ++ nl ++
        sp 20 ++ "<tbody>" ++ nl ++
        String.concat ""
          (map (fun row =>
                  sp 24 ++ "<tr>" ++ nl ++
                  cell_of "td" false (py_str (fst row)) ++
                  cells_by_position (snd row) ++
                  sp 24 ++ "</tr>" ++ nl)
               (prefectures (read_sheet sample_sheet))) ++
        match total (read_sheet sample_sheet) with
        | Some (v :: rest) =>
            sp 24 ++ "<tr class=" ++ dq ++ "total-row" ++ dq ++ ">" ++ nl ++
            sp 28 ++ "<td>総計</td>" ++ nl ++
            cells_by_position (v :: rest) ++ sp 24 ++ "</tr>" ++ nl
        | _ => ""
        end ++
        sp 20 ++ "</tbody>" ++ nl ++ after) /\
  cells_by_label (years (read_sheet sample_sheet))
  = sp 28 ++ "<th>2009</th>" ++ nl ++
    sp 28 ++ "<th>2010</th>" ++ nl ++
    sp 28 ++ "<th class=" ++ dq ++ "total-col" ++ dq ++ ">計</th>" ++ nl /\
  cells_by_position ["596"; "654"; "1,250"]
  = sp 28 ++ "<td>596</td>" ++ nl ++
    sp 28 ++ "<td>654</td>" ++ nl ++
    sp 28 ++ "<td class=" ++ dq ++ "total-col" ++ dq ++ ">1,250</td>" ++ nl.
Proof.
  split; [|split; vm_compute; reflexivity].
  apply (aggregate_column_class sample_template
           (read_excel_data [("EV", sample_sheet)]) "t" "s" sample_document "EV"
           (read_sheet sample_sheet)).
  - vm_compute. reflexivity.
  - left. reflexivity.
Defined.

(** ** The aggregate row in the document *)

(** C10.  The aggregate row of a sheet read from a workbook comes from a
    body row whose label holds either marker; whichever it holds, the
    document renders the row with the label cell of the first marker,
    followed by the values of that row. *)
Theorem aggregate_label_is_fixed
    (tpl : template) (wb : workbook)
    (page_title page_subtitle html name : string) (d : sheet_data)
    (v : string) (rest : list string) :
  document tpl (read_excel_data wb) page_title page_subtitle = inr html ->
  In (name, d) (read_excel_data wb) ->
  total d = Some (v :: rest) ->
  (exists ws row,
      In (name, ws) wb /\ d = read_sheet ws /\
      In row (range_from_2 (max_row ws)) /\ extracted ws row = true /\
      has_marker (py_str (cell ws row 1)) /\
      row_data ws row = v :: rest) /\
  (exists before after,
      html = before ++
             sp 24 ++ "<tr class=" ++ dq ++ "total-row" ++ dq ++ ">" ++ nl ++
             sp 28 ++ "<td>総計</td>" ++ nl ++
             cells_by_position (v :: rest) ++
             sp 24 ++ "</tr>" ++ nl ++
             sp 20 ++ "</tbody>" ++ nl ++ after).
Proof.
  intros Hdoc Hin Htot. split.
  - destruct (read_excel_data_sheets wb name d Hin) as (ws & Hws & ->).
    destruct (total_from_marker_row ws _ Htot) as (row & H1 & H2 & H3 & H4).
    now exists ws, row.
  - destruct (document_rows _ _ _ _ _ _ _ Hdoc Hin) as (b & a & ->).
    rewrite Htot.
    exists (b ++
            sp 28 ++ "<th>都道府県</th>" ++ nl ++
            cells_by_label (years d) ++
            sp 24 ++ "</tr>" ++ nl ++
            sp 20 ++ "</thead>" ++ nl ++
            sp 20 ++ "<tbody>" ++ nl ++
            String.concat ""
              (map (fun row =>
                      sp 24 ++ "<tr>" ++ nl ++
                      cell_of "td" false (py_str (fst row)) ++
                      cells_by_position (snd row) ++
                      sp 24 ++ "</tr>" ++ nl)
                   (prefectures d))), a.
    now rewrite !append_assoc.
Qed.

(** C10 at the sample sheet, whose aggregate row is labelled with the
    second marker. *)
Lemma aggregate_label_is_fixed_witness :
  ((exists ws row,
       In ("EV", ws) [("EV", sample_sheet)] /\
       read_sheet sample_sheet = read_sheet ws /\
       In row (range_from_2 (max_row ws)) /\ extracted ws row = true /\
       has_marker (py_str (cell ws row 1)) /\
       row_data ws row = ["596"; "654"; "1,250"]) /\
   (exists before after,
       sample_document
       = before ++
         sp 24 ++ "<tr class=" ++ dq ++ "total-row" ++ dq ++ ">" ++ nl ++
         sp 28 ++ "<td>総計</td>" ++ nl ++
         cells_by_position ["596"; "654"; "1,250"] ++
         sp 24 ++ "</tr>" ++ nl ++
         sp 20 ++ "</tbody>" ++ nl ++ after)) /\
  py_str (cell sample_sheet 3 1) = "合計" /\
  contains "合計" sample_document = false.
Proof.
  split; [|split; vm_compute; reflexivity].
  apply (aggregate_label_is_fixed sample_template [("EV", sample_sheet)] "t" "s"
           sample_document "EV" (read_sheet sample_sheet) "596" ["654"; "1,250"]).
  - vm_compute. reflexivity.
  - left. reflexivity.
  - vm_compute. reflexivity.
Defined.

(** ** Sheet names in the document *)

Lemma until_quote_before (name rest : string) :
  until_quote (name ++ dq ++ rest) = until_quote name.
Proof.
  induction name as [|c name IH]; [reflexivity|].
  cbn [append until_quote]. destruct (Ascii.eqb c (ascii_of_nat 34)); [reflexivity|].
  now rewrite IH.
Qed.

Lemma until_quote_whole (s : string) :
  until_quote s = s <-> contains dq s = false.
Proof.
  induction s as [|c s IH]; [split; reflexivity|].
  cbn [until_quote contains]. destruct (Ascii.eqb c (ascii_of_nat 34)) eqn:E.
  - apply Ascii.eqb_eq in E. subst c. split; [discriminate|].
    intros H. apply orb_false_iff in H. destruct H as [H _].
    assert (Ht : String.prefix dq (String (ascii_of_nat 34) s) = true)
      by (destruct s; reflexivity).
    congruence.
  - assert (Hp : String.prefix dq (String c s) = false).
    { unfold dq. cbn [String.prefix]. destruct (ascii_dec (ascii_of_nat 34) c) as [<-|N].
      - now rewrite Ascii.eqb_refl in E.
      - reflexivity. }
    rewrite Hp. cbn [orb]. rewrite <- IH. split; intros H; [congruence | now rewrite H].
Qed.

Lemma panel_opening (i : nat) (name : string) (d : sheet_data) (p : string) :
  panel i name d = inr p ->
  exists rest, p = panel_comment name ++ panel_open i name ++ rest.
Proof.
  unfold panel. destruct (years d) as [|y ys]; [discriminate|].
  intros H. apply inr_eq in H. subst p. now eexists.
Qed.

Lemma panel_id_read (i : nat) (name : string) :
  panel_id (panel_open i name) = Some (until_quote name).
Proof.
  unfold panel_id, panel_open.
  replace (sp 8 ++ "<div id=" ++ dq ++ name ++ dq ++ " class=" ++ dq ++
           "tab-content " ++ active_class i ++ dq ++ ">" ++ nl)
    with ((sp 8 ++ "<div id=" ++ dq) ++
          (name ++ dq ++ (" class=" ++ dq ++ "tab-content " ++ active_class i ++ dq ++ ">" ++ nl)))
    by (now rewrite !append_assoc).
  rewrite drop_prefix_app. cbn [option_map]. now rewrite until_quote_before.
Qed.

(** C3, as amended.  The name of every sheet is emitted as it stands: in
    the button of its tab, as the argument of the click handler and as the
    label, and in the opening line of its panel, between the quotes of
    the id attribute.  A reader of that attribute finds the name itself
    exactly when the name holds no double quote. *)
Theorem panel_id_is_sheet_name
    (tpl : template) (data : list (string * sheet_data))
    (page_title page_subtitle html : string)
    (i : nat) (name : string) (d : sheet_data) :
  document tpl data page_title page_subtitle = inr html ->
  nth_error data i = Some (name, d) ->
  let active := if Nat.eqb i 0 then "active" else "" in
  let button :=
    sp 12 ++ "<button class=" ++ dq ++ "tab " ++ active ++ dq ++
    " onclick=" ++ dq ++ "showTab(event, '" ++ name ++ "')" ++ dq ++ ">" ++
    name ++ "</button>" ++ nl in
  let opening :=
    sp 8 ++ "<div id=" ++ dq ++ name ++ dq ++ " class=" ++ dq ++
    "tab-content " ++ active ++ dq ++ ">" ++ nl in
  (exists before after, html = before ++ button ++ after) /\
  (exists before after, html = before ++ opening ++ after) /\
  (panel_id opening = Some name <-> contains dq name = false).
Proof.
  intros Hdoc Hi active button opening. split; [|split].
  - exact (document_button _ _ _ _ _ _ _ _ Hdoc Hi).
  - destruct (document_panel _ _ _ _ _ _ _ _ Hdoc Hi) as (p & b & a & Hp & ->).
    destruct (panel_opening _ _ _ _ Hp) as (rest & ->).
    exists (b ++ panel_comment name), (rest ++ a).
    change opening with (panel_open i name). now rewrite !append_assoc.
  - change opening with (panel_open i name). rewrite panel_id_read.
    rewrite <- until_quote_whole. split; intros H; [congruence | now rewrite H].
Qed.

(** C3, as amended, at the document of the sample sheet. *)
Lemma panel_id_is_sheet_name_witness :
  (exists before after,
      sample_document
      = before ++
        (sp 12 ++ "<button class=" ++ dq ++ "tab active" ++ dq ++
         " onclick=" ++ dq ++ "showTab(event, 'EV')" ++ dq ++ ">EV</button>" ++ nl) ++
        after) /\
  (exists before after,
      sample_document
      = before ++
        (sp 8 ++ "<div id=" ++ dq ++ "EV" ++ dq ++ " class=" ++ dq ++
         "tab-content active" ++ dq ++ ">" ++ nl) ++
        after) /\
  (panel_id (sp 8 ++ "<div id=" ++ dq ++ "EV" ++ dq ++ " class=" ++ dq ++
             "tab-content active" ++ dq ++ ">" ++ nl) = Some "EV"
   <-> contains dq "EV" = false).
Proof.
  apply (panel_id_is_sheet_name sample_template
           (read_excel_data [("EV", sample_sheet)]) "t" "s" sample_document
           0 "EV" (read_sheet sample_sheet)).
  - vm_compute. reflexivity.
  - reflexivity.
Defined.

(** A name with a double quote ends the attribute early: the reader finds
    only what stands before the quote. *)
Example quote_ends_the_id :
  panel_id (panel_open 0 ("a" ++ dq ++ "b")) = Some "a".
Proof. reflexivity. Qed.

(** ** The active tab *)

Lemma panel_bodies (l : list (nat * (string * sheet_data))) (ps : list string) :
  Forall2 (fun it p => panel (fst it) (fst (snd it)) (snd (snd it)) = inr p) l ps ->
  exists bodies,
    List.length bodies = List.length l /\
    ps = map (fun it =>
                panel_comment (fst (snd (fst it))) ++
                panel_open (fst (fst it)) (fst (snd (fst it))) ++ snd it)
             (combine l bodies).
Proof.
  induction 1 as [|[i [name d]] p l ps Hp _ (bodies & Hlen & ->)].
  - now exists [].
  - cbn [fst snd] in Hp. destruct (panel_opening _ _ _ _ Hp) as (rest & ->).
    exists (rest :: bodies). split; [cbn; now rewrite Hlen | reflexivity].
Qed.

(** X9.  The document is the opening text, one button per sheet, one
    panel per sheet, and the closing script; buttons and panels follow
    the order of the sheets, and the class that marks the active tab is
    given to the first button and to the first panel alone. *)
Theorem first_tab_alone_is_active
    (tpl : template) (data : list (string * sheet_data))
    (page_title page_subtitle html : string) :
  document tpl data page_title page_subtitle = inr html ->
  exists bodies,
    List.length bodies = List.length data /\
    html
    = tpl_head tpl page_title page_subtitle ++
      String.concat ""
        (map (fun it =>
                sp 12 ++ "<button class=" ++ dq ++ "tab " ++
                (if Nat.eqb (fst it) 0 then "active" else "") ++ dq ++
                " onclick=" ++ dq ++ "showTab(event, '" ++ snd it ++ "')" ++ dq ++ ">" ++
                snd it ++ "</button>" ++ nl)
             (enumerate (map fst data))) ++
      sp 8 ++ "</div>" ++ nl ++ nl ++
      String.concat ""
        (map (fun it =>
                let i := fst (fst it) in
                let name := fst (snd (fst it)) in
                sp 8 ++ "<!-- " ++ name ++ "タブ (" ++ name ++ " Tab) -->" ++ nl ++
                sp 8 ++ "<div id=" ++ dq ++ name ++ dq ++ " class=" ++ dq ++
                "tab-content " ++ (if Nat.eqb i 0 then "active" else "") ++ dq ++ ">" ++ nl ++
                snd it)
             (combine (enumerate data) bodies)) ++
      tpl_script tpl.
Proof.
  intros Hdoc. destruct (document_text _ _ _ _ _ Hdoc) as (ps & Hps & ->).
  destruct (panel_bodies _ _ Hps) as (bodies & Hlen & ->).
  exists bodies. split.
  - rewrite Hlen. unfold enumerate. rewrite length_combine, length_seq. lia.
  - rewrite (map_ext
               (fun it : nat * (string * sheet_data) * string =>
                  panel_comment (fst (snd (fst it))) ++
                  panel_open (fst (fst it)) (fst (snd (fst it))) ++ snd it)
               (fun it =>
                  let i := fst (fst it) in
                  let name := fst (snd (fst it)) in
                  sp 8 ++ "<!-- " ++ name ++ "タブ (" ++ name ++ " Tab) -->" ++ nl ++
                  sp 8 ++ "<div id=" ++ dq ++ name ++ dq ++ " class=" ++ dq ++
                  "tab-content " ++ (if Nat.eqb i 0 then "active" else "") ++ dq ++
                  ">" ++ nl ++ snd it)).
    + reflexivity.
    + intros [[i [name d]] body]. cbn [fst snd]. cbv zeta.
      unfold panel_comment, panel_open, active_class. now rewrite !append_assoc.
Qed.

(** X9 at a map of two sheets: the second button and the second panel are
    not marked. *)
Lemma first_tab_alone_is_active_witness :
  (exists bodies,
      List.length bodies = List.length two_sheets /\
      two_sheet_document
      = tpl_head sample_template "t" "s" ++
        String.concat ""
          (map (fun it =>
                  sp 12 ++ "<button class=" ++ dq ++ "tab " ++
                  (if Nat.eqb (fst it) 0 then "active" else "") ++ dq ++
                  " onclick=" ++ dq ++ "showTab(event, '" ++ snd it ++ "')" ++ dq ++ ">" ++
                  snd it ++ "</button>" ++ nl)
               (enumerate (map fst two_sheets))) ++
        sp 8 ++ "</div>" ++ nl ++ nl ++
        String.concat ""
          (map (fun it =>
                  let i := fst (fst it) in
                  let name := fst (snd (fst it)) in
                  sp 8 ++ "<!-- " ++ name ++ "タブ (" ++ name ++ " Tab) -->" ++ nl ++
                  sp 8 ++ "<div id=" ++ dq ++ name ++ dq ++ " class=" ++ dq ++
                  "tab-content " ++ (if Nat.eqb i 0 then "active" else "") ++ dq ++ ">" ++ nl ++
                  snd it)
               (combine (enumerate two_sheets) bodies)) ++
        tpl_script sample_template) /\
  map (fun it =>
         sp 12 ++ "<button class=" ++ dq ++ "tab " ++
         (if Nat.eqb (fst it) 0 then "active" else "") ++ dq ++
         " onclick=" ++ dq ++ "showTab(event, '" ++ snd it ++ "')" ++ dq ++ ">" ++
         snd it ++ "</button>" ++ nl)
      (enumerate (map fst two_sheets))
  = [sp 12 ++ "<button class=" ++ dq ++ "tab active" ++ dq ++
     " onclick=" ++ dq ++ "showTab(event, 'EV')" ++ dq ++ ">EV</button>" ++ nl;
     sp 12 ++ "<button class=" ++ dq ++ "tab " ++ dq ++
     " onclick=" ++ dq ++ "showTab(event, 'PHEV')" ++ dq ++ ">PHEV</button>" ++ nl] /\
  contains ("<div id=" ++ dq ++ "EV" ++ dq ++ " class=" ++ dq ++ "tab-content active" ++ dq)
           two_sheet_document = true /\
  contains ("<div id=" ++ dq ++ "PHEV" ++ dq ++ " class=" ++ dq ++ "tab-content " ++ dq)
           two_sheet_document = true.
Proof.
  split; [|vm_compute; repeat split].
  apply (first_tab_alone_is_active sample_template two_sheets "t" "s" two_sheet_document).
  vm_compute. reflexivity.
Defined.

(** ** Runs on a console *)

(** A console either lets the run through or ends it, at a line, with an
    exception. *)
Lemma on_console_cases (con : console) (t : list effect) (r : halt + unit) :
  forall printed t' r' p,
    on_console con printed t r = (t', r', p) ->
    (t' = t /\ r' = r) \/
    (exists e line rest, r' = inl (Uncaught e) /\ t = (t' ++ Print line :: rest)%list).
Proof.
  induction t as [|x t IH]; intros printed t' r' p H.
  - cbn in H. inversion H; subst. now left.
  - assert (Hstep : forall q,
               (let '(t'', r'', p'') := on_console con q t r in (x :: t'', r'', p''))
               = (t', r', p) ->
               (t' = x :: t /\ r' = r) \/
               (exists e line rest,
                   r' = inl (Uncaught e) /\ x :: t = (t' ++ Print line :: rest)%list)).
    { intros q Hq. destruct (on_console con q t r) as [[t'' r''] p''] eqn:E.
      inversion Hq; subst.
      destruct (IH _ _ _ _ E) as [[-> ->] | (e & line & rest & -> & ->)].
      - now left.
      - right. now exists e, line, rest. }
    destruct x as [line | path | path | path | path content]; cbn [on_console] in H;
      try exact (Hstep _ H).
    destruct (refuses con printed line) as [e|] eqn:Hr.
    + inversion H; subst. right. now exists e, line, t.
    + exact (Hstep _ H).
Qed.

(** A console that takes every line changes nothing. *)
Lemma on_console_quiet (con : console) (t : list effect) (r : halt + unit) :
  (forall printed line, refuses con printed line = None) ->
  forall printed, exists p, on_console con printed t r = (t, r, p).
Proof.
  intros Hq. induction t as [|x t IH]; intros printed.
  - now exists printed.
  - destruct x as [line | path | path | path | path content]; cbn [on_console];
      try (destruct (IH printed) as [p ->]; now exists p).
    rewrite Hq. destruct (IH (printed ++ [line])%list) as [p ->]. now exists p.
Qed.

Lemma forallb_prefix {A : Type} (f : A -> bool) (l1 l2 : list A) :
  forallb f (l1 ++ l2) = true -> forallb f l1 = true.
Proof. rewrite forallb_app. intros H. now apply andb_true_iff in H. Qed.

(** X11.  On a console that takes every line and can be flushed: when
    the source exists and loads, every sheet read from it has a period
    and the destination can be written, the process writes the document
    of the loaded data, titled after the destination name, to the
    destination, once, between the progress and the completion lines, and
    ends with status 0. *)
Theorem successful_run
    (con : console) (tpl : template) (w : world) (argv : list string) (wb : workbook) :
  (forall printed line, refuses con printed line = None) ->
  (forall printed, flush_fails con printed = false) ->
  (3 <= List.length argv)%nat ->
  path_exists w (nth 1 argv "") = true ->
  load_workbook w (nth 1 argv "") = inr wb ->
  (forall name d, In (name, d) (read_excel_data wb) -> years d <> []) ->
  writable w (nth 2 argv "") = true ->
  exists html,
    document tpl (read_excel_data wb)
      (fst (titles (nth 2 argv ""))) (snd (titles (nth 2 argv ""))) = inr html /\
    process con (main tpl w argv)
    = ((progress (nth 1 argv "") (read_excel_data wb) ++
        OpenForWriting (nth 2 argv "") :: FileWritten (nth 2 argv "") html ::
        completion (nth 2 argv ""))%list, 0).
Proof.
  intros Hquiet Hflush Hlen Hex Hload Hyears Hw.
  destruct (document_succeeds tpl (read_excel_data wb)
              (fst (titles (nth 2 argv ""))) (snd (titles (nth 2 argv ""))) Hyears)
    as [html Hdoc].
  exists html. split; [exact Hdoc|].
  unfold process.
  destruct (on_console_quiet con (fst (main tpl w argv)) (snd (main tpl w argv)) Hquiet [])
    as [p ->].
  rewrite Hflush. rewrite (main_run tpl w argv Hlen). cbv zeta.
  rewrite Hex, Hload, Hdoc, Hw. reflexivity.
Qed.

(** X11 at the sample workbook, on the console that takes every line. *)
Lemma successful_run_witness :
  exists html,
    document sample_template (read_excel_data [("EV", sample_sheet)])
      (fst (titles (nth 2 sample_argv ""))) (snd (titles (nth 2 sample_argv ""))) = inr html /\
    process quiet_console (main sample_template sample_world sample_argv)
    = ((progress (nth 1 sample_argv "") (read_excel_data [("EV", sample_sheet)]) ++
        OpenForWriting (nth 2 sample_argv "") :: FileWritten (nth 2 sample_argv "") html ::
        completion (nth 2 sample_argv ""))%list, 0).
Proof.
  apply (successful_run quiet_console sample_template sample_world sample_argv
           [("EV", sample_sheet)]).
  - reflexivity.
  - reflexivity.
  - simpl. lia.
  - reflexivity.
  - reflexivity.
  - intros name d [H | []]. inversion H; subst. discriminate.
  - reflexivity.
Defined.

(** The same run on a console whose encoding holds ASCII only ends at the
    first progress line, before the workbook is loaded; on a console
    that cannot be flushed it writes the file and ends with status 120. *)
Example runs_on_other_consoles :
  process ascii_console (main sample_template sample_world sample_argv)
  = ([PathExists "koufu2_data.xlsx"], 1) /\
  snd (process full_console (main sample_template sample_world sample_argv)) = 120 /\
  existsb is_file_written
    (fst (process full_console (main sample_template sample_world sample_argv))) = true.
Proof. vm_compute. repeat split. Qed.

(** X13.  Whatever the arguments, the world and the console, a process
    tests and loads no path but its first argument and writes no path but
    its second; it ends with status 0, 1 or 120, and with 120 exactly when
    the last flush of standard output fails. *)
Theorem run_is_confined
    (con : console) (tpl : template) (w : world) (argv : list string) :
  forallb (confined (nth 1 argv "") (nth 2 argv ""))
          (fst (process con (main tpl w argv))) = true /\
  (snd (process con (main tpl w argv)) = 0 \/
   snd (process con (main tpl w argv)) = 1 \/
   snd (process con (main tpl w argv)) = 120) /\
  (snd (process con (main tpl w argv)) = 120 <->
   flush_fails con
     (snd (on_console con [] (fst (main tpl w argv)) (snd (main tpl w argv)))) = true).
Proof.
  destruct (main_confined tpl w argv) as [Hconf Hstat].
  unfold process.
  destruct (on_console con [] (fst (main tpl w argv)) (snd (main tpl w argv)))
    as [[t res] printed] eqn:E.
  cbn [fst snd].
  assert (Ht : forallb (confined (nth 1 argv "") (nth 2 argv "")) t = true).
  { destruct (on_console_cases _ _ _ _ _ _ _ E) as [[-> _] | (e & line & rest & _ & Hsplit)].
    - exact Hconf.
    - rewrite Hsplit in Hconf. exact (forallb_prefix _ _ _ Hconf). }
  assert (Hs : exit_status (t, res) = 0 \/ exit_status (t, res) = 1).
  { destruct (on_console_cases _ _ _ _ _ _ _ E) as [[_ ->] | (e & line & rest & -> & _)].
    - exact Hstat.
    - now right. }
  split; [exact Ht|]. destruct (flush_fails con printed).
  - split; [now right; right | split; reflexivity].
  - split; [destruct Hs as [Hs|Hs]; rewrite Hs; [now left | now right; left]|].
    split; [|discriminate]. destruct Hs as [Hs|Hs]; rewrite Hs; discriminate.
Qed.

Lemma filter_prefix_nil {A : Type} (f : A -> bool) (l1 l2 : list A) :
  filter f (l1 ++ l2) = [] -> filter f l1 = [].
Proof. rewrite filter_app. intros H. now apply app_eq_nil in H. Qed.

Lemma filter_prefix_one {A : Type} (f : A -> bool) (l1 l2 : list A) (x : A) :
  filter f (l1 ++ l2) = [x] -> filter f l1 = [] \/ filter f l1 = [x].
Proof.
  rewrite filter_app. intros H. destruct (filter f l1) as [|y [|z l]].
  - now left.
  - right. now inversion H.
  - discriminate.
Qed.

Lemma main_writes_once (tpl : template) (w : world) (argv : list string) :
  filter is_file_written (fst (main tpl w argv)) = [] \/
  exists html,
    filter is_file_written (fst (main tpl w argv)) = [FileWritten (nth 2 argv "") html].
Proof.
  destruct (main_written tpl w argv) as [H0 H1].
  destruct (Z.eq_dec (exit_status (main tpl w argv)) 0) as [E|E].
  - right. exact (H0 E).
  - left. exact (H1 E).
Qed.

(** X14.  A process that ends with status 0 has written exactly one
    file, the destination, and every line it printed was taken; whatever
    the status, no process writes more than that one file. *)
Theorem status_zero_means_written
    (con : console) (tpl : template) (w : world) (argv : list string) :
  (snd (process con (main tpl w argv)) = 0 ->
   fst (process con (main tpl w argv)) = fst (main tpl w argv) /\
   exists html,
     filter is_file_written (fst (process con (main tpl w argv)))
     = [FileWritten (nth 2 argv "") html]) /\
  (filter is_file_written (fst (process con (main tpl w argv))) = [] \/
   exists html,
     filter is_file_written (fst (process con (main tpl w argv)))
     = [FileWritten (nth 2 argv "") html]).
Proof.
  destruct (main_written tpl w argv) as [H0 _].
  pose proof (main_writes_once tpl w argv) as Honce.
  unfold process.
  destruct (on_console con [] (fst (main tpl w argv)) (snd (main tpl w argv)))
    as [[t res] printed] eqn:E.
  cbn [fst snd].
  destruct (on_console_cases _ _ _ _ _ _ _ E) as [[-> ->] | (e & line & rest & -> & Hsplit)].
  - split; [|exact Honce].
    destruct (flush_fails con printed); [discriminate|].
    intros Hs. split; [reflexivity|]. apply H0.
    destruct (main tpl w argv) as [t r]. exact Hs.
  - split.
    + destruct (flush_fails con printed); discriminate.
    + rewrite Hsplit in Honce. destruct Honce as [Hn | [html Hone]].
      * left. exact (filter_prefix_nil _ _ _ Hn).
      * destruct (filter_prefix_one _ _ _ _ Hone) as [Hn | Hx]; [now left|].
        right. now exists html.
Qed.
